(** * Yezdi Adventure Dashboard: the telemetry acquisition and fallback engine

    A shallow embedding of the three singleton managers of the application
    (the BLE manager, the storage manager and the sensor manager) and the
    properties of their frame decoder, operational log, telemetry cache,
    authentication chain, GPS speed estimate and synthetic generator.

    JavaScript objects are finite maps from property names to values, the
    mutable fields of the singletons and of the runtime around them (clock,
    random source, console, AsyncStorage, radio) form one [World], and every
    method is a computation in a state-and-exception monad over it.  An
    [await] is a sequence point: an asynchronous method is run to completion,
    interleavings with other event handlers are not modelled. *)

From Stdlib Require Import ZArith QArith Qround Qabs Qminmax Lia Lqa String Ascii DecimalString.
From Stdlib Require Import Floats.
From Stdlib.Strings Require Import Byte.
From stdpp Require Import gmap strings list fin_maps.

Close Scope Q_scope.
Set Warnings "-register-all".
Set Warnings "-inexact-float".

(** ** JavaScript values *)

(** Numbers are IEEE doubles in the source.  A number held in a value is
    the rational a finite double denotes; the arithmetic of the decoder and
    of the generator stays within the integers and a few exact steps.  The
    GPS speed estimate, which divides and multiplies, is computed on the
    binary64 numbers themselves ([float]), and [jsnum] is what such a number
    denotes: a rational, an infinity or NaN. *)
Inductive jsval :=
| JNull
| JBool (b : bool)
| JNum (x : Q)
| JStr (s : string)
| JArr (l : list jsval)
| JObj (o : gmap string jsval).

Inductive jsnum :=
| Fin (x : Q)
| PosInf
| NegInf
| NaN.

Definition int (z : Z) : jsval := JNum (inject_Z z).

(** [x.toString()] of an integer-valued number. *)
Definition toString (z : Z) : string := NilZero.string_of_int (Z.to_int z).

(** [Math.round]: the nearest integer, ties towards plus infinity. *)
Definition Math_round (x : Q) : Z := Qfloor (x + (1 # 2))%Q.

(** [x.toFixed(1)]: the integer [n] with [n / 10] nearest to [|x|] (the larger
    one on a tie), printed with one fractional digit and the sign of [x]. *)
Definition toFixed1 (x : Q) : string :=
  let a := Qabs x in
  let n := Qfloor (a * 10 + (1 # 2))%Q in
  ((if Qlt_le_dec x 0 then "-" else "") ++ toString (n / 10)%Z ++ "." ++ toString (n mod 10)%Z)%string.

(** Truthiness of a value ([if (v)], [v || d], [!v]). *)
Definition truthy (v : jsval) : bool :=
  match v with
  | JNull => false
  | JBool b => b
  | JNum x => negb (Qeq_bool x 0)
  | JStr s => negb (String.eqb s "")
  | JArr _ | JObj _ => true
  end.

(** [z || d] on an integer-valued number. *)
Definition or_default (z d : Z) : Z := if (z =? 0)%Z then d else z.

(** Own enumerable properties of a value, as the object spread [{...v}]
    copies them: the properties of an object, the indices of an array or of
    a string, nothing for the other primitives and for [null]. *)
Fixpoint indexed {A} (i : nat) (l : list A) : list (string * A) :=
  match l with
  | [] => []
  | x :: l' => (toString (Z.of_nat i), x) :: indexed (S i) l'
  end.

Definition chars (s : string) : list jsval :=
  (fun c => JStr (String c EmptyString)) <$> list_ascii_of_string s.

Definition spread (v : jsval) : gmap string jsval :=
  match v with
  | JObj o => o
  | JArr l => list_to_map (indexed 0 l)
  | JStr s => list_to_map (indexed 0 (chars s))
  | JNull | JBool _ | JNum _ => ∅
  end.

(** A property read [o.k] on an object; [None] is [undefined]. *)
Definition prop (k : string) (v : jsval) : option jsval :=
  match v with
  | JObj o => o !! k
  | _ => None
  end.

(** ** Log messages and exceptions *)

(** A message is the template literal of the source kept in pieces: the
    literal text and, in order, the interpolated values.  The pieces are not
    flattened into one string, so the number and JSON formatting of the
    runtime is not needed. *)
Inductive frag :=
| Txt (s : string)                 (* literal text of the template *)
| Val (v : jsval)                  (* an interpolated string or number *)
| Hex (b : list byte)              (* buffer.toString('hex') *)
| Json (v : jsval).                (* JSON.stringify(v) *)

Definition message := list frag.

(** An [Error] object; the program only ever reads its [message]. *)
Record exn := Error { error_message : message }.

Inductive Result (A : Type) :=
| Return (a : A)
| Throw (e : exn).
Arguments Return {A} a.
Arguments Throw {A} e.

Record LogEntry := {
  timestamp : Z;                   (* new Date(), milliseconds since the epoch *)
  level : string;
  msg : message;
}.

(** ** The Buffer of the [buffer] package *)

Module Buffer.

Definition byte_at (b : byte) : Z := Z.of_N (Byte.to_N b).

(** A read beyond the end raises a RangeError. *)
Definition out_of_range : exn :=
  Error [Txt "Trying to access beyond buffer length"].

Definition checked {A} (buffer : list byte) (offset ext : nat) (v : A) : Result A :=
  if (offset + ext <=? length buffer)%nat then Return v else Throw out_of_range.

Definition at_ (buffer : list byte) (i : nat) : Z :=
  byte_at (nth i buffer x00).

Definition readUInt8 (buffer : list byte) (offset : nat) : Result Z :=
  checked buffer offset 1 (at_ buffer offset).

(** [(this[offset] << 8) | this[offset + 1]] *)
Definition readUInt16BE (buffer : list byte) (offset : nat) : Result Z :=
  checked buffer offset 2
    (Z.lor (Z.shiftl (at_ buffer offset) 8) (at_ buffer (offset + 1))).

(** [this[offset] * 0x1000000 +
     ((this[offset + 1] << 16) | (this[offset + 2] << 8) | this[offset + 3])] *)
Definition readUInt32BE (buffer : list byte) (offset : nat) : Result Z :=
  checked buffer offset 4
    (at_ buffer offset * 16777216 +
     Z.lor (Z.lor (Z.shiftl (at_ buffer (offset + 1)) 16)
                  (Z.shiftl (at_ buffer (offset + 2)) 8))
           (at_ buffer (offset + 3)))%Z.

(** A buffer written as a list of numbers, each taken modulo 256. *)
Definition of_list (l : list Z) : list byte :=
  (fun z => default x00 (Byte.of_N (Z.to_N (z mod 256)))) <$> l.

(** [Buffer.from(value)]: a string, an array, an object with a [length]
    or the JSON form of a buffer are accepted, anything else raises a
    TypeError.  Only whether it raises matters to the callers. *)
Definition from_value (value : option jsval) : Result unit :=
  let type_error :=
    Throw (Error [Txt "The first argument must be one of type string, Buffer, ArrayBuffer, Array, or Array-like Object."]) in
  match value with
  | Some (JStr _) | Some (JArr _) => Return tt
  | Some (JObj o) =>
      match o !! "length", o !! "type", o !! "data" with
      | Some _, _, _ => Return tt
      | None, Some (JStr t), Some (JArr _) =>
          if String.eqb t "Buffer" then Return tt else type_error
      | _, _, _ => type_error
      end
  | Some JNull | Some (JBool _) | Some (JNum _) | None => type_error
  end.

End Buffer.

(** ** The runtime around the managers *)

(** A value kept by AsyncStorage: the text [JSON.stringify] wrote for a
    value, or any other text (on which [JSON.parse] raises a SyntaxError). *)
Inductive Stored :=
| JsonText (v : jsval)
| RawText (s : string).

(** react-native-ble-plx: a connected peripheral as the manager sees it.
    Every asynchronous call of the library resolves or rejects. *)
Record Characteristic := {
  char_uuid : string;
  isReadable : bool;
  isWritableWithResponse : bool;
  isWritableWithoutResponse : bool;
  isNotifiable : bool;
  writeWithResponse : Result unit;  (* writeCharacteristicWithResponseForService on it *)
}.

Record Service := {
  service_uuid : string;
  characteristics : Result (list Characteristic);
}.

Record Device := {
  discoverAllServicesAndCharacteristics : Result unit;
  services : Result (list Service);
  cancelConnection : Result unit;
}.

(** The descriptor handed to the scan callback and back to [connectToDevice]. *)
Record DeviceInfo := {
  id : string;
  name : option string;
  rssi : option Z;
}.

(** expo-location: one position fix. *)
Record Location := {
  latitude : Q;
  longitude : Q;
  accuracy : Q;
  altitude : Q;
  heading : Q;
  fix_time : float;                 (* location.timestamp, milliseconds *)
}.

(** The closure of the position watcher of [startGPSFallback]. *)
Record GpsWatch := {
  lastLocation : option Location;
  lastTime : option float;
}.

(** The record the sensor manager hands to its location callback. *)
Record LocationData := {
  ld_speed : jsnum;
  ld_latitude : Q;
  ld_longitude : Q;
  ld_accuracy : Q;
  ld_altitude : Q;
  ld_heading : Q;
  ld_timestamp : Z;
}.

(** [this.mockData] of the BLE manager; the constructor fills it with numbers,
    booleans and strings and the generator keeps those types. *)
Record MockData := {
  md_speed : Q;
  md_gear : Z;
  md_rpm : Q;
  md_fuel : Q;
  md_ridingMode : string;
  md_highBeam : bool;
  md_hazard : bool;
  md_engineCheck : bool;
  md_battery : bool;
  md_odometer : string;
  md_tripA : string;
  md_tripB : string;
  md_afe : string;
  md_bfe : string;
}.

(** What the platform answers; the managers only read it. *)
Record Platform := {
  random : nat -> Q;                (* the successive results of Math.random() *)
  locationRequest : Result string;  (* Location.requestForegroundPermissionsAsync() *)
  locationStatus : Result string;   (* Location.getForegroundPermissionsAsync() *)
  cameraRequest : Result string;    (* BarCodeScanner.requestPermissionsAsync() *)
  watchPosition : Result unit;      (* Location.watchPositionAsync(...) *)
  accelerometer : Result unit;      (* Accelerometer.setUpdateInterval / addListener *)
  central : string -> Result Device;(* manager.connectToDevice(id) *)
  digest : Result string;           (* Crypto.digestStringAsync(...) *)
  storageFault : option exn;        (* when set, every AsyncStorage call rejects with it *)
}.

(** The fields of the singleton [YezdiBleManager]. *)
Record YezdiBleManager := {
  connectedDevice : option Device;
  isScanning : bool;
  dataCallback : bool;              (* a consumer callback is registered *)
  connectionCallback : bool;
  debugLogs : list LogEntry;
  customSettings : gmap string jsval;
  mockData : MockData;
  sensorFallbackEnabled : bool;
  mockDataEnabled : bool;
  cachedDataEnabled : bool;
  lastKnownData : jsval;
  mockDataInterval : option nat;    (* the handle of the running interval timer *)
  gpsSubscription : option GpsWatch;
  accelerometerSubscription : bool;
}.

(** The fields of the singleton [YezdiSensorManager] that the position
    tracking uses. *)
Record YezdiSensorManager := {
  isInitialized : bool;
  locationSubscription : bool;
  sm_lastLocation : option Location;
  sm_lastLocationTime : option Z;
}.

(** Everything a method can read or change.  The calls made on the consumer
    callbacks and on the radio are recorded in the order they happen. *)
Record World := {
  platform : Platform;
  now : Z;                          (* Date.now() *)
  draws : nat;                      (* calls of Math.random() so far *)
  timers : nat;                     (* interval timers created so far *)
  console : list message;
  asyncStorage : gmap string Stored;
  ble : YezdiBleManager;
  sensors : YezdiSensorManager;
  dataOut : list jsval;             (* arguments of this.dataCallback, oldest first *)
  connectionOut : list (bool * option DeviceInfo);
  locationOut : list LocationData;  (* arguments of the location callback *)
  written : list (string * string * jsval);  (* characteristic writes: service, characteristic, key *)
  monitored : list (string * string);        (* notification subscriptions *)
}.

(** *** Field updates *)

(** [set_f v r] is [r] with its field [f] replaced by [v]. *)
Definition set_now (v : Z) (w : World) : World :=
  {| platform := platform w; now := v; draws := draws w; timers := timers w;
     console := console w; asyncStorage := asyncStorage w; ble := ble w; sensors := sensors w;
     dataOut := dataOut w; connectionOut := connectionOut w; locationOut := locationOut w;
     written := written w; monitored := monitored w |}.
Definition set_draws (v : nat) (w : World) : World :=
  {| platform := platform w; now := now w; draws := v; timers := timers w;
     console := console w; asyncStorage := asyncStorage w; ble := ble w; sensors := sensors w;
     dataOut := dataOut w; connectionOut := connectionOut w; locationOut := locationOut w;
     written := written w; monitored := monitored w |}.
Definition set_timers (v : nat) (w : World) : World :=
  {| platform := platform w; now := now w; draws := draws w; timers := v; console := console w;
     asyncStorage := asyncStorage w; ble := ble w; sensors := sensors w; dataOut := dataOut w;
     connectionOut := connectionOut w; locationOut := locationOut w; written := written w;
     monitored := monitored w |}.
Definition set_console (v : list message) (w : World) : World :=
  {| platform := platform w; now := now w; draws := draws w; timers := timers w; console := v;
     asyncStorage := asyncStorage w; ble := ble w; sensors := sensors w; dataOut := dataOut w;
     connectionOut := connectionOut w; locationOut := locationOut w; written := written w;
     monitored := monitored w |}.
Definition set_asyncStorage (v : gmap string Stored) (w : World) : World :=
  {| platform := platform w; now := now w; draws := draws w; timers := timers w;
     console := console w; asyncStorage := v; ble := ble w; sensors := sensors w;
     dataOut := dataOut w; connectionOut := connectionOut w; locationOut := locationOut w;
     written := written w; monitored := monitored w |}.
Definition set_ble (v : YezdiBleManager) (w : World) : World :=
  {| platform := platform w; now := now w; draws := draws w; timers := timers w;
     console := console w; asyncStorage := asyncStorage w; ble := v; sensors := sensors w;
     dataOut := dataOut w; connectionOut := connectionOut w; locationOut := locationOut w;
     written := written w; monitored := monitored w |}.
Definition set_sensors (v : YezdiSensorManager) (w : World) : World :=
  {| platform := platform w; now := now w; draws := draws w; timers := timers w;
     console := console w; asyncStorage := asyncStorage w; ble := ble w; sensors := v;
     dataOut := dataOut w; connectionOut := connectionOut w; locationOut := locationOut w;
     written := written w; monitored := monitored w |}.
Definition set_dataOut (v : list jsval) (w : World) : World :=
  {| platform := platform w; now := now w; draws := draws w; timers := timers w;
     console := console w; asyncStorage := asyncStorage w; ble := ble w; sensors := sensors w;
     dataOut := v; connectionOut := connectionOut w; locationOut := locationOut w;
     written := written w; monitored := monitored w |}.
Definition set_connectionOut (v : list (bool * option DeviceInfo)) (w : World) : World :=
  {| platform := platform w; now := now w; draws := draws w; timers := timers w;
     console := console w; asyncStorage := asyncStorage w; ble := ble w; sensors := sensors w;
     dataOut := dataOut w; connectionOut := v; locationOut := locationOut w;
     written := written w; monitored := monitored w |}.
Definition set_locationOut (v : list LocationData) (w : World) : World :=
  {| platform := platform w; now := now w; draws := draws w; timers := timers w;
     console := console w; asyncStorage := asyncStorage w; ble := ble w; sensors := sensors w;
     dataOut := dataOut w; connectionOut := connectionOut w; locationOut := v;
     written := written w; monitored := monitored w |}.
Definition set_written (v : list (string * string * jsval)) (w : World) : World :=
  {| platform := platform w; now := now w; draws := draws w; timers := timers w;
     console := console w; asyncStorage := asyncStorage w; ble := ble w; sensors := sensors w;
     dataOut := dataOut w; connectionOut := connectionOut w; locationOut := locationOut w;
     written := v; monitored := monitored w |}.
Definition set_monitored (v : list (string * string)) (w : World) : World :=
  {| platform := platform w; now := now w; draws := draws w; timers := timers w;
     console := console w; asyncStorage := asyncStorage w; ble := ble w; sensors := sensors w;
     dataOut := dataOut w; connectionOut := connectionOut w; locationOut := locationOut w;
     written := written w; monitored := v |}.

Definition set_connectedDevice (v : option Device) (this : YezdiBleManager) : YezdiBleManager :=
  {| connectedDevice := v; isScanning := isScanning this; dataCallback := dataCallback this;
     connectionCallback := connectionCallback this; debugLogs := debugLogs this;
     customSettings := customSettings this; mockData := mockData this;
     sensorFallbackEnabled := sensorFallbackEnabled this;
     mockDataEnabled := mockDataEnabled this; cachedDataEnabled := cachedDataEnabled this;
     lastKnownData := lastKnownData this; mockDataInterval := mockDataInterval this;
     gpsSubscription := gpsSubscription this;
     accelerometerSubscription := accelerometerSubscription this |}.
Definition set_dataCallback (v : bool) (this : YezdiBleManager) : YezdiBleManager :=
  {| connectedDevice := connectedDevice this; isScanning := isScanning this; dataCallback := v;
     connectionCallback := connectionCallback this; debugLogs := debugLogs this;
     customSettings := customSettings this; mockData := mockData this;
     sensorFallbackEnabled := sensorFallbackEnabled this;
     mockDataEnabled := mockDataEnabled this; cachedDataEnabled := cachedDataEnabled this;
     lastKnownData := lastKnownData this; mockDataInterval := mockDataInterval this;
     gpsSubscription := gpsSubscription this;
     accelerometerSubscription := accelerometerSubscription this |}.
Definition set_connectionCallback (v : bool) (this : YezdiBleManager) : YezdiBleManager :=
  {| connectedDevice := connectedDevice this; isScanning := isScanning this;
     dataCallback := dataCallback this; connectionCallback := v; debugLogs := debugLogs this;
     customSettings := customSettings this; mockData := mockData this;
     sensorFallbackEnabled := sensorFallbackEnabled this;
     mockDataEnabled := mockDataEnabled this; cachedDataEnabled := cachedDataEnabled this;
     lastKnownData := lastKnownData this; mockDataInterval := mockDataInterval this;
     gpsSubscription := gpsSubscription this;
     accelerometerSubscription := accelerometerSubscription this |}.
Definition set_debugLogs (v : list LogEntry) (this : YezdiBleManager) : YezdiBleManager :=
  {| connectedDevice := connectedDevice this; isScanning := isScanning this;
     dataCallback := dataCallback this; connectionCallback := connectionCallback this;
     debugLogs := v; customSettings := customSettings this; mockData := mockData this;
     sensorFallbackEnabled := sensorFallbackEnabled this;
     mockDataEnabled := mockDataEnabled this; cachedDataEnabled := cachedDataEnabled this;
     lastKnownData := lastKnownData this; mockDataInterval := mockDataInterval this;
     gpsSubscription := gpsSubscription this;
     accelerometerSubscription := accelerometerSubscription this |}.
Definition set_customSettings (v : gmap string jsval) (this : YezdiBleManager) : YezdiBleManager :=
  {| connectedDevice := connectedDevice this; isScanning := isScanning this;
     dataCallback := dataCallback this; connectionCallback := connectionCallback this;
     debugLogs := debugLogs this; customSettings := v; mockData := mockData this;
     sensorFallbackEnabled := sensorFallbackEnabled this;
     mockDataEnabled := mockDataEnabled this; cachedDataEnabled := cachedDataEnabled this;
     lastKnownData := lastKnownData this; mockDataInterval := mockDataInterval this;
     gpsSubscription := gpsSubscription this;
     accelerometerSubscription := accelerometerSubscription this |}.
Definition set_mockData (v : MockData) (this : YezdiBleManager) : YezdiBleManager :=
  {| connectedDevice := connectedDevice this; isScanning := isScanning this;
     dataCallback := dataCallback this; connectionCallback := connectionCallback this;
     debugLogs := debugLogs this; customSettings := customSettings this; mockData := v;
     sensorFallbackEnabled := sensorFallbackEnabled this;
     mockDataEnabled := mockDataEnabled this; cachedDataEnabled := cachedDataEnabled this;
     lastKnownData := lastKnownData this; mockDataInterval := mockDataInterval this;
     gpsSubscription := gpsSubscription this;
     accelerometerSubscription := accelerometerSubscription this |}.
Definition set_lastKnownData (v : jsval) (this : YezdiBleManager) : YezdiBleManager :=
  {| connectedDevice := connectedDevice this; isScanning := isScanning this;
     dataCallback := dataCallback this; connectionCallback := connectionCallback this;
     debugLogs := debugLogs this; customSettings := customSettings this;
     mockData := mockData this; sensorFallbackEnabled := sensorFallbackEnabled this;
     mockDataEnabled := mockDataEnabled this; cachedDataEnabled := cachedDataEnabled this;
     lastKnownData := v; mockDataInterval := mockDataInterval this;
     gpsSubscription := gpsSubscription this;
     accelerometerSubscription := accelerometerSubscription this |}.
Definition set_mockDataInterval (v : option nat) (this : YezdiBleManager) : YezdiBleManager :=
  {| connectedDevice := connectedDevice this; isScanning := isScanning this;
     dataCallback := dataCallback this; connectionCallback := connectionCallback this;
     debugLogs := debugLogs this; customSettings := customSettings this;
     mockData := mockData this; sensorFallbackEnabled := sensorFallbackEnabled this;
     mockDataEnabled := mockDataEnabled this; cachedDataEnabled := cachedDataEnabled this;
     lastKnownData := lastKnownData this; mockDataInterval := v;
     gpsSubscription := gpsSubscription this;
     accelerometerSubscription := accelerometerSubscription this |}.
Definition set_gpsSubscription (v : option GpsWatch) (this : YezdiBleManager) : YezdiBleManager :=
  {| connectedDevice := connectedDevice this; isScanning := isScanning this;
     dataCallback := dataCallback this; connectionCallback := connectionCallback this;
     debugLogs := debugLogs this; customSettings := customSettings this;
     mockData := mockData this; sensorFallbackEnabled := sensorFallbackEnabled this;
     mockDataEnabled := mockDataEnabled this; cachedDataEnabled := cachedDataEnabled this;
     lastKnownData := lastKnownData this; mockDataInterval := mockDataInterval this;
     gpsSubscription := v; accelerometerSubscription := accelerometerSubscription this |}.
Definition set_accelerometerSubscription (v : bool) (this : YezdiBleManager) : YezdiBleManager :=
  {| connectedDevice := connectedDevice this; isScanning := isScanning this;
     dataCallback := dataCallback this; connectionCallback := connectionCallback this;
     debugLogs := debugLogs this; customSettings := customSettings this;
     mockData := mockData this; sensorFallbackEnabled := sensorFallbackEnabled this;
     mockDataEnabled := mockDataEnabled this; cachedDataEnabled := cachedDataEnabled this;
     lastKnownData := lastKnownData this; mockDataInterval := mockDataInterval this;
     gpsSubscription := gpsSubscription this; accelerometerSubscription := v |}.

Definition set_md_speed (v : Q) (d : MockData) : MockData :=
  {| md_speed := v; md_gear := md_gear d; md_rpm := md_rpm d; md_fuel := md_fuel d;
     md_ridingMode := md_ridingMode d; md_highBeam := md_highBeam d; md_hazard := md_hazard d;
     md_engineCheck := md_engineCheck d; md_battery := md_battery d;
     md_odometer := md_odometer d; md_tripA := md_tripA d; md_tripB := md_tripB d;
     md_afe := md_afe d; md_bfe := md_bfe d |}.
Definition set_md_gear (v : Z) (d : MockData) : MockData :=
  {| md_speed := md_speed d; md_gear := v; md_rpm := md_rpm d; md_fuel := md_fuel d;
     md_ridingMode := md_ridingMode d; md_highBeam := md_highBeam d; md_hazard := md_hazard d;
     md_engineCheck := md_engineCheck d; md_battery := md_battery d;
     md_odometer := md_odometer d; md_tripA := md_tripA d; md_tripB := md_tripB d;
     md_afe := md_afe d; md_bfe := md_bfe d |}.
Definition set_md_rpm (v : Q) (d : MockData) : MockData :=
  {| md_speed := md_speed d; md_gear := md_gear d; md_rpm := v; md_fuel := md_fuel d;
     md_ridingMode := md_ridingMode d; md_highBeam := md_highBeam d; md_hazard := md_hazard d;
     md_engineCheck := md_engineCheck d; md_battery := md_battery d;
     md_odometer := md_odometer d; md_tripA := md_tripA d; md_tripB := md_tripB d;
     md_afe := md_afe d; md_bfe := md_bfe d |}.
Definition set_md_fuel (v : Q) (d : MockData) : MockData :=
  {| md_speed := md_speed d; md_gear := md_gear d; md_rpm := md_rpm d; md_fuel := v;
     md_ridingMode := md_ridingMode d; md_highBeam := md_highBeam d; md_hazard := md_hazard d;
     md_engineCheck := md_engineCheck d; md_battery := md_battery d;
     md_odometer := md_odometer d; md_tripA := md_tripA d; md_tripB := md_tripB d;
     md_afe := md_afe d; md_bfe := md_bfe d |}.

Definition set_isScanning (v : bool) (this : YezdiBleManager) : YezdiBleManager :=
  {| connectedDevice := connectedDevice this; isScanning := v;
     dataCallback := dataCallback this; connectionCallback := connectionCallback this;
     debugLogs := debugLogs this; customSettings := customSettings this;
     mockData := mockData this; sensorFallbackEnabled := sensorFallbackEnabled this;
     mockDataEnabled := mockDataEnabled this; cachedDataEnabled := cachedDataEnabled this;
     lastKnownData := lastKnownData this; mockDataInterval := mockDataInterval this;
     gpsSubscription := gpsSubscription this;
     accelerometerSubscription := accelerometerSubscription this |}.
Definition set_sensorFallbackEnabled (v : bool) (this : YezdiBleManager) : YezdiBleManager :=
  {| connectedDevice := connectedDevice this; isScanning := isScanning this;
     dataCallback := dataCallback this; connectionCallback := connectionCallback this;
     debugLogs := debugLogs this; customSettings := customSettings this;
     mockData := mockData this; sensorFallbackEnabled := v;
     mockDataEnabled := mockDataEnabled this; cachedDataEnabled := cachedDataEnabled this;
     lastKnownData := lastKnownData this; mockDataInterval := mockDataInterval this;
     gpsSubscription := gpsSubscription this;
     accelerometerSubscription := accelerometerSubscription this |}.
Definition set_mockDataEnabled (v : bool) (this : YezdiBleManager) : YezdiBleManager :=
  {| connectedDevice := connectedDevice this; isScanning := isScanning this;
     dataCallback := dataCallback this; connectionCallback := connectionCallback this;
     debugLogs := debugLogs this; customSettings := customSettings this;
     mockData := mockData this; sensorFallbackEnabled := sensorFallbackEnabled this;
     mockDataEnabled := v; cachedDataEnabled := cachedDataEnabled this;
     lastKnownData := lastKnownData this; mockDataInterval := mockDataInterval this;
     gpsSubscription := gpsSubscription this;
     accelerometerSubscription := accelerometerSubscription this |}.
Definition set_cachedDataEnabled (v : bool) (this : YezdiBleManager) : YezdiBleManager :=
  {| connectedDevice := connectedDevice this; isScanning := isScanning this;
     dataCallback := dataCallback this; connectionCallback := connectionCallback this;
     debugLogs := debugLogs this; customSettings := customSettings this;
     mockData := mockData this; sensorFallbackEnabled := sensorFallbackEnabled this;
     mockDataEnabled := mockDataEnabled this; cachedDataEnabled := v;
     lastKnownData := lastKnownData this; mockDataInterval := mockDataInterval this;
     gpsSubscription := gpsSubscription this;
     accelerometerSubscription := accelerometerSubscription this |}.

(** ** The monad of methods *)

Definition M (A : Type) : Type := World -> Result A * World.

#[global] Instance M_ret : MRet M := fun A a w => (Return a, w).

#[global] Instance M_bind : MBind M := fun A B k m w =>
  match m w with
  | (Return a, w') => k a w'
  | (Throw e, w') => (Throw e, w')
  end.

Definition throw {A} (e : exn) : M A := fun w => (Throw e, w).

(** [try { body } catch (error) { handler }] *)
Definition try_catch {A} (body : M A) (handler : exn -> M A) : M A := fun w =>
  match body w with
  | (Return a, w') => (Return a, w')
  | (Throw e, w') => handler e w'
  end.

(** [await p] for a promise the platform settles with [r]. *)
Definition await {A} (r : Result A) : M A := fun w => (r, w).

Definition gets {A} (f : World -> A) : M A := fun w => (Return (f w), w).
Definition modify (f : World -> World) : M unit := fun w => (Return tt, f w).
Definition modify_ble (f : YezdiBleManager -> YezdiBleManager) : M unit :=
  modify (fun w => set_ble (f (ble w)) w).
Definition when (b : bool) (m : M unit) : M unit := if b then m else mret tt.

(** [for (const x of l) { body x }] *)
Fixpoint for_each {A} (l : list A) (body : A -> M unit) : M unit :=
  match l with
  | [] => mret tt
  | x :: l' => body x ;; for_each l' body
  end.

(** [Math.random()] *)
Definition Math_random : M Q := fun w =>
  (Return (random (platform w) (draws w)), set_draws (S (draws w)) w).

(** *** AsyncStorage *)

Definition AsyncStorage_setItem (key : string) (text : Stored) : M unit := fun w =>
  match storageFault (platform w) with
  | Some e => (Throw e, w)
  | None => (Return tt, set_asyncStorage (<[key := text]> (asyncStorage w)) w)
  end.

Definition AsyncStorage_getItem (key : string) : M (option Stored) := fun w =>
  match storageFault (platform w) with
  | Some e => (Throw e, w)
  | None => (Return (asyncStorage w !! key), w)
  end.

Definition AsyncStorage_removeItem (key : string) : M unit := fun w =>
  match storageFault (platform w) with
  | Some e => (Throw e, w)
  | None => (Return tt, set_asyncStorage (delete key (asyncStorage w)) w)
  end.

Definition AsyncStorage_multiRemove (keys : list string) : M unit := fun w =>
  match storageFault (platform w) with
  | Some e => (Throw e, w)
  | None => (Return tt, set_asyncStorage (foldr delete (asyncStorage w) keys) w)
  end.

Definition JSON_parse (text : Stored) : M jsval :=
  match text with
  | JsonText v => mret v
  | RawText _ => throw (Error [Txt "JSON Parse error"])
  end.

(** Truthiness of a string read from storage ([null] when absent). *)
Definition present (item : option Stored) : bool :=
  match item with
  | None => false
  | Some (JsonText _) => true
  | Some (RawText s) => negb (String.eqb s "")
  end.

(** *** Numbers *)

Definition Qltb (x y : Q) : bool := negb (Qle_bool y x).

(** What a double denotes. *)
Definition value (x : float) : jsnum :=
  match Prim2SF x with
  | S754_zero _ => Fin 0
  | S754_infinity false => PosInf
  | S754_infinity true => NegInf
  | S754_nan => NaN
  | S754_finite negative m e =>
      Fin (inject_Z (if negative then Z.neg m else Z.pos m) * 2 ^ e)%Q
  end.

(** The double nearest to an integer; [Date.now()] is one of the integers
    that doubles hold exactly. *)
Definition of_Z (z : Z) : float := SF2Prim (binary_normalize prec emax z 0 false).

(** Truthiness of a double: neither zero nor NaN. *)
Definition truthy_double (x : float) : bool := negb (is_zero x || is_nan x).

(** [Math.round] on what a double denotes. *)
Definition js_round (x : jsnum) : jsnum :=
  match x with
  | Fin a => Fin (inject_Z (Math_round a))
  | other => other
  end.

(** The speed in km/h between two fixes [distance] metres and [ms]
    milliseconds apart: [(distance / (ms / 1000)) * 3.6], in binary64
    arithmetic. *)
Definition speed_estimate (distance ms : float) : float :=
  (distance / (ms / 1000) * 3.6)%float.

(** [array.slice(-n)] *)
Definition slice_last {A} (n : nat) (l : list A) : list A :=
  drop (length l - n) l.

(** [device.name || device.id] *)
Definition name_or_id (device : DeviceInfo) : string :=
  match name device with
  | Some n => if String.eqb n "" then id device else n
  | None => id device
  end.

(** ** The BLE manager *)

Module BleManager.

(** *** Debug logging system *)

Definition log (level : string) (message : message) : M unit :=
  timestamp ← gets now;
  let logEntry := {| timestamp := timestamp; level := level; msg := message |} in
  modify_ble (fun this =>
    let pushed := debugLogs this ++ [logEntry] in
    (* Keep only last 500 logs *)
    set_debugLogs
      (if (500 <? length pushed)%nat then slice_last 500 pushed else pushed) this);;
  modify (fun w =>
    set_console (console w ++ [Txt "[" :: Val (JStr level) :: Txt "] " :: message]) w).

Definition getDebugLogs : M (list LogEntry) :=
  gets (fun w => debugLogs (ble w)).

Definition clearDebugLogs : M unit :=
  modify_ble (set_debugLogs []);;
  log "INFO" [Txt "Debug logs cleared"].

(** *** Callbacks *)

Definition setDataCallback : M unit := modify_ble (set_dataCallback true).
Definition setConnectionCallback : M unit := modify_ble (set_connectionCallback true).

(** [this.dataCallback && this.dataCallback(data)] *)
Definition call_dataCallback (data : jsval) : M unit :=
  registered ← gets (fun w => dataCallback (ble w));
  when registered (modify (fun w => set_dataOut (dataOut w ++ [data]) w)).

(** [this.connectionCallback && this.connectionCallback(connected, device)] *)
Definition call_connectionCallback (connected : bool) (device : option DeviceInfo) : M unit :=
  registered ← gets (fun w => connectionCallback (ble w));
  when registered
    (modify (fun w => set_connectionOut (connectionOut w ++ [(connected, device)]) w)).

(** *** Cache *)

Definition cacheData (data : jsval) : M unit :=
  enabled ← gets (fun w => cachedDataEnabled (ble w));
  when enabled
    (try_catch
       (AsyncStorage_setItem "yezdi_cached_data" (JsonText data))
       (fun error => log "ERROR" (Txt "Failed to cache data: " :: error_message error))).

(** *** Initialisation *)

Definition requestPermissions : M unit :=
  try_catch
    ((* Location permissions for fallback *)
     p ← gets platform;
     locationStatus ← await (locationRequest p);
     when (negb (String.eqb locationStatus "granted"))
       (log "WARN" [Txt "Location permission denied - GPS fallback unavailable"]);;
     (* Camera permissions for QR scanning *)
     cameraStatus ← await (cameraRequest p);
     when (negb (String.eqb cameraStatus "granted"))
       (log "WARN" [Txt "Camera permission denied - QR code authentication unavailable"]);;
     log "INFO" [Txt "Permissions requested"])
    (fun error => log "ERROR" (Txt "Permission request failed: " :: error_message error)).

(** [JSON.parse] of what [getItem] returned; [JSON.parse(null)] is [null]. *)
Definition parse_item (item : option Stored) : M jsval :=
  match item with
  | Some text => JSON_parse text
  | None => mret JNull
  end.

Definition loadCachedSettings : M unit :=
  try_catch
    (cached ← AsyncStorage_getItem "yezdi_cached_data";
     when (present cached)
       (data ← parse_item cached;
        modify_ble (set_lastKnownData data);;
        log "INFO" [Txt "Loaded cached data"]);;
     settings ← AsyncStorage_getItem "yezdi_custom_settings";
     when (present settings)
       (parsed ← parse_item settings;
        modify_ble (fun this =>
          set_customSettings (spread parsed ∪ customSettings this) this);;
        log "INFO" [Txt "Loaded custom BLE settings"]))
    (fun error => log "ERROR" (Txt "Failed to load cached settings: " :: error_message error)).

(** *** Mock data simulation *)

Definition mockObject (d : MockData) : jsval :=
  JObj (list_to_map [
    ("speed", JNum (md_speed d)); ("gear", int (md_gear d));
    ("rpm", JNum (md_rpm d)); ("fuel", JNum (md_fuel d));
    ("ridingMode", JStr (md_ridingMode d));
    ("highBeam", JBool (md_highBeam d)); ("hazard", JBool (md_hazard d));
    ("engineCheck", JBool (md_engineCheck d)); ("battery", JBool (md_battery d));
    ("odometer", JStr (md_odometer d));
    ("tripA", JStr (md_tripA d)); ("tripB", JStr (md_tripB d));
    ("afe", JStr (md_afe d)); ("bfe", JStr (md_bfe d))]).

Definition the_mockData : M MockData := gets (fun w => mockData (ble w)).
Definition modify_mockData (f : MockData -> MockData) : M unit :=
  modify_ble (fun this => set_mockData (f (mockData this)) this).

(** The statements of the interval callback, one by one. *)

(** Only simulate realistic changes, no fake data *)
Definition tick_speed : M unit :=
  d ← the_mockData;
  when (Qltb 0 (md_speed d))
    (r ← Math_random;
     modify_mockData (set_md_speed (Qmax 0 (md_speed d + (r - (1 # 2)) * 5))%Q)).

Definition tick_rpm : M unit :=
  d ← the_mockData;
  when (Qltb 0 (md_rpm d))
    (r ← Math_random;
     modify_mockData (set_md_rpm (Qmax 0 (md_rpm d + (r - (1 # 2)) * 200))%Q)).

Definition tick_fuel : M unit :=
  d ← the_mockData;
  when (Qltb 0 (md_fuel d))
    (r ← Math_random;
     modify_mockData (set_md_fuel (Qmax 0 (md_fuel d - r * (5 # 100)))%Q)).

(** Occasionally change gear if moving *)
Definition tick_gear : M unit :=
  d ← the_mockData;
  when (Qltb 10 (md_speed d))
    (r ← Math_random;
     when (Qltb (98 # 100) r)
       (r' ← Math_random;
        modify_mockData (set_md_gear
          (Z.max 1 (Z.min 6 (md_gear d + (if Qltb (1 # 2) r' then 1 else -1))))%Z))).

Definition tick_publish : M unit :=
  d ← the_mockData;
  modify_ble (set_lastKnownData (mockObject d));;
  cacheData (mockObject d);;
  call_dataCallback (mockObject d).

(** The body of the interval callback: one tick of the generator. *)
Definition mockTick : M unit :=
  tick_speed;; tick_rpm;; tick_fuel;; tick_gear;; tick_publish.

(** [setInterval] hands out a fresh non-zero handle; a handle already in
    [mockDataInterval] is cleared by being replaced. *)
Definition startMockDataSimulation : M unit :=
  h ← gets timers;
  modify (set_timers (S h));;
  modify_ble (set_mockDataInterval (Some (S h))).

Definition initialize : M unit :=
  try_catch
    (log "INFO" [Txt "Initializing BLE Manager"];;
     (* Request permissions *)
     requestPermissions;;
     (* Load cached settings *)
     loadCachedSettings;;
     (* Start mock data simulation if enabled *)
     enabled ← gets (fun w => mockDataEnabled (ble w));
     when enabled startMockDataSimulation;;
     log "INFO" [Txt "BLE Manager initialized successfully"])
    (fun error =>
       log "ERROR" (Txt "BLE initialization failed: " :: error_message error);;
       throw error).

(** *** Frame decoder *)

Definition ridingModes : list string := ["Road"; "Rain"; "Off-Road"].

Definition object (fields : list (string * jsval)) : gmap string jsval :=
  list_to_map fields.

(** [if (!data.k) data.k = ((Math.random() * a) + b).toFixed(1)] *)
Definition fill_estimate (k : string) (a b : Q) (data : gmap string jsval)
  : M (gmap string jsval) :=
  if negb (from_option truthy false (data !! k)) then
    r ← Math_random;
    mret (<[k := JStr (toFixed1 (r * a + b)%Q)]> data)
  else mret data.

(** Fallback to blank data if parsing fails *)
Definition fallbackData : jsval :=
  JObj (object [
    ("speed", JStr "--"); ("gear", JStr "--"); ("rpm", int 0); ("fuel", int 0);
    ("ridingMode", JStr "Road");
    ("highBeam", JBool false); ("hazard", JBool false);
    ("engineCheck", JBool false); ("battery", JBool false);
    ("odometer", JStr "--");
    ("tripA", JStr "--"); ("tripB", JStr "--"); ("afe", JStr "--"); ("bfe", JStr "--")]).

(** Strategy 1: direct byte parsing. *)
Definition parseFull (buffer : list byte) : M (gmap string jsval) :=
  speed ← await (Buffer.readUInt8 buffer 0);
  gear ← await (Buffer.readUInt8 buffer 1);
  rpm ← await (Buffer.readUInt16BE buffer 2);
  fuel ← await (Buffer.readUInt8 buffer 4);
  mode ← await (Buffer.readUInt8 buffer 5);
  flags1 ← await (Buffer.readUInt8 buffer 6);
  flags2 ← await (Buffer.readUInt8 buffer 6);
  flags3 ← await (Buffer.readUInt8 buffer 6);
  flags4 ← await (Buffer.readUInt8 buffer 6);
  odometer ← await (Buffer.readUInt32BE buffer 7);
  mret (object [
    ("speed", int (or_default speed 0));
    ("gear", int (or_default gear 1));
    ("rpm", int (or_default (rpm * 10) 0));
    ("fuel", int (or_default fuel 0));
    ("ridingMode", JStr (let m := nth (Z.to_nat (mode mod 3)) ridingModes "" in
                         if String.eqb m "" then "Road" else m));
    ("highBeam", JBool (negb (Z.land flags1 1 =? 0)%Z));
    ("hazard", JBool (negb (Z.land flags2 2 =? 0)%Z));
    ("engineCheck", JBool (negb (Z.land flags3 4 =? 0)%Z));
    ("battery", JBool (negb (Z.land flags4 8 =? 0)%Z));
    ("odometer", JStr (let s := toString odometer in
                       if String.eqb s "" then "00000" else s))]).

(** Strategy 2: minimal parsing of a short packet. *)
Definition parseMinimal (buffer : list byte) : M (gmap string jsval) :=
  log "WARN" [Txt "Short data packet: "; Val (int (Z.of_nat (length buffer)));
              Txt " bytes, minimal parsing"];;
  speed ← await (Buffer.readUInt8 buffer 0);
  gear ← await (Buffer.readUInt8 buffer 1);
  rpm ← await (Buffer.readUInt16BE buffer 2);
  mret (object [
    ("speed", int (or_default speed 0));
    ("gear", int (Z.max (or_default gear 1) 1));
    ("rpm", int (or_default (rpm * 50) 0));
    ("fuel", int 50);
    ("ridingMode", JStr "Road");
    ("highBeam", JBool false); ("hazard", JBool false);
    ("engineCheck", JBool false); ("battery", JBool true);
    ("odometer", JStr "00000")]).

(** Strategy 3: a very short packet. *)
Definition parseBasic (buffer : list byte) : M (gmap string jsval) :=
  log "WARN" [Txt "Very short data packet: "; Val (int (Z.of_nat (length buffer)));
              Txt " bytes, basic parsing"];;
  speed ← (if (0 <? length buffer)%nat then await (Buffer.readUInt8 buffer 0) else mret 0%Z);
  mret (object [
    ("speed", int speed);
    ("gear", int 1); ("rpm", int 0); ("fuel", int 0);
    ("ridingMode", JStr "Road");
    ("highBeam", JBool false); ("hazard", JBool false);
    ("engineCheck", JBool false); ("battery", JBool false);
    ("odometer", JStr "--")]).

(** Try multiple parsing strategies since Yezdi protocol is proprietary:
    the chain of [if]s that picks one by the length of the buffer. *)
Definition parse_strategy (buffer : list byte) : M (gmap string jsval) :=
  if (10 <=? length buffer)%nat then parseFull buffer
  else if (4 <=? length buffer)%nat then parseMinimal buffer
  else parseBasic buffer.

(** The body of the [try] block of [parseIncomingData]. *)
Definition parse_try (buffer : list byte) : M unit :=
  (* Log raw data for debugging *)
  log "INFO" [Txt "Received BLE data: "; Hex buffer];;
  data ← parse_strategy buffer;
  (* Calculate additional trip data (if not in BLE data) *)
  data ← fill_estimate "tripA" 200 100 data;
  data ← fill_estimate "tripB" 500 200 data;
  data ← fill_estimate "afe" 10 15 data;
  data ← fill_estimate "bfe" 8 14 data;
  log "INFO" [Txt "Parsed data: "; Json (JObj data)];;
  modify_ble (set_lastKnownData (JObj data));;
  cacheData (JObj data);;
  call_dataCallback (JObj data).

(** The body of its [catch] block. *)
Definition parse_catch (error : exn) : M unit :=
  log "ERROR" (Txt "Data parsing failed: " :: error_message error);;
  call_dataCallback fallbackData.

(** [parseIncomingData(base64Data)], on the buffer that
    [Buffer.from(base64Data, 'base64')] decodes from its argument. *)
Definition parseIncomingData (buffer : list byte) : M unit :=
  try_catch (parse_try buffer) parse_catch.

(** *** Fallback data sources *)

(** GPS-based speed fallback: the permission check and the subscription.
    The closure variables [lastLocation] and [lastTime] live in the
    subscription. *)
Definition startGPSFallback : M unit :=
  try_catch
    (p ← gets platform;
     status ← await (locationStatus p);
     if negb (String.eqb status "granted") then
       log "WARN" [Txt "GPS fallback unavailable - no location permission"]
     else
       await (watchPosition p);;
       modify_ble (set_gpsSubscription
                     (Some {| lastLocation := None; lastTime := None |})))
    (fun error => log "ERROR" (Txt "GPS fallback setup failed: " :: error_message error)).

(** What the watcher does with a speed estimate. *)
Definition deliver_estimate (speed : float) : M unit :=
  if ((0 <? speed) && (speed <? 200))%float then   (* Reasonable speed range *)
    match value speed with
    | Fin exact =>
        log "INFO" [Txt "GPS speed estimate: "; Val (JStr (toFixed1 exact)); Txt " km/h"];;
        lastKnownData ← gets (fun w => lastKnownData (ble w));
        let fallbackData := JObj (<["speed" := int (Math_round exact)]> (spread lastKnownData)) in
        call_dataCallback fallbackData
    | PosInf | NegInf | NaN => mret tt          (* none of them is within the range *)
    end
  else mret tt.

(** The callback of [Location.watchPositionAsync], run on a new fix.
    [distance] is what [this.calculateDistance] returns for the previous
    and the new fix (the haversine formula, whose trigonometry is not
    modelled); it is only used when there is a previous fix. *)
Definition onPosition (distance : float) (location : Location) : M unit :=
  subscription ← gets (fun w => gpsSubscription (ble w));
  match subscription with
  | None => mret tt
  | Some watch =>
      match lastLocation watch, lastTime watch with
      | Some _, Some lastTime =>
          when (truthy_double lastTime)
            (deliver_estimate (speed_estimate distance (fix_time location - lastTime)%float))
      | _, _ => mret tt
      end;;
      modify_ble (set_gpsSubscription
                    (Some {| lastLocation := Some location;
                             lastTime := Some (fix_time location) |}))
  end.

(** Accelerometer-based motion fallback: the subscription.  The listener
    only writes a log entry and is left out. *)
Definition startAccelerometerFallback : M unit :=
  try_catch
    (p ← gets platform;
     await (accelerometer p);;
     modify_ble (set_accelerometerSubscription true))
    (fun error =>
       log "ERROR" (Txt "Accelerometer fallback setup failed: " :: error_message error)).

Definition setupFallbackDataUpdates : M unit :=
  enabled ← gets (fun w => sensorFallbackEnabled (ble w));
  when enabled (startGPSFallback;; startAccelerometerFallback).

Definition startDataUpdates : M unit :=
  mock ← gets (fun w => mockDataEnabled (ble w));
  if (mock : bool) then startMockDataSimulation else setupFallbackDataUpdates.

(** *** Connection *)

Definition flag (b : bool) (s : string) : frag := Val (JStr (if b then s else "")).

Definition discoverServices (device : Device) : M unit :=
  try_catch
    (log "INFO" [Txt "Discovering services..."];;
     await (discoverAllServicesAndCharacteristics device);;
     found ← await (services device);
     for_each found (fun service =>
       log "INFO" [Txt "Found service: "; Val (JStr (service_uuid service))];;
       chars ← await (characteristics service);
       for_each chars (fun char =>
         log "INFO" [Txt "  Characteristic: "; Val (JStr (char_uuid char)); Txt " (";
                     flag (isReadable char) "R";
                     flag (isWritableWithoutResponse char) "W";
                     flag (isNotifiable char) "N"; Txt ")"]));;
     (* Cache discovered UUIDs *)
     AsyncStorage_setItem "yezdi_discovered_services"
       (JsonText (JArr ((fun s => JStr (service_uuid s)) <$> found))))
    (fun error => log "ERROR" (Txt "Service discovery failed: " :: error_message error)).

(** Generic key authentication *)
Definition genericKeyAuthentication (device : Device) : M unit :=
  try_catch
    (found ← await (services device);
     for_each found (fun service =>
       chars ← await (characteristics service);
       for_each chars (fun char =>
         when (isWritableWithoutResponse char || isWritableWithResponse char)
           (authKey ← gets (fun w => customSettings (ble w) !! "authKey");
            await (Buffer.from_value authKey);;
            await (writeWithResponse char);;
            modify (fun w => set_written
              (written w ++ [(service_uuid service, char_uuid char,
                              default JNull authKey)]) w);;
            log "INFO" [Txt "Wrote auth key to "; Val (JStr (char_uuid char))]))))
    (fun error => throw (Error (Txt "Generic auth failed: " :: error_message error))).

(** Challenge-response authentication *)
Definition challengeResponseAuth (device : Device) : M unit :=
  try_catch
    ((* Simulate challenge-response *)
     challenge ← Math_random;
     p ← gets platform;
     response ← await (digest p);
     log "INFO" [Txt "Challenge-response auth attempted"])
    (fun error => throw (Error (Txt "Challenge-response auth failed: " :: error_message error))).

(** Bonding authentication *)
Definition bondingAuthentication (device : Device) : M unit :=
  log "INFO" [Txt "Bonding authentication requires manual Bluetooth pairing"];;
  throw (Error [Txt "Manual pairing required"]).

Definition authMethods (device : Device) : list (M unit) :=
  [genericKeyAuthentication device;
   challengeResponseAuth device;
   bondingAuthentication device].

(** The loop of [attemptAuthentication] from index [i] on; [methods] are
    the entries of [authMethods] from [i] on.  The body of the [try]
    returns from the method, which ends the loop. *)
Fixpoint attempt_from (i : nat) (methods : list (M unit)) : M unit :=
  match methods with
  | [] =>
      log "WARN" [Txt "All authentication methods failed, proceeding without authentication"]
  | method :: rest =>
      let number := Val (int (Z.of_nat i + 1)) in
      returned ← try_catch
        (log "INFO" [Txt "Attempting authentication method "; number];;
         method;;
         log "INFO" [Txt "Authentication method "; number; Txt " successful"];;
         mret true)
        (fun error =>
           log "WARN" (Txt "Authentication method " :: number :: Txt " failed: "
                       :: error_message error);;
           mret false);
      if (returned : bool) then mret tt else attempt_from (S i) rest
  end.

(** Attempt multiple authentication methods *)
Definition attemptAuthentication (device : Device) : M unit :=
  attempt_from 0 (authMethods device).

(** The callback of [monitorCharacteristicForService].  [value] is the
    decoded [characteristic.value] when the characteristic carries a
    non-empty one. *)
Definition onNotification (error : option exn) (value : option (list byte)) : M unit :=
  match error with
  | Some error => log "ERROR" (Txt "Monitoring error: " :: error_message error)
  | None =>
      match value with
      | Some buffer => parseIncomingData buffer
      | None => mret tt
      end
  end.

(** Set up data monitoring *)
Definition setupDataMonitoring (device : Device) : M unit :=
  try_catch
    (log "INFO" [Txt "Setting up data monitoring"];;
     found ← await (services device);
     for_each found (fun service =>
       chars ← await (characteristics service);
       for_each chars (fun char =>
         when (isNotifiable char)
           (log "INFO" [Txt "Subscribing to notifications from "; Val (JStr (char_uuid char))];;
            modify (fun w => set_monitored
              (monitored w ++ [(service_uuid service, char_uuid char)]) w)))))
    (fun error => log "ERROR" (Txt "Data monitoring setup failed: " :: error_message error)).

(** Connect to device with multiple authentication methods *)
Definition connectToDevice (device : DeviceInfo) : M unit :=
  try_catch
    (log "INFO" [Txt "Attempting to connect to "; Val (JStr (name_or_id device))];;
     p ← gets platform;
     connected ← await (central p (id device));
     modify_ble (set_connectedDevice (Some connected));;
     log "INFO" [Txt "Connected to "; Val (JStr (name_or_id device))];;
     (* Discover services and characteristics *)
     discoverServices connected;;
     (* Attempt authentication *)
     attemptAuthentication connected;;
     (* Set up data monitoring *)
     setupDataMonitoring connected;;
     (* Notify connection established *)
     call_connectionCallback true (Some device);;
     (* Start sending real data *)
     startDataUpdates)
    (fun error =>
       log "ERROR" (Txt "Connection failed: " :: error_message error);;
       call_connectionCallback false None;;
       throw error).



(** Update custom settings.  The write to the store is not awaited: when the
    store rejects it, nothing raises and nothing is logged. *)
Definition updateCustomSettings (settings : jsval) : M unit :=
  modify_ble (fun this => set_customSettings (spread settings ∪ customSettings this) this);;
  current ← gets (fun w => customSettings (ble w));
  try_catch
    (AsyncStorage_setItem "yezdi_custom_settings" (JsonText (JObj current)))
    (fun _ => mret tt);;
  log "INFO" [Txt "Updated custom BLE settings"].

(** *** Enable/disable fallback methods *)

Definition enabled_text (enabled : bool) : frag :=
  Val (JStr (if enabled then "enabled" else "disabled")).

Definition setSensorFallbackEnabled (enabled : bool) : M unit :=
  modify_ble (set_sensorFallbackEnabled enabled);;
  log "INFO" [Txt "Sensor fallback "; enabled_text enabled].

Definition setMockDataEnabled (enabled : bool) : M unit :=
  modify_ble (set_mockDataEnabled enabled);;
  (if enabled then startMockDataSimulation
   else
     interval ← gets (fun w => mockDataInterval (ble w));
     match interval with
     | Some _ => modify_ble (set_mockDataInterval None)
     | None => mret tt
     end);;
  log "INFO" [Txt "Mock data "; enabled_text enabled].

Definition setCachedDataEnabled (enabled : bool) : M unit :=
  modify_ble (set_cachedDataEnabled enabled);;
  log "INFO" [Txt "Cached data "; enabled_text enabled].

(** *** Scanning *)




Section Scanning.

(** [String.prototype.toLowerCase], which follows the Unicode case mapping;
    it is taken as given. *)
Variable toLowerCase : string -> string.



End Scanning.

(** The callback of [manager.onStateChange]: whether the scan is started. *)
Definition onStateChange (state : string) : M bool :=
  if String.eqb state "PoweredOn" then mret true
  else
    log "ERROR" [Txt "Bluetooth state: "; Val (JStr state)];;
    mret false.

(** Stop scanning *)
Definition stopScanning : M unit :=
  scanning ← gets (fun w => isScanning (ble w));
  when scanning
    (modify_ble (set_isScanning false);;
     log "INFO" [Txt "Stopped BLE scan"]).

(** Start scanning for devices.  [subscribed] is the outcome of the calls
    that register the state listener and the 30 s timer, which runs
    [stopScanning]. *)
Definition startScanning (subscribed : Result unit) : M unit :=
  scanning ← gets (fun w => isScanning (ble w));
  if (scanning : bool) then log "WARN" [Txt "Already scanning"]
  else
    try_catch
      (modify_ble (set_isScanning true);;
       log "INFO" [Txt "Starting BLE scan"];;
       await subscribed)
      (fun error =>
         modify_ble (set_isScanning false);;
         log "ERROR" (Txt "Failed to start scanning: " :: error_message error);;
         throw error).

End BleManager.

(** ** The storage manager *)

Module StorageManager.

Definition CACHED_DATA : string := "yezdi_cached_data".

Definition console_error (m : message) : M unit :=
  modify (fun w => set_console (console w ++ [m]) w).

(** *** Generic storage methods *)

Definition setItem (key : string) (value : jsval) : M bool :=
  try_catch
    (AsyncStorage_setItem key (JsonText value);;
     mret true)
    (fun error =>
       console_error (Txt "Storage setItem error for key " :: Val (JStr key) :: Txt ":"
                      :: error_message error);;
       mret false).

Definition getItem (key : string) (defaultValue : jsval) : M jsval :=
  try_catch
    (jsonValue ← AsyncStorage_getItem key;
     match jsonValue with
     | Some text => JSON_parse text
     | None => mret defaultValue
     end)
    (fun error =>
       console_error (Txt "Storage getItem error for key " :: Val (JStr key) :: Txt ":"
                      :: error_message error);;
       mret defaultValue).

Definition removeItem (key : string) : M bool :=
  try_catch
    (AsyncStorage_removeItem key;;
     mret true)
    (fun error =>
       console_error (Txt "Storage removeItem error for key " :: Val (JStr key) :: Txt ":"
                      :: error_message error);;
       mret false).

(** *** Specific data management methods *)

Definition saveCachedData (data : jsval) : M bool :=
  t ← gets now;
  setItem CACHED_DATA (JObj (<["timestamp" := int t]> (spread data))).

Section Coercion.

(** The conversion of a value to a number that the subtraction
    [Date.now() - data.timestamp] applies to its operand.  Numbers convert
    to themselves; the conversion of the other values (strings through
    the numeric-literal grammar, objects through [valueOf]) is left to
    the language and taken as given. *)
Variable ToNumber : jsval -> jsnum.

(** [Date.now() - v < limit] *)
Definition elapsed_below (t : Z) (v : jsval) (limit : Q) : bool :=
  match ToNumber v with
  | Fin x => Qltb (inject_Z t - x)%Q limit
  | PosInf => true                 (* now - Infinity = -Infinity *)
  | NegInf => false
  | NaN => false
  end.

Definition getCachedData : M jsval :=
  data ← getItem CACHED_DATA JNull;
  match (if truthy data then prop "timestamp" data else None) with
  | Some stamp =>
      if truthy stamp then
        (* Check if data is not too old (1 hour) *)
        t ← gets now;
        let isRecent := elapsed_below t stamp (inject_Z (60 * 60 * 1000)) in
        if isRecent then mret data else mret JNull
      else mret JNull
  | None => mret JNull
  end.

End Coercion.

(** The values of [this.keys], in the order of the constructor. *)
Definition keys : list string :=
  ["yezdi_cached_data"; "yezdi_settings"; "yezdi_custom_ble"; "yezdi_discovered_services";
   "yezdi_debug_logs"; "yezdi_user_preferences"; "navigationSettings"].

Definition saveSettings (settings : jsval) : M bool := setItem "yezdi_settings" settings.
Definition getSettings (defaultSettings : jsval) : M jsval :=
  getItem "yezdi_settings" defaultSettings.

Definition saveCustomBLESettings (settings : jsval) : M bool :=
  setItem "yezdi_custom_ble" settings.
Definition getCustomBLESettings : M jsval :=
  getItem "yezdi_custom_ble"
    (JObj (list_to_map [("serviceUUID", JStr ""); ("charUUID", JStr "");
                        ("authKey", JStr "YEZDI_AUTH_DEFAULT")])).

Definition saveNavigationSettings (settings : jsval) : M bool :=
  setItem "navigationSettings" settings.
Definition getNavigationSettings : M jsval :=
  getItem "navigationSettings"
    (JObj (list_to_map [("mapViewEnabled", JBool false);
                        ("fullNavigationEnabled", JBool false);
                        ("navigationAutoStart", JBool false)])).

Definition saveDebugLogs (logs : jsval) : M bool := setItem "yezdi_debug_logs" logs.
Definition getDebugLogs : M jsval := getItem "yezdi_debug_logs" (JArr []).
Definition clearDebugLogs : M bool := removeItem "yezdi_debug_logs".

Definition saveUserPreferences (preferences : jsval) : M bool :=
  setItem "yezdi_user_preferences" preferences.
Definition getUserPreferences : M jsval :=
  getItem "yezdi_user_preferences"
    (JObj (list_to_map [("accentColor", JStr "#00FFFF");
                        ("warningBlinkEnabled", JBool true);
                        ("preferredUnits", JStr "metric");
                        ("dashboardLayout", JStr "default")])).

(** *** Utility methods *)

Definition clearAllData : M bool :=
  try_catch
    (AsyncStorage_multiRemove keys;;
     mret true)
    (fun error =>
       console_error (Txt "Clear all data error:" :: error_message error);;
       mret false).

End StorageManager.

(** ** The sensor manager *)

Module SensorManager.

Definition set_isInitialized (v : bool) (this : YezdiSensorManager) : YezdiSensorManager :=
  {| isInitialized := v; locationSubscription := locationSubscription this;
     sm_lastLocation := sm_lastLocation this;
     sm_lastLocationTime := sm_lastLocationTime this |}.
Definition set_locationSubscription (v : bool) (this : YezdiSensorManager)
  : YezdiSensorManager :=
  {| isInitialized := isInitialized this; locationSubscription := v;
     sm_lastLocation := sm_lastLocation this;
     sm_lastLocationTime := sm_lastLocationTime this |}.
Definition set_last (l : option Location) (t : option Z) (this : YezdiSensorManager)
  : YezdiSensorManager :=
  {| isInitialized := isInitialized this;
     locationSubscription := locationSubscription this;
     sm_lastLocation := l; sm_lastLocationTime := t |}.

Definition modify_sensors (f : YezdiSensorManager -> YezdiSensorManager) : M unit :=
  modify (fun w => set_sensors (f (sensors w)) w).

Definition console_log (m : message) : M unit :=
  modify (fun w => set_console (console w ++ [m]) w).

Definition initialize : M unit :=
  try_catch
    (p ← gets platform;
     status ← await (locationRequest p);
     if negb (String.eqb status "granted") then
       throw (Error [Txt "Location permission denied"])
     else
       modify_sensors (set_isInitialized true);;
       console_log [Txt "SensorManager initialized successfully"])
    (fun error =>
       console_log (Txt "SensorManager initialization failed:" :: error_message error);;
       throw error).

(** Validate speed (ignore unrealistic values) *)
Definition validate (estimatedSpeed : float) : float :=
  if ((estimatedSpeed <? 0) || (300 <? estimatedSpeed))%float then 0%float
  else estimatedSpeed.

(** The callback of [Location.watchPositionAsync] in [startGPSTracking].
    [distance] is what [this.calculateDistance] returns for the previous
    and the new fix; it is only used when there is a previous fix. *)
Definition onLocationUpdate (distance : float) (location : Location) : M unit :=
  currentTime ← gets now;
  this ← gets sensors;
  let estimatedSpeed :=
    match sm_lastLocation this, sm_lastLocationTime this with
    | Some _, Some lastLocationTime =>
        (* Calculate speed if we have previous location *)
        if (lastLocationTime =? 0)%Z then 0%float
        else validate (speed_estimate distance (of_Z currentTime - of_Z lastLocationTime)%float)
    | _, _ => 0%float
    end in
  let locationData := {|
    ld_speed := js_round (value estimatedSpeed);
    ld_latitude := latitude location;
    ld_longitude := longitude location;
    ld_accuracy := accuracy location;
    ld_altitude := altitude location;
    ld_heading := heading location;
    ld_timestamp := currentTime |} in
  modify_sensors (set_last (Some location) (Some currentTime));;
  modify (fun w => set_locationOut (locationOut w ++ [locationData]) w).

(** GPS tracking for speed estimation: the subscription. *)
Definition startGPSTracking : M unit :=
  ready ← gets (fun w => isInitialized (sensors w));
  if negb ready then throw (Error [Txt "SensorManager not initialized"])
  else
    try_catch
      (p ← gets platform;
       await (watchPosition p);;
       modify_sensors (set_locationSubscription true);;
       console_log [Txt "GPS tracking started"])
      (fun error =>
         console_log (Txt "Failed to start GPS tracking:" :: error_message error);;
         throw error).

(** Stop GPS tracking *)
Definition stopGPSTracking : M unit :=
  subscribed ← gets (fun w => locationSubscription (sensors w));
  when subscribed
    (modify_sensors (set_locationSubscription false);;
     console_log [Txt "GPS tracking stopped"]).

End SensorManager.

(** ** Construction *)

(** The constructor of [YezdiBleManager]. *)
Definition new_YezdiBleManager : YezdiBleManager := {|
  connectedDevice := None;
  isScanning := false;
  dataCallback := false;
  connectionCallback := false;
  debugLogs := [];
  customSettings :=
    list_to_map [("serviceUUID", JStr ""); ("charUUID", JStr "");
                 ("authKey", JStr "YEZDI_AUTH_DEFAULT")];
  (* Mock data for testing - CLEAN VERSION *)
  mockData := {|
    md_speed := 0; md_gear := 1; md_rpm := 0; md_fuel := 0;
    md_ridingMode := "Road";
    md_highBeam := false; md_hazard := false; md_engineCheck := false;
    md_battery := true;
    md_odometer := "00000";
    md_tripA := "000.0"; md_tripB := "000.0"; md_afe := "00.0"; md_bfe := "00.0" |};
  (* Fallback data sources *)
  sensorFallbackEnabled := true;
  mockDataEnabled := false;
  cachedDataEnabled := true;
  lastKnownData := JNull;
  mockDataInterval := None;
  gpsSubscription := None;
  accelerometerSubscription := false;
|}.

(** The constructor of [YezdiSensorManager]. *)
Definition new_YezdiSensorManager : YezdiSensorManager := {|
  isInitialized := false;
  locationSubscription := false;
  sm_lastLocation := None;
  sm_lastLocationTime := None;
|}.

(** The application right after its modules are loaded, at time [t] on a
    given platform, with an empty store. *)
Definition boot (p : Platform) (t : Z) : World := {|
  platform := p;
  now := t;
  draws := 0;
  timers := 0;
  console := [];
  asyncStorage := ∅;
  ble := new_YezdiBleManager;
  sensors := new_YezdiSensorManager;
  dataOut := [];
  connectionOut := [];
  locationOut := [];
  written := [];
  monitored := [];
|}.

(** A platform on which every request is granted and nothing fails, with a
    random source stuck at one half. *)
Definition calm_platform : Platform := {|
  random := fun _ => (1 # 2)%Q;
  locationRequest := Return "granted";
  locationStatus := Return "granted";
  cameraRequest := Return "granted";
  watchPosition := Return tt;
  accelerometer := Return tt;
  central := fun _ => Throw (Error [Txt "Device not found"]);
  digest := Return "";
  storageFault := None;
|}.

(** ** Notions used in the statements *)

(** One call [log(level, message)] made when the clock reads [t]. *)
Definition log_at (call : Z * string * message) (w : World) : World :=
  let '(t, level, message) := call in
  snd (BleManager.log level message (set_now t w)).

(** The entry that such a call builds. *)
Definition entry_of (call : Z * string * message) : LogEntry :=
  let '(t, level, message) := call in
  {| timestamp := t; level := level; msg := message |}.

(** A sequence of calls of [log], oldest first. *)
Definition log_all (calls : list (Z * string * message)) (w : World) : World :=
  foldl (fun w call => log_at call w) w calls.

(** The four estimates that [parseIncomingData] adds to a decoded record
    which has none of them, from the random draws number [d] to [d + 3]. *)
Definition with_estimates (r : nat -> Q) (d : nat) (data : gmap string jsval)
  : gmap string jsval :=
  <["bfe" := JStr (toFixed1 (r (3 + d)%nat * 8 + 14)%Q)]>
    (<["afe" := JStr (toFixed1 (r (2 + d)%nat * 10 + 15)%Q)]>
       (<["tripB" := JStr (toFixed1 (r (1 + d)%nat * 500 + 200)%Q)]>
          (<["tripA" := JStr (toFixed1 (r d * 200 + 100)%Q)]> data))).

(** The big-endian unsigned values of two and of four bytes. *)
Definition uint16BE (b0 b1 : Z) : Z := (b0 * 256 + b1)%Z.
Definition uint32BE (b0 b1 b2 b3 : Z) : Z :=
  (b0 * 16777216 + b1 * 65536 + b2 * 256 + b3)%Z.

(** [parseIncomingData] returns normally and hands [record] to the data
    callback, when one is registered. *)
Definition emits (buffer : list byte) (w : World) (record : jsval) : Prop :=
  let w' := snd (BleManager.parseIncomingData buffer w) in
  fst (BleManager.parseIncomingData buffer w) = Return tt
  ∧ dataOut w' = (if dataCallback (ble w) then dataOut w ++ [record] else dataOut w).

(** [parseIncomingData] decodes the buffer into the record [data]: it emits
    it and keeps it as the last known data. *)
Definition decodes (buffer : list byte) (w : World) (data : gmap string jsval) : Prop :=
  emits buffer w (JObj data)
  ∧ lastKnownData (ble (snd (BleManager.parseIncomingData buffer w))) = JObj data.

(** The application after start-up on the calm platform, with a consumer
    registered for the data and the connection callbacks. *)
Definition listening : World :=
  snd (BleManager.setConnectionCallback
         (snd (BleManager.setDataCallback (boot calm_platform 1700000000000)))).

(** A conversion to numbers that is the identity on numbers; what it does
    on the other values plays no role where it is used. *)
Definition ToNumber_of_numbers (v : jsval) : jsnum :=
  match v with
  | JNum x => Fin x
  | _ => NaN
  end.

(** The state after [n] ticks of the synthetic generator. *)
Definition ticks (n : nat) (w : World) : World :=
  Nat.iter n (fun w => snd (BleManager.mockTick w)) w.

(** A position fix taken at the time [t], and the application while its
    position watcher holds a previous fix taken at the time 1000: once in the
    BLE manager, once in the sensor manager. *)
Definition fix_at (t : float) : Location :=
  {| latitude := 0; longitude := 0; accuracy := 5; altitude := 0; heading := 0;
     fix_time := t |}.

Definition tracking : World :=
  set_ble (set_gpsSubscription
             (Some {| lastLocation := Some (fix_at 1000); lastTime := Some 1000%float |})
             (ble listening))
    (set_now 2000
       (set_sensors (SensorManager.set_last (Some (fix_at 1000)) (Some 1000%Z)
                       (sensors listening))
          listening)).


(** What a line of the console tells about the connection: the steps of the
    authentication chain and the start of the data monitoring.  A line is
    the level between brackets followed by the message. *)
Inductive AuthEvent :=
| Attempting (n : Q)
| Succeeded (n : Q)
| Failed (n : Q)
| Exhausted
| MonitoringSetUp.

Definition auth_event (line : message) : option AuthEvent :=
  match line with
  | Txt _ :: Val (JStr _) :: Txt _ :: body =>
      match body with
      | [Txt t] =>
          if String.eqb t "All authentication methods failed, proceeding without authentication"
          then Some Exhausted
          else if String.eqb t "Setting up data monitoring" then Some MonitoringSetUp
          else None
      | [Txt t; Val (JNum n)] =>
          if String.eqb t "Attempting authentication method " then Some (Attempting n)
          else None
      | Txt t :: Val (JNum n) :: Txt t' :: rest =>
          if String.eqb t "Authentication method " then
            if String.eqb t' " failed: " then Some (Failed n)
            else if String.eqb t' " successful" then
              match rest with
              | [] => Some (Succeeded n)
              | _ => None
              end
            else None
          else None
      | _ => None
      end
  | _ => None
  end.

(** The events among the lines that a method writes to the console when
    run in [w]. *)
Definition said {A} (m : M A) (w : World) : list message :=
  drop (length (console w)) (console (snd (m w))).

Definition auth_trace {A} (m : M A) (w : World) : list AuthEvent :=
  omap auth_event (said m w).

(** Run in [w], a method leaves the platform alone and only adds lines to
    the console, and the events of the lines it adds satisfy [P] together
    with its result. *)
Definition traces_at {A} (m : M A) (w : World)
    (P : Result A -> list AuthEvent -> Prop) : Prop :=
  exists lines,
    console (snd (m w)) = console w ++ lines
    ∧ platform (snd (m w)) = platform w
    ∧ P (fst (m w)) (omap auth_event lines).

(** A method adds no line that tells of the authentication or the monitoring. *)
Definition quiet {A} (m : M A) : Prop :=
  forall w, traces_at m w (fun _ events => events = []).

(** A quiet method that never raises. *)
Definition steady {A} (m : M A) : Prop :=
  forall w, traces_at m w (fun r events => (exists a, r = Return a) ∧ events = []).

(** The three ways the authentication chain can go. *)
Definition chain_first : list AuthEvent := [Attempting 1; Succeeded 1].
Definition chain_second : list AuthEvent :=
  [Attempting 1; Failed 1; Attempting 2; Succeeded 2].
Definition chain_exhausted : list AuthEvent :=
  [Attempting 1; Failed 1; Attempting 2; Failed 2; Attempting 3; Failed 3; Exhausted].

(** A peripheral whose services cannot be read, and a platform that connects
    to it and on which the digest fails: every authentication method fails. *)
Definition unreadable_device : Device := {|
  discoverAllServicesAndCharacteristics := Return tt;
  services := Throw (Error [Txt "Device is not connected"]);
  cancelConnection := Return tt;
|}.

Definition failing_platform : Platform := {|
  random := fun _ => (1 # 2)%Q;
  locationRequest := Return "granted";
  locationStatus := Return "granted";
  cameraRequest := Return "granted";
  watchPosition := Return tt;
  accelerometer := Return tt;
  central := fun _ => Return unreadable_device;
  digest := Throw (Error [Txt "Digest unavailable"]);
  storageFault := None;
|}.

Definition a_bike : DeviceInfo := {| id := "AA:BB:CC:DD:EE:FF"; name := Some "Yezdi"; rssi := None |}.

(** The application at start-up with a telemetry snapshot and custom link
    settings in the store. *)
Definition a_snapshot : jsval := JObj (<["speed" := int 42]> ∅).
Definition some_settings : jsval := JObj (<["authKey" := JStr "secret"]> ∅).

Definition stocked (p : Platform) : World :=
  set_asyncStorage
    (<["yezdi_cached_data" := JsonText a_snapshot]>
       (<["yezdi_custom_settings" := JsonText some_settings]> ∅))
    (boot p 1700000000000).

(** ** Notions used in the further properties *)

(** A method leaves an observation of the world as it is. *)
Definition keeps {X A} (obs : World -> X) (m : M A) : Prop :=
  forall w, obs (snd (m w)) = obs w.

(** What the steps of a connection leave alone before they notify the
    consumer and start the data sources: everything but the console, the
    log, the store, the random source and the traffic on the radio. *)
Definition session (w : World) :=
  (platform w, now w, timers w, sensors w, dataOut w, connectionOut w, locationOut w,
   (connectedDevice (ble w), isScanning (ble w), dataCallback (ble w),
    connectionCallback (ble w), customSettings (ble w), mockData (ble w)),
   (sensorFallbackEnabled (ble w), mockDataEnabled (ble w), cachedDataEnabled (ble w),
    lastKnownData (ble w), mockDataInterval (ble w), gpsSubscription (ble w),
    accelerometerSubscription (ble w))).

(** A random source that answers as [Math.random] does: in [0, 1). *)
Definition fair (p : Platform) : Prop := forall i, (0 <= random p i)%Q ∧ (random p i < 1)%Q.

(** Mock data with nothing to simulate: no speed, no engine speed, no fuel. *)
Definition parked (d : MockData) : Prop :=
  (md_speed d <= 0)%Q ∧ (md_rpm d <= 0)%Q ∧ (md_fuel d <= 0)%Q.

(** Mock data whose three quantities are not negative. *)
Definition plausible (d : MockData) : Prop :=
  (0 <= md_speed d)%Q ∧ (0 <= md_rpm d)%Q ∧ (0 <= md_fuel d)%Q.





(** The characteristics of a service, when they can be read. *)
Definition chars_of (service : Service) : list Characteristic :=
  match characteristics service with
  | Return chars => chars
  | Throw _ => []
  end.

(** The services of a peripheral are [found] and all of them can be read. *)
Definition readable (device : Device) (found : list Service) : Prop :=
  services device = Return found
  ∧ Forall (fun service => characteristics service = Return (chars_of service)) found.

(** The characteristics among [found] that [pick] selects, each with the
    service it belongs to, in the order of discovery. *)
Definition picked (pick : Characteristic -> bool) (found : list Service)
  : list (Service * Characteristic) :=
  service ← found; (fun char => (service, char)) <$> List.filter pick (chars_of service).

Definition writable (char : Characteristic) : bool :=
  isWritableWithoutResponse char || isWritableWithResponse char.

(** A peripheral with one UART-like service: a notifying characteristic, a
    writable one and a read-only one; and a platform that connects to it. *)
Definition uart_service : Service := {|
  service_uuid := "6e400001";
  characteristics := Return [
    {| char_uuid := "6e400003"; isReadable := false; isWritableWithResponse := false;
       isWritableWithoutResponse := false; isNotifiable := true;
       writeWithResponse := Throw (Error [Txt "Characteristic is not writable"]) |};
    {| char_uuid := "6e400002"; isReadable := false; isWritableWithResponse := true;
       isWritableWithoutResponse := true; isNotifiable := false;
       writeWithResponse := Return tt |};
    {| char_uuid := "2a00"; isReadable := true; isWritableWithResponse := false;
       isWritableWithoutResponse := false; isNotifiable := false;
       writeWithResponse := Throw (Error [Txt "Characteristic is not writable"]) |}];
|}.

Definition uart_device : Device := {|
  discoverAllServicesAndCharacteristics := Return tt;
  services := Return [uart_service];
  cancelConnection := Return tt;
|}.

Definition pairing_platform : Platform := {|
  random := fun _ => (1 # 2)%Q;
  locationRequest := Return "granted";
  locationStatus := Return "granted";
  cameraRequest := Return "granted";
  watchPosition := Return tt;
  accelerometer := Return tt;
  central := fun _ => Return uart_device;
  digest := Return "";
  storageFault := None;
|}.

(** The application started on that platform with both consumer callbacks
    registered. *)
Definition paired : World :=
  snd (BleManager.setConnectionCallback
         (snd (BleManager.setDataCallback (boot pairing_platform 1700000000000)))).

(** * Properties *)

(** ** The operational log *)

Section OperationalLog.

Lemma log_returns level message w :
  fst (BleManager.log level message w) = Return tt.
Proof. reflexivity. Qed.

Lemma log_debugLogs level message w :
  debugLogs (ble (snd (BleManager.log level message w))) =
  let pushed := debugLogs (ble w)
                ++ [{| timestamp := now w; level := level; msg := message |}] in
  if (500 <? length pushed)%nat then slice_last 500 pushed else pushed.
Proof. reflexivity. Qed.

Lemma slice_last_length {A} n (l : list A) :
  length (slice_last n l) = Nat.min n (length l).
Proof. unfold slice_last. rewrite length_drop. lia. Qed.

Lemma log_bounded level message w :
  length (debugLogs (ble (snd (BleManager.log level message w)))) <= 500.
Proof.
  rewrite log_debugLogs. cbv zeta.
  destruct (Nat.ltb_spec 500 (length (debugLogs (ble w) ++
    [{| timestamp := now w; level := level; msg := message |}]))) as [Hlt | Hle].
  - rewrite slice_last_length. lia.
  - exact Hle.
Qed.

(** From a log within its capacity, one call leaves the last 500 of the
    old entries followed by the new one. *)
Lemma log_at_debugLogs call w :
  debugLogs (ble (log_at call w)) = slice_last 500 (debugLogs (ble w) ++ [entry_of call]).
Proof.
  destruct call as [[t level] message]. unfold log_at, entry_of.
  rewrite log_debugLogs. cbv zeta.
  cbn [now set_now ble debugLogs].
  destruct (Nat.ltb_spec 500 (length (debugLogs (ble w) ++
    [{| timestamp := t; level := level; msg := message |}]))) as [Hlt | Hle].
  - reflexivity.
  - unfold slice_last.
    replace (length _ - 500) with 0 by lia. reflexivity.
Qed.

Lemma slice_last_app {A} n (l : list A) (x : A) :
  slice_last (S n) (slice_last (S n) l ++ [x]) = slice_last (S n) (l ++ [x]).
Proof.
  unfold slice_last. rewrite !length_app, length_drop. simpl.
  destruct (Nat.le_gt_cases (length l) (S n)) as [Hle | Hgt].
  - replace (length l - S n) with 0 by lia. rewrite drop_0, Nat.sub_0_r. reflexivity.
  - replace (length l - (length l - S n) + 1 - S n) with 1 by lia.
    replace (length l + 1 - S n) with (S (length l - S n)) by lia.
    rewrite (drop_app_le l [x] (S (length l - S n))) by lia.
    rewrite (drop_app_le (drop (length l - S n) l) [x] 1) by (rewrite length_drop; lia).
    rewrite drop_drop. f_equal. f_equal. lia.
Qed.

Lemma log_all_debugLogs calls w :
  calls ≠ [] ->
  debugLogs (ble (log_all calls w)) =
  slice_last 500 (debugLogs (ble w) ++ (entry_of <$> calls)).
Proof.
  induction calls as [| call calls IH] using rev_ind; [congruence | intros _].
  unfold log_all. rewrite foldl_snoc. fold (log_all calls w).
  rewrite log_at_debugLogs, fmap_app. simpl.
  destruct calls as [| c calls'].
  - reflexivity.
  - rewrite IH by congruence.
    rewrite slice_last_app, app_assoc. reflexivity.
Qed.

End OperationalLog.

(** C2. After every call of [log] the operational log holds at most 500
    entries, and eviction is oldest first: after 501 calls on an empty log,
    [getDebugLogs()] returns exactly the entries of the calls 2 to 501, in
    order.  The entry of the 501st call is therefore in it, and the entry of
    the first call is not (no entry of the log is the one the first call
    pushed; as a value it does not occur either unless a later call logged
    the very same timestamp, level and message). *)
Theorem C2_log_capacity_fifo (calls : list (Z * string * message)) (w : World)
    (Hcalls : length calls = 501) (Hempty : debugLogs (ble w) = []) :
  (forall level message w0,
     length (debugLogs (ble (snd (BleManager.log level message w0)))) <= 500)
  ∧ fst (BleManager.getDebugLogs (log_all calls w)) = Return (drop 1 (entry_of <$> calls))
  ∧ length (debugLogs (ble (log_all calls w))) = 500
  ∧ (forall last, calls !! 500 = Some last ->
       entry_of last ∈ debugLogs (ble (log_all calls w)))
  ∧ (forall first, calls !! 0 = Some first ->
       (forall i later, 0 < i -> calls !! i = Some later -> entry_of later ≠ entry_of first) ->
       entry_of first ∉ debugLogs (ble (log_all calls w))).
Proof.
  assert (Hlogs : debugLogs (ble (log_all calls w)) = drop 1 (entry_of <$> calls)).
  { rewrite log_all_debugLogs by (intros ->; discriminate).
    rewrite Hempty. unfold slice_last. simpl.
    rewrite length_fmap, Hcalls. reflexivity. }
  split; [exact log_bounded |].
  split; [unfold BleManager.getDebugLogs, gets; simpl; rewrite Hlogs; reflexivity |].
  rewrite Hlogs.
  split; [rewrite length_drop, length_fmap, Hcalls; reflexivity |].
  split.
  - intros last Hlast. apply list_elem_of_lookup. exists 499.
    rewrite lookup_drop, list_lookup_fmap. simpl. rewrite Hlast. reflexivity.
  - intros first Hfirst Hdistinct Hin.
    apply list_elem_of_lookup in Hin as [i Hi].
    rewrite lookup_drop, list_lookup_fmap in Hi.
    destruct (calls !! (1 + i)) as [later |] eqn:Hlater; [| discriminate].
    simpl in Hi. injection Hi as Hi.
    exact (Hdistinct (1 + i) later ltac:(lia) Hlater Hi).
Qed.

(** The calls [log('INFO', 'entry')] at the times 0, 1, ..., 500. *)
Lemma C2_log_capacity_fifo_witness :
  let calls := (fun i => (Z.of_nat i, "INFO", [Txt "entry"])) <$> seq 0 501 in
  fst (BleManager.getDebugLogs (log_all calls (boot calm_platform 0))) =
  Return (drop 1 (entry_of <$> calls)).
Proof.
  intros calls.
  exact (proj1 (proj2 (C2_log_capacity_fifo calls (boot calm_platform 0) eq_refl eq_refl))).
Defined.

(** ** The frame decoder *)

Ltac munfold :=
  unfold mbind, M_bind, mret, M_ret, gets, modify, modify_ble, when, await, throw,
    try_catch, Math_random.

Section Bytes.

Lemma byte_at_range b : (0 <= Buffer.byte_at b < 256)%Z.
Proof.
  unfold Buffer.byte_at. pose proof (Byte.to_N_bounded b). lia.
Qed.

Lemma at_range buffer i : (0 <= Buffer.at_ buffer i < 256)%Z.
Proof. apply byte_at_range. Qed.

Lemma lor_shiftl_add hi lo n :
  (0 <= n)%Z -> (0 <= lo < 2 ^ n)%Z ->
  Z.lor (Z.shiftl hi n) lo = (hi * 2 ^ n + lo)%Z.
Proof.
  intros Hn Hlo.
  rewrite Z.shiftl_mul_pow2 by assumption.
  assert (Hland : Z.land (hi * 2 ^ n) lo = 0%Z).
  { apply Z.bits_inj'. intros i Hi. rewrite Z.land_spec, Z.bits_0.
    destruct (Z.lt_ge_cases i n) as [Hlt | Hge].
    - rewrite Z.mul_pow2_bits_low by assumption. reflexivity.
    - destruct (Z.eq_dec lo 0%Z) as [-> | Hne].
      + rewrite Z.bits_0. apply andb_false_r.
      + rewrite (Z.bits_above_log2 lo i), andb_false_r; [reflexivity | lia |].
        apply Z.lt_le_trans with n; [| assumption].
        apply Z.log2_lt_pow2; lia. }
  rewrite <- Z.lxor_lor by exact Hland.
  symmetry. apply Z.add_nocarry_lxor. exact Hland.
Qed.

Lemma flag_bits b :
  let f := Buffer.byte_at b in
  negb (Z.land f 1 =? 0)%Z = Z.testbit f 0
  ∧ negb (Z.land f 2 =? 0)%Z = Z.testbit f 1
  ∧ negb (Z.land f 4 =? 0)%Z = Z.testbit f 2
  ∧ negb (Z.land f 8 =? 0)%Z = Z.testbit f 3.
Proof. destruct b; repeat split; reflexivity. Qed.

Lemma toString_nonempty z : String.eqb (toString z) "" = false.
Proof.
  unfold toString, NilZero.string_of_int.
  destruct (Z.to_int z) as [d | d]; [destruct d |]; reflexivity.
Qed.

End Bytes.

Section Decoder.

Import BleManager.

Lemma leb_within (buffer : list byte) k n :
  n <= length buffer -> k <= n -> (k <=? length buffer) = true.
Proof. intros. apply Nat.leb_le. lia. Qed.

Lemma parseFull_run buffer w :
  11 <= length buffer ->
  parseFull buffer w =
  (Return (object [
     ("speed", int (or_default (Buffer.at_ buffer 0) 0));
     ("gear", int (or_default (Buffer.at_ buffer 1) 1));
     ("rpm", int (or_default
        (Z.lor (Z.shiftl (Buffer.at_ buffer 2) 8) (Buffer.at_ buffer 3) * 10) 0));
     ("fuel", int (or_default (Buffer.at_ buffer 4) 0));
     ("ridingMode",
      JStr (let m := nth (Z.to_nat (Buffer.at_ buffer 5 mod 3)) ridingModes "" in
            if String.eqb m "" then "Road" else m));
     ("highBeam", JBool (negb (Z.land (Buffer.at_ buffer 6) 1 =? 0)%Z));
     ("hazard", JBool (negb (Z.land (Buffer.at_ buffer 6) 2 =? 0)%Z));
     ("engineCheck", JBool (negb (Z.land (Buffer.at_ buffer 6) 4 =? 0)%Z));
     ("battery", JBool (negb (Z.land (Buffer.at_ buffer 6) 8 =? 0)%Z));
     ("odometer",
      JStr (let s := toString
              (Buffer.at_ buffer 7 * 16777216 +
               Z.lor (Z.lor (Z.shiftl (Buffer.at_ buffer 8) 16)
                            (Z.shiftl (Buffer.at_ buffer 9) 8))
                     (Buffer.at_ buffer 10))%Z in
            if String.eqb s "" then "00000" else s))]), w).
Proof.
  intros Hlen.
  unfold parseFull, Buffer.readUInt8, Buffer.readUInt16BE, Buffer.readUInt32BE,
    Buffer.checked.
  cbn [Nat.add].
  rewrite !(leb_within buffer _ 11) by lia.
  reflexivity.
Qed.

Lemma parseFull_throw buffer w :
  length buffer = 10 ->
  parseFull buffer w = (Throw Buffer.out_of_range, w).
Proof.
  intros Hlen.
  unfold parseFull, Buffer.readUInt8, Buffer.readUInt16BE, Buffer.readUInt32BE,
    Buffer.checked.
  rewrite Hlen. reflexivity.
Qed.

(** The keys of a record that one of the three strategies builds. *)
Lemma decoded_keys v1 v2 v3 v4 v5 v6 v7 v8 v9 v10 :
  let data := object [("speed", v1); ("gear", v2); ("rpm", v3); ("fuel", v4);
                      ("ridingMode", v5); ("highBeam", v6); ("hazard", v7);
                      ("engineCheck", v8); ("battery", v9); ("odometer", v10)] in
  (data !! "tripA" = None ∧ data !! "tripB" = None
   ∧ data !! "afe" = None ∧ data !! "bfe" = None)
  ∧ data !! "speed" = Some v1 ∧ data !! "gear" = Some v2 ∧ data !! "rpm" = Some v3
  ∧ data !! "fuel" = Some v4 ∧ data !! "ridingMode" = Some v5
  ∧ data !! "highBeam" = Some v6 ∧ data !! "hazard" = Some v7
  ∧ data !! "engineCheck" = Some v8 ∧ data !! "battery" = Some v9
  ∧ data !! "odometer" = Some v10.
Proof. repeat split; reflexivity. Qed.

Lemma with_estimates_lookup r d (data : gmap string jsval) k :
  k ≠ "tripA" -> k ≠ "tripB" -> k ≠ "afe" -> k ≠ "bfe" ->
  with_estimates r d data !! k = data !! k.
Proof.
  intros. unfold with_estimates. rewrite !lookup_insert_ne by done. reflexivity.
Qed.

Lemma bind_Return {A B} (m : M A) (k : A -> M B) w a w' :
  m w = (Return a, w') -> (m ≫= k) w = k a w'.
Proof. intros H. unfold mbind, M_bind. rewrite H. reflexivity. Qed.

Lemma bind_Throw {A B} (m : M A) (k : A -> M B) w e w' :
  m w = (Throw e, w') -> (m ≫= k) w = (Throw e, w').
Proof. intros H. unfold mbind, M_bind. rewrite H. reflexivity. Qed.

Lemma log_run level message w :
  log level message w = (Return tt, snd (log level message w)).
Proof. reflexivity. Qed.

Lemma fill_estimate_run k a b (data : gmap string jsval) w :
  data !! k = None ->
  fill_estimate k a b data w =
  (Return (<[k := JStr (toFixed1 (random (platform w) (draws w) * a + b)%Q)]> data),
   set_draws (S (draws w)) w).
Proof. intros H. unfold fill_estimate. rewrite H. reflexivity. Qed.

(** Caching never fails and leaves the record and the callback alone. *)
Lemma cacheData_run data w :
  exists w', cacheData data w = (Return tt, w')
  ∧ lastKnownData (ble w') = lastKnownData (ble w)
  ∧ dataCallback (ble w') = dataCallback (ble w)
  ∧ dataOut w' = dataOut w.
Proof.
  unfold cacheData, AsyncStorage_setItem. munfold.
  destruct (cachedDataEnabled (ble w)); [| eexists; repeat split; reflexivity].
  destruct (storageFault (platform w)); eexists;
    (split; [first [apply log_run | reflexivity] | repeat split; reflexivity]).
Qed.

Lemma call_dataCallback_run data w :
  call_dataCallback data w =
  (Return tt, if dataCallback (ble w) then set_dataOut (dataOut w ++ [data]) w else w).
Proof. unfold call_dataCallback. munfold. destruct (dataCallback (ble w)); reflexivity. Qed.

(** When a strategy has produced a record without estimates, the rest of
    the [try] block cannot fail: the record, completed with the four
    estimates, becomes [lastKnownData] and goes to the data callback. *)
Lemma parse_try_decoded buffer w (data : gmap string jsval) w1 :
  parse_strategy buffer
    (snd (log "INFO" [Txt "Received BLE data: "; Hex buffer] w)) = (Return data, w1) ->
  data !! "tripA" = None -> data !! "tripB" = None ->
  data !! "afe" = None -> data !! "bfe" = None ->
  let final := with_estimates (random (platform w1)) (draws w1) data in
  exists w', parse_try buffer w = (Return tt, w')
  ∧ lastKnownData (ble w') = JObj final
  ∧ dataOut w' = (if dataCallback (ble w1) then dataOut w1 ++ [JObj final] else dataOut w1).
Proof.
  intros Hdec HA HB Ha Hb final.
  assert (HB' : forall v, (<["tripA" := v]> data) !! "tripB" = None)
    by (intros; rewrite lookup_insert_ne by done; exact HB).
  assert (Ha' : forall v v', (<["tripB" := v']> (<["tripA" := v]> data)) !! "afe" = None)
    by (intros; rewrite !lookup_insert_ne by done; exact Ha).
  assert (Hb' : forall v v' v'',
    (<["afe" := v'']> (<["tripB" := v']> (<["tripA" := v]> data))) !! "bfe" = None)
    by (intros; rewrite !lookup_insert_ne by done; exact Hb).
  unfold parse_try.
  rewrite (bind_Return (log _ _) _ w tt _ (log_run _ _ _)).
  rewrite (bind_Return _ _ _ _ _ Hdec).
  rewrite (bind_Return _ _ _ _ _ (fill_estimate_run _ _ _ _ _ HA)).
  rewrite (bind_Return _ _ _ _ _ (fill_estimate_run _ _ _ _ _ (HB' _))).
  rewrite (bind_Return _ _ _ _ _ (fill_estimate_run _ _ _ _ _ (Ha' _ _))).
  rewrite (bind_Return _ _ _ _ _ (fill_estimate_run _ _ _ _ _ (Hb' _ _ _))).
  cbn [draws platform set_draws].
  change (<["bfe" := _]> _) with final.
  rewrite (bind_Return (log _ _) _ _ tt _ (log_run _ _ _)).
  rewrite (bind_Return (modify_ble _) _ _ tt _ eq_refl).
  match goal with
  | |- context [(cacheData ?d ≫= _) ?w0] =>
      destruct (cacheData_run d w0) as (w2 & Hcache & Hlast & Hcb & Hout);
      rewrite (bind_Return _ _ _ _ _ Hcache)
  end.
  rewrite call_dataCallback_run. eexists. split; [reflexivity |].
  rewrite Hcb. simpl in Hlast, Hcb, Hout. simpl.
  destruct (dataCallback (ble w1)); simpl; rewrite ?Hlast, ?Hout; split; reflexivity.
Qed.

Lemma parse_try_throw buffer w e w1 :
  parse_strategy buffer
    (snd (log "INFO" [Txt "Received BLE data: "; Hex buffer] w)) = (Throw e, w1) ->
  parse_try buffer w = (Throw e, w1).
Proof.
  intros Hdec. unfold parse_try.
  rewrite (bind_Return (log _ _) _ w tt _ (log_run _ _ _)).
  rewrite (bind_Throw _ _ _ _ _ Hdec). reflexivity.
Qed.

Lemma strategy_full buffer w :
  11 <= length buffer ->
  parse_strategy buffer w = parseFull buffer w.
Proof.
  intros Hlen. unfold parse_strategy.
  rewrite (leb_within buffer 10 11) by lia. reflexivity.
Qed.

Lemma strategy_full_throw buffer w :
  length buffer = 10 ->
  parse_strategy buffer w = (Throw Buffer.out_of_range, w).
Proof.
  intros Hlen. unfold parse_strategy. rewrite Hlen. simpl.
  apply parseFull_throw. exact Hlen.
Qed.

Lemma strategy_minimal buffer w :
  4 <= length buffer <= 9 ->
  parse_strategy buffer w =
  (Return (object [
     ("speed", int (or_default (Buffer.at_ buffer 0) 0));
     ("gear", int (Z.max (or_default (Buffer.at_ buffer 1) 1) 1));
     ("rpm", int (or_default
        (Z.lor (Z.shiftl (Buffer.at_ buffer 2) 8) (Buffer.at_ buffer 3) * 50) 0));
     ("fuel", int 50);
     ("ridingMode", JStr "Road");
     ("highBeam", JBool false); ("hazard", JBool false);
     ("engineCheck", JBool false); ("battery", JBool true);
     ("odometer", JStr "00000")]),
   snd (log "WARN" [Txt "Short data packet: "; Val (int (Z.of_nat (length buffer)));
                    Txt " bytes, minimal parsing"] w)).
Proof.
  intros Hlen. unfold parse_strategy.
  replace (10 <=? length buffer) with false by (symmetry; apply Nat.leb_gt; lia).
  rewrite (leb_within buffer 4 4) by lia.
  unfold parseMinimal.
  rewrite (bind_Return (log _ _) _ w tt _ (log_run _ _ _)).
  unfold Buffer.readUInt8, Buffer.readUInt16BE, Buffer.checked.
  cbn [Nat.add].
  rewrite !(leb_within buffer _ 4) by lia.
  reflexivity.
Qed.

Lemma strategy_basic buffer w :
  length buffer <= 3 ->
  parse_strategy buffer w =
  (Return (object [
     ("speed", int (if (0 <? length buffer)%nat then Buffer.at_ buffer 0 else 0));
     ("gear", int 1); ("rpm", int 0); ("fuel", int 0);
     ("ridingMode", JStr "Road");
     ("highBeam", JBool false); ("hazard", JBool false);
     ("engineCheck", JBool false); ("battery", JBool false);
     ("odometer", JStr "--")]),
   snd (log "WARN" [Txt "Very short data packet: "; Val (int (Z.of_nat (length buffer)));
                    Txt " bytes, basic parsing"] w)).
Proof.
  intros Hlen. unfold parse_strategy.
  replace (10 <=? length buffer) with false by (symmetry; apply Nat.leb_gt; lia).
  replace (4 <=? length buffer) with false by (symmetry; apply Nat.leb_gt; lia).
  unfold parseBasic.
  rewrite (bind_Return (log _ _) _ w tt _ (log_run _ _ _)).
  destruct buffer as [| b0 rest]; reflexivity.
Qed.

(** A record of one of the strategies, once returned, is decoded. *)
Lemma decodes_strategy buffer w w1 v1 v2 v3 v4 v5 v6 v7 v8 v9 v10 :
  let data := object [("speed", v1); ("gear", v2); ("rpm", v3); ("fuel", v4);
                      ("ridingMode", v5); ("highBeam", v6); ("hazard", v7);
                      ("engineCheck", v8); ("battery", v9); ("odometer", v10)] in
  parse_strategy buffer
    (snd (log "INFO" [Txt "Received BLE data: "; Hex buffer] w)) = (Return data, w1) ->
  dataCallback (ble w1) = dataCallback (ble w) -> dataOut w1 = dataOut w ->
  exists final,
    decodes buffer w final
    ∧ fst (parse_try buffer w) = Return tt
    ∧ final !! "speed" = Some v1 ∧ final !! "gear" = Some v2 ∧ final !! "rpm" = Some v3
    ∧ final !! "fuel" = Some v4 ∧ final !! "ridingMode" = Some v5
    ∧ final !! "highBeam" = Some v6 ∧ final !! "hazard" = Some v7
    ∧ final !! "engineCheck" = Some v8 ∧ final !! "battery" = Some v9
    ∧ final !! "odometer" = Some v10.
Proof.
  intros data Hdec Hcb Hout.
  destruct (decoded_keys v1 v2 v3 v4 v5 v6 v7 v8 v9 v10)
    as ((HA & HB & Ha & Hb) & Hfields).
  destruct (parse_try_decoded buffer w data w1 Hdec HA HB Ha Hb)
    as (w' & Hrun & Hlast & Hemit).
  exists (with_estimates (random (platform w1)) (draws w1) data).
  split; [| split].
  - unfold decodes, emits, parseIncomingData, try_catch.
    rewrite Hrun. cbn [fst snd].
    rewrite Hemit, Hcb, Hout, Hlast. repeat split; reflexivity.
  - rewrite Hrun. reflexivity.
  - rewrite !with_estimates_lookup by done. exact Hfields.
Qed.

Lemma or_default_0 z : or_default z 0 = z.
Proof. unfold or_default. destruct (Z.eqb_spec z 0); congruence. Qed.

Lemma uint16BE_read hi lo :
  (0 <= lo < 256)%Z -> Z.lor (Z.shiftl hi 8) lo = uint16BE hi lo.
Proof. intros H. rewrite lor_shiftl_add by lia. reflexivity. Qed.

Lemma uint32BE_read b0 b1 b2 b3 :
  (0 <= b2 < 256)%Z -> (0 <= b3 < 256)%Z ->
  (b0 * 16777216 + Z.lor (Z.lor (Z.shiftl b1 16) (Z.shiftl b2 8)) b3)%Z
  = uint32BE b0 b1 b2 b3.
Proof.
  intros H2 H3. unfold uint32BE.
  rewrite (Z.shiftl_mul_pow2 b2 8) by lia.
  rewrite (lor_shiftl_add b1 (b2 * 2 ^ 8) 16) by lia.
  replace (b1 * 2 ^ 16 + b2 * 2 ^ 8)%Z with (Z.shiftl (b1 * 256 + b2) 8)
    by (rewrite Z.shiftl_mul_pow2 by lia; lia).
  rewrite lor_shiftl_add by lia. lia.
Qed.

Lemma mode_name z :
  (let m := nth (Z.to_nat (z mod 3)) ridingModes "" in
   if String.eqb m "" then "Road" else m)
  = nth (Z.to_nat (z mod 3)) ridingModes "Road".
Proof.
  pose proof (Z.mod_pos_bound z 3 ltac:(lia)) as Hm.
  assert (Hcases : (z mod 3 = 0 ∨ z mod 3 = 1 ∨ z mod 3 = 2)%Z) by lia.
  destruct Hcases as [-> | [-> | ->]]; reflexivity.
Qed.

Lemma odometer_text z :
  (let s := toString z in if String.eqb s "" then "00000" else s) = toString z.
Proof. cbv zeta. rewrite toString_nonempty. reflexivity. Qed.

Lemma log_callback level message w :
  dataCallback (ble (snd (log level message w))) = dataCallback (ble w)
  ∧ dataOut (snd (log level message w)) = dataOut w
  ∧ lastKnownData (ble (snd (log level message w))) = lastKnownData (ble w).
Proof. repeat split; reflexivity. Qed.

End Decoder.

(** C1 (as amended).  For every buffer of at least 11 bytes the decoder
    returns normally and, whatever the state, produces a record with speed =
    byte 0, gear = byte 1 (1 when that byte is 0), rpm = ten times the
    big-endian 16-bit value of bytes 2-3, fuel = byte 4, ridingMode = the entry
    of Road, Rain, Off-Road at index byte 5 mod 3, highBeam, hazard,
    engineCheck and battery = the bits 0 to 3 of byte 6, and odometer = the
    decimal text of the big-endian 32-bit value of bytes 7-10. *)
Theorem C1_full_decode (buffer : list byte) (w : World) (Hlen : 11 <= length buffer) :
  exists data,
    decodes buffer w data
    ∧ data !! "speed" = Some (int (Buffer.at_ buffer 0))
    ∧ data !! "gear" = Some (int (if (Buffer.at_ buffer 1 =? 0)%Z then 1 else Buffer.at_ buffer 1))
    ∧ data !! "rpm" = Some (int (uint16BE (Buffer.at_ buffer 2) (Buffer.at_ buffer 3) * 10))
    ∧ data !! "fuel" = Some (int (Buffer.at_ buffer 4))
    ∧ data !! "ridingMode"
      = Some (JStr (nth (Z.to_nat (Buffer.at_ buffer 5 mod 3)) ["Road"; "Rain"; "Off-Road"] "Road"))
    ∧ data !! "highBeam" = Some (JBool (Z.testbit (Buffer.at_ buffer 6) 0))
    ∧ data !! "hazard" = Some (JBool (Z.testbit (Buffer.at_ buffer 6) 1))
    ∧ data !! "engineCheck" = Some (JBool (Z.testbit (Buffer.at_ buffer 6) 2))
    ∧ data !! "battery" = Some (JBool (Z.testbit (Buffer.at_ buffer 6) 3))
    ∧ data !! "odometer" = Some (JStr (toString (uint32BE (Buffer.at_ buffer 7) (Buffer.at_ buffer 8) (Buffer.at_ buffer 9) (Buffer.at_ buffer 10)))).
Proof.
  pose proof (parseFull_run buffer
    (snd (BleManager.log "INFO" [Txt "Received BLE data: "; Hex buffer] w)) Hlen) as Hrun.
  rewrite <- strategy_full in Hrun by exact Hlen.
  destruct (decodes_strategy _ _ _ _ _ _ _ _ _ _ _ _ _ Hrun eq_refl eq_refl)
    as (data & Hdec & _ & Hfields).
  exists data. split; [exact Hdec |].
  rewrite !or_default_0, mode_name, odometer_text in Hfields.
  rewrite uint16BE_read, uint32BE_read in Hfields by apply at_range.
  destruct (flag_bits (nth 6 buffer x00)) as (F0 & F1 & F2 & F3).
  fold (Buffer.at_ buffer 6) in F0, F1, F2, F3.
  rewrite F0, F1, F2, F3 in Hfields.
  exact Hfields.
Qed.

(** The frame of the specification: speed 45, gear 3, rpm 6000, fuel 60,
    Road, high beam and engine check on, hazard and battery off, odometer
    100. *)
Lemma C1_full_decode_witness :
  let buffer := Buffer.of_list [45; 3; 2; 88; 60; 0; 5; 0; 0; 0; 100]%Z in
  11 <= length buffer
  ∧ exists data,
      decodes buffer listening data
      ∧ data !! "speed" = Some (int 45)
      ∧ data !! "gear" = Some (int 3)
      ∧ data !! "rpm" = Some (int 6000)
      ∧ data !! "fuel" = Some (int 60)
      ∧ data !! "ridingMode" = Some (JStr "Road")
      ∧ data !! "highBeam" = Some (JBool true)
      ∧ data !! "hazard" = Some (JBool false)
      ∧ data !! "engineCheck" = Some (JBool true)
      ∧ data !! "battery" = Some (JBool false)
      ∧ data !! "odometer" = Some (JStr "100").
Proof.
  intros buffer. split; [vm_compute; lia |].
  exact (C1_full_decode buffer listening ltac:(vm_compute; lia)).
Defined.

(** C1 as stated fails twice.  A gear byte of 0 is decoded as gear 1, not 0;
    and a buffer of exactly 10 bytes has no byte 10, so that the read of the
    odometer raises and the record of the [catch] block is emitted instead. *)
Lemma C1_counterexample :
  (let buffer := Buffer.of_list [45; 0; 2; 88; 60; 0; 5; 0; 0; 0; 100]%Z in
   10 <= length buffer
   ∧ exists data,
       dataOut (snd (BleManager.parseIncomingData buffer listening)) = [JObj data]
       ∧ data !! "gear" = Some (int 1)
       ∧ data !! "gear" ≠ Some (int (Buffer.at_ buffer 1)))
  ∧ (let buffer := Buffer.of_list [45; 3; 2; 88; 60; 0; 5; 0; 0; 0]%Z in
     10 <= length buffer
     ∧ dataOut (snd (BleManager.parseIncomingData buffer listening))
       = [BleManager.fallbackData]
     ∧ prop "speed" BleManager.fallbackData = Some (JStr "--")
     ∧ prop "speed" BleManager.fallbackData ≠ Some (int (Buffer.at_ buffer 0))).
Proof.
  split.
  - split; [vm_compute; lia |].
    eexists. split; [vm_compute; reflexivity |].
    split; [reflexivity | vm_compute; discriminate].
  - split; [vm_compute; lia |].
    split; [vm_compute; reflexivity |].
    split; [reflexivity | vm_compute; discriminate].
Qed.

Section DecoderTiers.

Import BleManager.

Lemma gear_clamped z : (0 <= z)%Z -> Z.max (or_default z 1) 1 = Z.max z 1.
Proof. intros Hz. unfold or_default. destruct (Z.eqb_spec z 0); lia. Qed.

Lemma minimal_decoded buffer w :
  4 <= length buffer <= 9 ->
  exists data,
    decodes buffer w data
    ∧ fst (parse_try buffer w) = Return tt
    ∧ data !! "speed" = Some (int (Buffer.at_ buffer 0))
    ∧ data !! "gear" = Some (int (Z.max (Buffer.at_ buffer 1) 1))
    ∧ data !! "rpm" = Some (int (uint16BE (Buffer.at_ buffer 2) (Buffer.at_ buffer 3) * 50))
    ∧ data !! "fuel" = Some (int 50)
    ∧ data !! "ridingMode" = Some (JStr "Road")
    ∧ data !! "highBeam" = Some (JBool false)
    ∧ data !! "hazard" = Some (JBool false)
    ∧ data !! "engineCheck" = Some (JBool false)
    ∧ data !! "battery" = Some (JBool true)
    ∧ data !! "odometer" = Some (JStr "00000").
Proof.
  intros Hlen.
  pose proof (strategy_minimal buffer
    (snd (log "INFO" [Txt "Received BLE data: "; Hex buffer] w)) Hlen) as Hrun.
  destruct (decodes_strategy _ _ _ _ _ _ _ _ _ _ _ _ _ Hrun eq_refl eq_refl)
    as (data & Hdec & Hok & Hfields).
  exists data. split; [exact Hdec |]. split; [exact Hok |].
  rewrite !or_default_0, gear_clamped in Hfields by apply at_range.
  rewrite uint16BE_read in Hfields by apply at_range.
  exact Hfields.
Qed.

Lemma basic_decoded buffer w :
  length buffer <= 3 ->
  exists data,
    decodes buffer w data
    ∧ fst (parse_try buffer w) = Return tt
    ∧ data !! "speed"
      = Some (int (if (0 <? length buffer)%nat then Buffer.at_ buffer 0 else 0))
    ∧ data !! "gear" = Some (int 1)
    ∧ data !! "rpm" = Some (int 0)
    ∧ data !! "fuel" = Some (int 0)
    ∧ data !! "ridingMode" = Some (JStr "Road")
    ∧ data !! "highBeam" = Some (JBool false)
    ∧ data !! "hazard" = Some (JBool false)
    ∧ data !! "engineCheck" = Some (JBool false)
    ∧ data !! "battery" = Some (JBool false)
    ∧ data !! "odometer" = Some (JStr "--").
Proof.
  intros Hlen.
  pose proof (strategy_basic buffer
    (snd (log "INFO" [Txt "Received BLE data: "; Hex buffer] w)) Hlen) as Hrun.
  destruct (decodes_strategy _ _ _ _ _ _ _ _ _ _ _ _ _ Hrun eq_refl eq_refl)
    as (data & Hdec & Hok & Hfields).
  exists data. split; [exact Hdec |]. split; [exact Hok |]. exact Hfields.
Qed.

Lemma full_decoded_gear buffer w :
  11 <= length buffer ->
  exists data,
    decodes buffer w data
    ∧ fst (parse_try buffer w) = Return tt
    ∧ data !! "gear"
      = Some (int (if (Buffer.at_ buffer 1 =? 0)%Z then 1 else Buffer.at_ buffer 1)).
Proof.
  intros Hlen.
  pose proof (parseFull_run buffer
    (snd (log "INFO" [Txt "Received BLE data: "; Hex buffer] w)) Hlen) as Hrun.
  rewrite <- strategy_full in Hrun by exact Hlen.
  destruct (decodes_strategy _ _ _ _ _ _ _ _ _ _ _ _ _ Hrun eq_refl eq_refl)
    as (data & Hdec & Hok & Hfields).
  exists data. split; [exact Hdec |]. split; [exact Hok |]. apply Hfields.
Qed.

(** The only buffers on which the [try] block raises are those of exactly
    10 bytes: the full strategy is chosen and reads the odometer at the
    offsets 7 to 10. *)
Lemma parse_try_ten buffer w :
  length buffer = 10 ->
  parse_try buffer w
  = (Throw Buffer.out_of_range, snd (log "INFO" [Txt "Received BLE data: "; Hex buffer] w)).
Proof.
  intros Hlen. apply parse_try_throw. apply strategy_full_throw. exact Hlen.
Qed.

Lemma parse_try_returns buffer w :
  fst (parse_try buffer w) = Return tt <-> length buffer ≠ 10.
Proof.
  split.
  - intros Hok Hlen. rewrite parse_try_ten in Hok by exact Hlen. discriminate.
  - intros Hlen.
    destruct (le_lt_dec 11 (length buffer)) as [H11 | H11];
      [destruct (full_decoded_gear buffer w H11) as (? & _ & Hok & _); exact Hok |].
    destruct (le_lt_dec 4 (length buffer)) as [H4 | H4];
      [destruct (minimal_decoded buffer w ltac:(lia)) as (? & _ & Hok & _); exact Hok |].
    destruct (basic_decoded buffer w ltac:(lia)) as (? & _ & Hok & _); exact Hok.
Qed.

Lemma log_last level message w :
  last (debugLogs (ble (snd (log level message w))))
  = Some {| timestamp := now w; level := level; msg := message |}.
Proof.
  rewrite log_debugLogs. cbv zeta.
  destruct (500 <? _)%nat; [| apply last_snoc].
  unfold slice_last. rewrite length_app. simpl.
  rewrite drop_app_le by lia. apply last_snoc.
Qed.

(** What the [catch] block does after the [try] block raised. *)
Lemma parse_caught buffer w e w1 :
  parse_try buffer w = (Throw e, w1) ->
  let w' := snd (parseIncomingData buffer w) in
  fst (parseIncomingData buffer w) = Return tt
  ∧ dataOut w' = (if dataCallback (ble w1) then dataOut w1 ++ [fallbackData] else dataOut w1)
  ∧ lastKnownData (ble w') = lastKnownData (ble w1)
  ∧ last (debugLogs (ble w'))
    = Some {| timestamp := now w1; level := "ERROR";
              msg := Txt "Data parsing failed: " :: error_message e |}.
Proof.
  intros Hthrow. unfold parseIncomingData, try_catch. rewrite Hthrow.
  unfold parse_catch.
  rewrite (bind_Return (log _ _) _ w1 tt _ (log_run _ _ _)).
  rewrite call_dataCallback_run. cbn [fst snd].
  pose proof (log_last "ERROR" (Txt "Data parsing failed: " :: error_message e) w1) as Hl.
  change (dataCallback (ble (snd (log "ERROR"
    (Txt "Data parsing failed: " :: error_message e) w1)))) with (dataCallback (ble w1)).
  destruct (dataCallback (ble w1)); repeat split; try reflexivity; exact Hl.
Qed.

End DecoderTiers.

(** C7 (as amended).  For every buffer of 4 to 9 bytes the decoder produces
    speed = byte 0, gear = byte 1 clamped to at least 1, rpm = fifty times the
    big-endian 16-bit value of bytes 2-3, fuel = 50, ridingMode = Road,
    highBeam, hazard and engineCheck false, the battery flag true, and the
    placeholder odometer 00000. *)
Theorem C7_minimal_decode (buffer : list byte) (w : World)
    (Hlen : 4 <= length buffer <= 9) :
  exists data,
    decodes buffer w data
    ∧ data !! "speed" = Some (int (Buffer.at_ buffer 0))
    ∧ data !! "gear" = Some (int (Z.max (Buffer.at_ buffer 1) 1))
    ∧ data !! "rpm" = Some (int (uint16BE (Buffer.at_ buffer 2) (Buffer.at_ buffer 3) * 50))
    ∧ data !! "fuel" = Some (int 50)
    ∧ data !! "ridingMode" = Some (JStr "Road")
    ∧ data !! "highBeam" = Some (JBool false)
    ∧ data !! "hazard" = Some (JBool false)
    ∧ data !! "engineCheck" = Some (JBool false)
    ∧ data !! "battery" = Some (JBool true)
    ∧ data !! "odometer" = Some (JStr "00000").
Proof.
  destruct (minimal_decoded buffer w Hlen) as (data & Hdec & _ & Hfields).
  exists data. split; [exact Hdec | exact Hfields].
Qed.

(** A packet of six bytes with a gear byte of 0. *)
Lemma C7_minimal_decode_witness :
  let buffer := Buffer.of_list [45; 0; 2; 88; 60; 9]%Z in
  4 <= length buffer <= 9
  ∧ exists data,
      decodes buffer listening data
      ∧ data !! "speed" = Some (int 45)
      ∧ data !! "gear" = Some (int 1)
      ∧ data !! "rpm" = Some (int 30000)
      ∧ data !! "fuel" = Some (int 50)
      ∧ data !! "ridingMode" = Some (JStr "Road")
      ∧ data !! "highBeam" = Some (JBool false)
      ∧ data !! "hazard" = Some (JBool false)
      ∧ data !! "engineCheck" = Some (JBool false)
      ∧ data !! "battery" = Some (JBool true)
      ∧ data !! "odometer" = Some (JStr "00000").
Proof.
  intros buffer. split; [vm_compute; lia |].
  exact (C7_minimal_decode buffer listening ltac:(vm_compute; lia)).
Defined.

(** C7 as stated fails on the four-byte packet 45, 3, 0x02, 0x58: the battery
    flag of the record is true, not false, and its odometer is the text
    00000, not the unknown mark. *)
Lemma C7_counterexample :
  let buffer := Buffer.of_list [45; 3; 2; 88]%Z in
  4 <= length buffer <= 9
  ∧ exists data,
      dataOut (snd (BleManager.parseIncomingData buffer listening)) = [JObj data]
      ∧ data !! "battery" = Some (JBool true)
      ∧ data !! "battery" ≠ Some (JBool false)
      ∧ data !! "odometer" = Some (JStr "00000").
Proof.
  split; [vm_compute; lia |].
  eexists. split; [vm_compute; reflexivity |].
  split; [reflexivity |]. split; [discriminate | reflexivity].
Qed.

(** C10.  Whenever the decoding of a buffer of at least one byte does not
    raise, the record produced has a numeric gear of at least 1: byte 1, or 1
    when that byte is 0, in the full strategy; byte 1 clamped to at least 1 in
    the minimal strategy; 1 in the basic strategy. *)
Theorem C10_gear_at_least_one (buffer : list byte) (w : World)
    (Hlen : 1 <= length buffer)
    (Hok : fst (BleManager.parse_try buffer w) = Return tt) :
  exists data g,
    decodes buffer w data
    ∧ data !! "gear" = Some (int g)
    ∧ (1 <= g)%Z
    ∧ g = (if (10 <=? length buffer)%nat then
             (if (Buffer.at_ buffer 1 =? 0)%Z then 1 else Buffer.at_ buffer 1)
           else if (4 <=? length buffer)%nat then Z.max (Buffer.at_ buffer 1) 1
           else 1)%Z.
Proof.
  apply parse_try_returns in Hok.
  pose proof (at_range buffer 1) as Hbyte.
  destruct (le_lt_dec 11 (length buffer)) as [H11 | H11].
  { destruct (full_decoded_gear buffer w H11) as (data & Hdec & _ & Hgear).
    exists data. eexists. split; [exact Hdec |]. split; [exact Hgear |].
    rewrite (leb_within buffer 10 11) by lia.
    split; [| reflexivity]. destruct (Z.eqb_spec (Buffer.at_ buffer 1) 0); lia. }
  replace (10 <=? length buffer)%nat with false by (symmetry; apply Nat.leb_gt; lia).
  destruct (le_lt_dec 4 (length buffer)) as [H4 | H4].
  { destruct (minimal_decoded buffer w ltac:(lia)) as (data & Hdec & _ & _ & Hgear & _).
    exists data. eexists. split; [exact Hdec |]. split; [exact Hgear |].
    rewrite (leb_within buffer 4 4) by lia.
    split; [lia | reflexivity]. }
  replace (4 <=? length buffer)%nat with false by (symmetry; apply Nat.leb_gt; lia).
  destruct (basic_decoded buffer w ltac:(lia)) as (data & Hdec & _ & _ & Hgear & _).
  exists data, 1%Z. split; [exact Hdec |]. split; [exact Hgear |]. split; [lia | reflexivity].
Qed.

(** A full frame whose gear byte is 0. *)
Lemma C10_gear_at_least_one_witness :
  let buffer := Buffer.of_list [45; 0; 2; 88; 60; 0; 5; 0; 0; 0; 100]%Z in
  exists data g,
    decodes buffer listening data ∧ data !! "gear" = Some (int g) ∧ (1 <= g)%Z ∧ g = 1%Z.
Proof.
  intros buffer.
  exact (C10_gear_at_least_one buffer listening ltac:(vm_compute; lia)
           ltac:(vm_compute; reflexivity)).
Defined.

(** C5 (as amended).  No exception leaves [parseIncomingData].  The empty
    buffer is not a failure: it is decoded by the basic strategy into speed 0,
    gear 1, rpm 0, fuel 0, Road, all flags false and an unknown odometer.
    When the decoding raises (which it does exactly on the buffers of 10
    bytes), the failure is logged at level ERROR, [lastKnownData] is kept, and
    the record handed to the data callback has the unknown mark for speed,
    gear, odometer, trips and fuel economies, with rpm 0 and fuel 0. *)
Theorem C5_decode_failure (buffer : list byte) (w : World) :
  let w' := snd (BleManager.parseIncomingData buffer w) in
  fst (BleManager.parseIncomingData buffer w) = Return tt
  ∧ (buffer = [] ->
     exists data,
       decodes buffer w data
       ∧ data !! "speed" = Some (int 0) ∧ data !! "gear" = Some (int 1)
       ∧ data !! "rpm" = Some (int 0) ∧ data !! "fuel" = Some (int 0)
       ∧ data !! "ridingMode" = Some (JStr "Road")
       ∧ data !! "highBeam" = Some (JBool false) ∧ data !! "hazard" = Some (JBool false)
       ∧ data !! "engineCheck" = Some (JBool false) ∧ data !! "battery" = Some (JBool false)
       ∧ data !! "odometer" = Some (JStr "--"))
  ∧ (fst (BleManager.parse_try buffer w) ≠ Return tt <-> length buffer = 10)
  ∧ (forall e w1, BleManager.parse_try buffer w = (Throw e, w1) ->
     emits buffer w BleManager.fallbackData
     ∧ lastKnownData (ble w') = lastKnownData (ble w)
     ∧ last (debugLogs (ble w'))
       = Some {| timestamp := now w; level := "ERROR";
                 msg := Txt "Data parsing failed: " :: error_message e |})
  ∧ (prop "speed" BleManager.fallbackData = Some (JStr "--")
     ∧ prop "gear" BleManager.fallbackData = Some (JStr "--")
     ∧ prop "rpm" BleManager.fallbackData = Some (int 0)
     ∧ prop "fuel" BleManager.fallbackData = Some (int 0)
     ∧ prop "odometer" BleManager.fallbackData = Some (JStr "--")
     ∧ prop "tripA" BleManager.fallbackData = Some (JStr "--")
     ∧ prop "tripB" BleManager.fallbackData = Some (JStr "--")
     ∧ prop "afe" BleManager.fallbackData = Some (JStr "--")
     ∧ prop "bfe" BleManager.fallbackData = Some (JStr "--")).
Proof.
  intros w'.
  assert (Hcaught : forall e w1, BleManager.parse_try buffer w = (Throw e, w1) ->
    emits buffer w BleManager.fallbackData
    ∧ lastKnownData (ble w') = lastKnownData (ble w)
    ∧ last (debugLogs (ble w'))
      = Some {| timestamp := now w; level := "ERROR";
                msg := Txt "Data parsing failed: " :: error_message e |}).
  { intros e w1 Hthrow.
    destruct (Nat.eq_dec (length buffer) 10) as [Hten | Hten];
      [| pose proof (proj2 (parse_try_returns buffer w) Hten) as Hok;
         rewrite Hthrow in Hok; discriminate].
    pose proof (parse_caught buffer w e w1 Hthrow) as (Hret & Hout & Hlast & Hlog).
    rewrite parse_try_ten in Hthrow by exact Hten.
    injection Hthrow as <- <-.
    unfold emits. fold w'. repeat split; assumption. }
  split; [| split; [| split; [| split; [exact Hcaught | repeat split; reflexivity]]]].
  - destruct (BleManager.parse_try buffer w) as [[[] | e] w1] eqn:Htry.
    + unfold BleManager.parseIncomingData, try_catch. rewrite Htry. reflexivity.
    + apply (Hcaught e w1 eq_refl).
  - intros ->.
    destruct (basic_decoded [] w ltac:(simpl; lia)) as (data & Hdec & _ & Hfields).
    exists data. split; [exact Hdec | exact Hfields].
  - rewrite parse_try_returns.
    destruct (Nat.eq_dec (length buffer) 10); split; intros; try tauto; lia.
Qed.

(** A buffer of ten bytes: the read of the odometer raises. *)
Lemma C5_decode_failure_witness :
  let buffer := Buffer.of_list [45; 3; 2; 88; 60; 0; 5; 0; 0; 0]%Z in
  emits buffer listening BleManager.fallbackData
  ∧ lastKnownData (ble (snd (BleManager.parseIncomingData buffer listening))) = JNull.
Proof.
  intros buffer.
  destruct (C5_decode_failure buffer listening) as (_ & _ & _ & Hcaught & _).
  destruct (Hcaught Buffer.out_of_range
              (snd (BleManager.parse_try buffer listening)) eq_refl)
    as (Hemits & Hlast & _).
  split; [exact Hemits | exact Hlast].
Defined.

(** C5 as stated fails on the empty buffer: the record handed to the data
    callback has the numbers 0 and 1 for speed and gear, not the unknown
    mark, and no failure is logged (the last entry is the INFO entry of the
    parsed record). *)
Lemma C5_counterexample :
  exists data,
    dataOut (snd (BleManager.parseIncomingData [] listening)) = [JObj data]
    ∧ data !! "speed" = Some (int 0)
    ∧ data !! "gear" = Some (int 1)
    ∧ JObj data ≠ BleManager.fallbackData
    ∧ level <$> last (debugLogs (ble (snd (BleManager.parseIncomingData [] listening))))
      = Some "INFO".
Proof.
  eexists. split; [vm_compute; reflexivity |].
  split; [reflexivity |]. split; [reflexivity |].
  split; [| vm_compute; reflexivity].
  intros Heq. apply (f_equal (prop "speed")) in Heq. vm_compute in Heq. discriminate.
Qed.

(** ** The telemetry cache *)

Section Rationals.

Lemma Qltb_lt x y : Qltb x y = true <-> (x < y)%Q.
Proof.
  unfold Qltb. rewrite negb_true_iff.
  split.
  - intros H. apply Qnot_le_lt. intros Hle. apply Qle_bool_iff in Hle. congruence.
  - intros H. destruct (Qle_bool y x) eqn:E; [| reflexivity].
    apply Qle_bool_iff in E. exfalso. exact (Qlt_not_le _ _ H E).
Qed.

Lemma Qltb_ge x y : Qltb x y = false <-> (y <= x)%Q.
Proof.
  unfold Qltb. rewrite negb_false_iff. apply Qle_bool_iff.
Qed.

Lemma Qltb_Z a b : Qltb (inject_Z a) (inject_Z b) = (a <? b)%Z.
Proof.
  destruct (Z.ltb_spec a b) as [H | H].
  - apply Qltb_lt. rewrite <- Zlt_Qlt. exact H.
  - apply Qltb_ge. rewrite <- Zle_Qle. exact H.
Qed.

Lemma truthy_int z : truthy (int z) = negb (z =? 0)%Z.
Proof.
  unfold truthy, int, Qeq_bool, inject_Z. simpl.
  rewrite Z.mul_1_r. reflexivity.
Qed.

End Rationals.

Section Cache.

Import StorageManager.

Variable ToNumber : jsval -> jsnum.
Hypothesis ToNumber_number : forall x, ToNumber (JNum x) = Fin x.

Lemma saveCachedData_run data w :
  storageFault (platform w) = None ->
  saveCachedData data w =
  (Return true,
   set_asyncStorage
     (<[CACHED_DATA := JsonText (JObj (<["timestamp" := int (now w)]> (spread data)))]>
        (asyncStorage w)) w).
Proof.
  intros Hok. unfold saveCachedData, setItem, AsyncStorage_setItem. munfold.
  rewrite Hok. reflexivity.
Qed.

Lemma elapsed_below_int now_ stamp limit :
  elapsed_below ToNumber now_ (int stamp) (inject_Z limit) = (now_ - stamp <? limit)%Z.
Proof.
  unfold elapsed_below, int. rewrite ToNumber_number.
  rewrite <- Qltb_Z.
  destruct (Qltb (inject_Z (now_ - stamp)) (inject_Z limit)) eqn:E.
  - apply Qltb_lt. apply Qltb_lt in E.
    unfold Z.sub in E. rewrite inject_Z_plus, inject_Z_opp in E. exact E.
  - apply Qltb_ge. apply Qltb_ge in E.
    unfold Z.sub in E. rewrite inject_Z_plus, inject_Z_opp in E. exact E.
Qed.

Lemma getCachedData_run (record : gmap string jsval) stamp w :
  storageFault (platform w) = None ->
  asyncStorage w !! CACHED_DATA = Some (JsonText (JObj record)) ->
  record !! "timestamp" = Some (int stamp) ->
  getCachedData ToNumber w =
  (Return (if negb (stamp =? 0)%Z && (now w - stamp <? 60 * 60 * 1000)%Z
           then JObj record else JNull), w).
Proof.
  intros Hok Hitem Hstamp.
  unfold getCachedData, getItem, AsyncStorage_getItem. munfold.
  rewrite Hok, Hitem. cbn [JSON_parse mret M_ret truthy prop].
  rewrite Hstamp, truthy_int.
  destruct (stamp =? 0)%Z; [reflexivity |].
  cbn [negb andb]. rewrite elapsed_below_int.
  destruct (now w - stamp <? 60 * 60 * 1000)%Z; reflexivity.
Qed.

End Cache.

(** C3 (as amended).  A record saved by [saveCachedData] at a time [T]
    other than 0 (the store accepting the write) is returned, with its
    timestamp, by [getCachedData] at every time [T'] with [T' - T] below one
    hour, and nothing is returned at every [T'] with [T' - T] of one hour or
    more.  A record saved at the time 0 is never returned: its timestamp
    reads as absent. *)
Theorem C3_cache_ttl (ToNumber : jsval -> jsnum)
    (ToNumber_number : forall x, ToNumber (JNum x) = Fin x)
    (data : jsval) (w : World) (T T' : Z)
    (Hstore : storageFault (platform w) = None) :
  let saved := StorageManager.saveCachedData data (set_now T w) in
  let query := StorageManager.getCachedData ToNumber (set_now T' (snd saved)) in
  let record := <["timestamp" := int T]> (spread data) in
  fst saved = Return true
  ∧ (T ≠ 0%Z -> (T' - T < 60 * 60 * 1000)%Z -> fst query = Return (JObj record))
  ∧ (T ≠ 0%Z -> (60 * 60 * 1000 <= T' - T)%Z -> fst query = Return JNull)
  ∧ (T = 0%Z -> fst query = Return JNull)
  ∧ (forall k v, k ≠ "timestamp" -> spread data !! k = Some v -> record !! k = Some v).
Proof.
  intros saved query record.
  assert (Hsaved : saved =
    (Return true,
     set_asyncStorage
       (<[StorageManager.CACHED_DATA := JsonText (JObj record)]> (asyncStorage w))
       (set_now T w))).
  { unfold saved. rewrite saveCachedData_run by exact Hstore. reflexivity. }
  assert (Hquery : query =
    (Return (if negb (T =? 0)%Z && (T' - T <? 60 * 60 * 1000)%Z then JObj record else JNull),
     set_now T' (snd saved))).
  { unfold query. rewrite Hsaved. cbn [snd].
    rewrite (getCachedData_run ToNumber ToNumber_number record T).
    - reflexivity.
    - exact Hstore.
    - cbn [asyncStorage set_now set_asyncStorage]. apply lookup_insert_eq.
    - apply lookup_insert_eq. }
  rewrite Hsaved, Hquery. cbn [fst].
  split; [reflexivity |]. split; [| split; [| split]].
  - intros HT Hfresh. apply Z.eqb_neq in HT. apply Z.ltb_lt in Hfresh.
    rewrite HT, Hfresh. reflexivity.
  - intros HT Hstale. apply Z.ltb_ge in Hstale. rewrite Hstale, andb_false_r. reflexivity.
  - intros ->. reflexivity.
  - intros k v Hk Hv. unfold record. rewrite lookup_insert_ne by congruence. exact Hv.
Qed.

(** The record of the synthetic generator saved at a time [T] and read 59
    and 61 minutes later. *)
Lemma C3_cache_ttl_witness :
  let T := 1700000000000%Z in
  let data := BleManager.mockObject (mockData (ble listening)) in
  let saved := snd (StorageManager.saveCachedData data (set_now T listening)) in
  storageFault (platform listening) = None
  ∧ fst (StorageManager.getCachedData ToNumber_of_numbers
           (set_now (T + 59 * 60 * 1000) saved))
    = Return (JObj (<["timestamp" := int T]> (spread data)))
  ∧ fst (StorageManager.getCachedData ToNumber_of_numbers
           (set_now (T + 61 * 60 * 1000) saved))
    = Return JNull.
Proof.
  intros T data saved. split; [reflexivity |]. split.
  - exact (proj1 (proj2 (C3_cache_ttl ToNumber_of_numbers (fun x => eq_refl) data listening
             T (T + 59 * 60 * 1000) eq_refl)) ltac:(discriminate)
             ltac:(vm_compute; reflexivity)).
  - exact (proj1 (proj2 (proj2 (C3_cache_ttl ToNumber_of_numbers (fun x => eq_refl) data
             listening T (T + 61 * 60 * 1000) eq_refl))) ltac:(discriminate)
             ltac:(vm_compute; discriminate)).
Defined.

(** C3 as stated fails at the time 0: the record of the synthetic generator
    saved then is not returned one millisecond later, well within the hour. *)
Lemma C3_counterexample :
  let data := BleManager.mockObject (mockData (ble listening)) in
  let saved := StorageManager.saveCachedData data (set_now 0 listening) in
  fst saved = Return true
  ∧ (1 - 0 < 60 * 60 * 1000)%Z
  ∧ fst (StorageManager.getCachedData ToNumber_of_numbers (set_now 1 (snd saved)))
    = Return JNull
  ∧ fst (StorageManager.getCachedData ToNumber_of_numbers (set_now 1 (snd saved)))
    ≠ Return (JObj (<["timestamp" := int 0]> (spread data))).
Proof.
  intros data saved.
  split; [reflexivity |]. split; [reflexivity |].
  assert (Hnull : fst (StorageManager.getCachedData ToNumber_of_numbers
                         (set_now 1 (snd saved))) = Return JNull)
    by (vm_compute; reflexivity).
  split; [exact Hnull |]. rewrite Hnull. discriminate.
Qed.

(** ** The synthetic generator *)

Section Generator.

Import BleManager.

Lemma total_run (m : M unit) w : fst (m w) = Return tt -> m w = (Return tt, snd (m w)).
Proof. destruct (m w) as [r w']. simpl. intros ->. reflexivity. Qed.

Lemma tick_speed_run w :
  let d := mockData (ble w) in
  fst (tick_speed w) = Return tt
  ∧ mockData (ble (snd (tick_speed w)))
    = if Qltb 0 (md_speed d)
      then set_md_speed
             (Qmax 0 (md_speed d + (random (platform w) (draws w) - (1 # 2)) * 5))%Q d
      else d.
Proof.
  unfold tick_speed, the_mockData, modify_mockData. munfold. cbv zeta.
  destruct (Qltb 0 (md_speed (mockData (ble w)))); split; reflexivity.
Qed.

Lemma tick_rpm_run w :
  let d := mockData (ble w) in
  fst (tick_rpm w) = Return tt
  ∧ mockData (ble (snd (tick_rpm w)))
    = if Qltb 0 (md_rpm d)
      then set_md_rpm
             (Qmax 0 (md_rpm d + (random (platform w) (draws w) - (1 # 2)) * 200))%Q d
      else d.
Proof.
  unfold tick_rpm, the_mockData, modify_mockData. munfold. cbv zeta.
  destruct (Qltb 0 (md_rpm (mockData (ble w)))); split; reflexivity.
Qed.

Lemma tick_fuel_run w :
  let d := mockData (ble w) in
  fst (tick_fuel w) = Return tt
  ∧ mockData (ble (snd (tick_fuel w)))
    = if Qltb 0 (md_fuel d)
      then set_md_fuel
             (Qmax 0 (md_fuel d - random (platform w) (draws w) * (5 # 100)))%Q d
      else d.
Proof.
  unfold tick_fuel, the_mockData, modify_mockData. munfold. cbv zeta.
  destruct (Qltb 0 (md_fuel (mockData (ble w)))); split; reflexivity.
Qed.

Lemma tick_gear_run w :
  let d := mockData (ble w) in
  fst (tick_gear w) = Return tt
  ∧ mockData (ble (snd (tick_gear w)))
    = if Qltb 10 (md_speed d) && Qltb (98 # 100) (random (platform w) (draws w))
      then set_md_gear
             (Z.max 1 (Z.min 6 (md_gear d +
                (if Qltb (1 # 2) (random (platform w) (S (draws w))) then 1 else -1))))%Z d
      else d.
Proof.
  unfold tick_gear, the_mockData, modify_mockData. munfold. cbv zeta.
  destruct (Qltb 10 (md_speed (mockData (ble w)))); [| split; reflexivity].
  cbn [andb draws platform set_draws].
  destruct (Qltb (98 # 100) (random (platform w) (draws w))); split; reflexivity.
Qed.

Lemma cacheData_mock data w :
  fst (cacheData data w) = Return tt
  ∧ mockData (ble (snd (cacheData data w))) = mockData (ble w).
Proof.
  unfold cacheData, AsyncStorage_setItem. munfold.
  destruct (cachedDataEnabled (ble w)); [| split; reflexivity].
  destruct (storageFault (platform w)); split; reflexivity.
Qed.

Lemma tick_publish_run w :
  fst (tick_publish w) = Return tt
  ∧ mockData (ble (snd (tick_publish w))) = mockData (ble w).
Proof.
  unfold tick_publish, the_mockData.
  rewrite (bind_Return (gets _) _ w _ w eq_refl).
  rewrite (bind_Return (modify_ble _) _ w tt _ eq_refl).
  match goal with
  | |- context [(cacheData ?d ≫= _) ?w0] =>
      destruct (cacheData_mock d w0) as (Hret & Hmock);
      rewrite (bind_Return _ _ _ _ _ (total_run _ _ Hret))
  end.
  rewrite call_dataCallback_run. cbn [fst snd].
  split; [reflexivity |].
  destruct (dataCallback _); cbn [ble set_dataOut]; rewrite Hmock; reflexivity.
Qed.

(** One tick as a function of the record and of the random draws. *)
Lemma mockTick_run w :
  fst (mockTick w) = Return tt
  ∧ mockData (ble (snd (mockTick w)))
    = mockData (ble (snd (tick_gear (snd (tick_fuel (snd (tick_rpm (snd (tick_speed w))))))))).
Proof.
  unfold mockTick.
  rewrite (bind_Return _ _ _ _ _ (total_run _ _ (proj1 (tick_speed_run w)))).
  rewrite (bind_Return _ _ _ _ _ (total_run _ _ (proj1 (tick_rpm_run _)))).
  rewrite (bind_Return _ _ _ _ _ (total_run _ _ (proj1 (tick_fuel_run _)))).
  rewrite (bind_Return _ _ _ _ _ (total_run _ _ (proj1 (tick_gear_run _)))).
  apply tick_publish_run.
Qed.

End Generator.

Lemma Qltb_zero x : (x == 0)%Q -> Qltb 0 x = false.
Proof. intros H. apply Qltb_ge. rewrite H. apply Qle_refl. Qed.

Ltac split_ifs :=
  repeat match goal with
         | |- context [if ?c then _ else _] => destruct c eqn:?
         end;
  cbn [md_speed md_rpm md_fuel md_gear set_md_speed set_md_rpm set_md_fuel set_md_gear] in *.

(** What one tick does to the speed, the rpm and the gear. *)
Lemma mockTick_step w :
  let d := mockData (ble w) in
  let d' := mockData (ble (snd (BleManager.mockTick w))) in
  ((md_speed d == 0)%Q -> md_speed d' = md_speed d)
  ∧ ((md_rpm d == 0)%Q -> md_rpm d' = md_rpm d)
  ∧ (md_gear d' ≠ md_gear d ->
     (10 < md_speed d')%Q
     ∧ (md_gear d' = Z.max 1 (Z.min 6 (md_gear d + 1))
        ∨ md_gear d' = Z.max 1 (Z.min 6 (md_gear d - 1)))%Z).
Proof.
  intros d d'. unfold d'.
  rewrite (proj2 (mockTick_run w)).
  rewrite (proj2 (tick_gear_run _)), (proj2 (tick_fuel_run _)),
    (proj2 (tick_rpm_run _)), (proj2 (tick_speed_run _)).
  fold d.
  repeat match goal with
         | |- context [random ?p ?n] => generalize (random p n); intro
         end.
  split; [| split].
  - intros Hzero. rewrite (Qltb_zero _ Hzero). split_ifs; reflexivity.
  - intros Hzero.
    destruct (Qltb 0 (md_speed d));
      cbn [md_rpm set_md_speed]; rewrite (Qltb_zero _ Hzero); split_ifs; reflexivity.
  - intros Hgear. split_ifs; try (exfalso; apply Hgear; reflexivity).
    all: match goal with
         | H : (_ && _)%bool = true |- _ =>
             apply andb_true_iff in H as [Hfast _]; apply Qltb_lt in Hfast
         end.
    all: (split; [exact Hfast | first [left; reflexivity | right; reflexivity]]).
Qed.

(** C9.  On every tick of the synthetic generator, a speed of 0 stays as it
    is and so does an rpm of 0; the gear changes only when the speed (as the
    tick has left it) exceeds 10, and then to the old gear plus or minus 1
    clamped to the range 1 to 6, so that a gear within 1 to 6 moves by at most
    one and stays within 1 to 6, tick after tick. *)
Theorem C9_mock_tick (w : World) :
  let d := mockData (ble w) in
  let d' := mockData (ble (snd (BleManager.mockTick w))) in
  fst (BleManager.mockTick w) = Return tt
  ∧ ((md_speed d == 0)%Q -> md_speed d' = md_speed d)
  ∧ ((md_rpm d == 0)%Q -> md_rpm d' = md_rpm d)
  ∧ (md_gear d' ≠ md_gear d ->
     (10 < md_speed d')%Q
     ∧ (md_gear d' = Z.max 1 (Z.min 6 (md_gear d + 1))
        ∨ md_gear d' = Z.max 1 (Z.min 6 (md_gear d - 1)))%Z)
  ∧ ((1 <= md_gear d <= 6)%Z ->
     (1 <= md_gear d' <= 6)%Z
     ∧ (md_gear d' = md_gear d ∨ md_gear d' = md_gear d + 1 ∨ md_gear d' = md_gear d - 1)%Z
     ∧ forall n, (1 <= md_gear (mockData (ble (ticks n w))) <= 6)%Z).
Proof.
  intros d d'.
  destruct (mockTick_step w) as (Hspeed & Hrpm & Hgear). fold d d' in Hspeed, Hrpm, Hgear.
  split; [apply mockTick_run |].
  split; [exact Hspeed |]. split; [exact Hrpm |]. split; [exact Hgear |].
  intros Hrange.
  assert (Hkeep : forall w0,
    (1 <= md_gear (mockData (ble w0)) <= 6)%Z ->
    (1 <= md_gear (mockData (ble (snd (BleManager.mockTick w0)))) <= 6)%Z
    ∧ (md_gear (mockData (ble (snd (BleManager.mockTick w0)))) = md_gear (mockData (ble w0))
       ∨ md_gear (mockData (ble (snd (BleManager.mockTick w0))))
         = md_gear (mockData (ble w0)) + 1
       ∨ md_gear (mockData (ble (snd (BleManager.mockTick w0))))
         = md_gear (mockData (ble w0)) - 1)%Z).
  { intros w0 H0. destruct (mockTick_step w0) as (_ & _ & Hg).
    destruct (Z.eq_dec (md_gear (mockData (ble (snd (BleManager.mockTick w0)))))
                       (md_gear (mockData (ble w0)))) as [Heq | Hne]; [lia |].
    destruct (Hg Hne) as [_ [Hup | Hdown]]; lia. }
  split; [apply (Hkeep w Hrange) |]. split; [apply (Hkeep w Hrange) |].
  induction n as [| n IH]; [exact Hrange |].
  apply (Hkeep (ticks n w) IH).
Qed.

(** The generator set to speed 42 in gear 6, on the calm platform. *)
Lemma C9_mock_tick_witness :
  let fast := set_md_speed 42 (set_md_gear 6 (mockData (ble listening))) in
  let w := set_ble (set_mockData fast (ble listening)) listening in
  (1 <= md_gear (mockData (ble (snd (BleManager.mockTick w)))) <= 6)%Z
  ∧ (1 <= md_gear (mockData (ble (ticks 3 w))) <= 6)%Z.
Proof.
  intros fast w.
  destruct (proj2 (proj2 (proj2 (proj2 (C9_mock_tick w))))
              ltac:(vm_compute; split; discriminate)) as (Hone & _ & Hall).
  split; [exact Hone | exact (Hall 3)].
Defined.

(** ** The GPS speed estimate *)

Section Doubles.

(** A double that compares equal to itself is not NaN, and NaN is below
    and above nothing. *)
Lemma is_nan_Prim2SF x : is_nan x = true -> Prim2SF x = S754_nan.
Proof.
  unfold is_nan. rewrite FloatAxioms.eqb_spec. unfold SFeqb, SFcompare.
  destruct (Prim2SF x) as [s | s | | s m e]; try reflexivity.
  - destruct s; discriminate.
  - destruct s; discriminate.
  - rewrite Z.compare_refl, Pos.compare_refl. destruct s; discriminate.
Qed.

Lemma nan_unordered x y :
  is_nan x = true -> (x <? y)%float = false ∧ (y <? x)%float = false.
Proof.
  intros H. apply is_nan_Prim2SF in H. rewrite !FloatAxioms.ltb_spec, H.
  unfold SFltb, SFcompare. split; [reflexivity |].
  destruct (Prim2SF y) as [s | s | | s m e]; reflexivity.
Qed.

Lemma nan_value x : is_nan x = true -> value x = NaN.
Proof. intros H. unfold value. rewrite (is_nan_Prim2SF x H). reflexivity. Qed.

(** A double strictly between 0 and 200 denotes a rational. *)
Lemma guarded_finite x :
  ((0 <? x) && (x <? 200))%float = true -> exists exact, value x = Fin exact.
Proof.
  intros H. apply andb_prop in H. destruct H as [Hlow Hhigh].
  rewrite FloatAxioms.ltb_spec in Hlow, Hhigh. unfold value.
  destruct (Prim2SF x) as [s | [] | | s m e].
  - eexists. reflexivity.
  - vm_compute in Hlow. discriminate.
  - vm_compute in Hhigh. discriminate.
  - vm_compute in Hlow. discriminate.
  - eexists. reflexivity.
Qed.

End Doubles.

Section GpsEstimate.

Import BleManager.

Lemma deliver_estimate_run speed w :
  let w' := snd (deliver_estimate speed w) in
  fst (deliver_estimate speed w) = Return tt
  ∧ dataOut w'
    = (if ((0 <? speed) && (speed <? 200))%float && dataCallback (ble w) then
         match value speed with
         | Fin exact =>
             dataOut w ++ [JObj (<["speed" := int (Math_round exact)]>
                                   (spread (lastKnownData (ble w))))]
         | _ => dataOut w
         end
       else dataOut w)
  ∧ gpsSubscription (ble w') = gpsSubscription (ble w).
Proof.
  unfold deliver_estimate.
  destruct ((0 <? speed) && (speed <? 200))%float; [| repeat split; reflexivity].
  destruct (value speed) as [exact | | |];
    try (cbn [andb]; destruct (dataCallback (ble w)); repeat split; reflexivity).
  rewrite (bind_Return (log _ _) _ w tt _ (log_run _ _ _)).
  rewrite (bind_Return (gets _) _ _ _ _ eq_refl).
  rewrite call_dataCallback_run. cbn [fst snd andb].
  change (dataCallback (ble (snd (log "INFO"
    [Txt "GPS speed estimate: "; Val (JStr (toFixed1 exact)); Txt " km/h"] w))))
    with (dataCallback (ble w)).
  destruct (dataCallback (ble w)); repeat split; reflexivity.
Qed.

(** A fix that arrives while the watcher holds a previous fix and its time. *)
Lemma onPosition_run distance location previous t0 w :
  gpsSubscription (ble w)
    = Some {| lastLocation := Some previous; lastTime := Some t0 |} ->
  let estimate := speed_estimate distance (fix_time location - t0)%float in
  let w' := snd (onPosition distance location w) in
  fst (onPosition distance location w) = Return tt
  ∧ dataOut w'
    = (if truthy_double t0 then dataOut (snd (deliver_estimate estimate w)) else dataOut w)
  ∧ gpsSubscription (ble w')
    = Some {| lastLocation := Some location; lastTime := Some (fix_time location) |}.
Proof.
  intros Hsub estimate w'. unfold w', onPosition.
  rewrite (bind_Return (gets _) _ w _ w eq_refl). rewrite Hsub.
  cbn [lastLocation lastTime]. fold estimate.
  destruct (truthy_double t0); cbn [when].
  - destruct (deliver_estimate_run estimate w) as (Hret & _ & _).
    rewrite (bind_Return _ _ _ _ _ (total_run _ _ Hret)).
    repeat split; reflexivity.
  - repeat split; reflexivity.
Qed.

(** A fix that arrives while the watcher holds no previous fix, or when
    there is no watcher. *)
Lemma onPosition_first distance location w :
  (gpsSubscription (ble w) = None
   ∨ exists watch, gpsSubscription (ble w) = Some watch
                   ∧ (lastLocation watch = None ∨ lastTime watch = None)) ->
  fst (onPosition distance location w) = Return tt
  ∧ dataOut (snd (onPosition distance location w)) = dataOut w.
Proof.
  unfold onPosition. munfold.
  intros [Hnone | (watch & Hsome & Hfirst)].
  - rewrite Hnone. split; reflexivity.
  - rewrite Hsome. destruct Hfirst as [H | H]; rewrite H.
    + split; reflexivity.
    + destruct (lastLocation watch); split; reflexivity.
Qed.

End GpsEstimate.

Section SensorEstimate.

Import SensorManager.

Lemma onLocationUpdate_run distance location w :
  let w' := snd (onLocationUpdate distance location w) in
  let estimatedSpeed :=
    match sm_lastLocation (sensors w), sm_lastLocationTime (sensors w) with
    | Some _, Some t0 =>
        if (t0 =? 0)%Z then 0%float
        else validate (speed_estimate distance (of_Z (now w) - of_Z t0)%float)
    | _, _ => 0%float
    end in
  fst (onLocationUpdate distance location w) = Return tt
  ∧ exists data,
      locationOut w' = locationOut w ++ [data]
      ∧ ld_speed data = js_round (value estimatedSpeed).
Proof.
  cbv zeta. unfold onLocationUpdate, modify_sensors. munfold.
  split; [reflexivity |]. eexists. split; reflexivity.
Qed.

End SensorEstimate.

(** C6 (as amended).  In the BLE manager a fix is compared with the
    previous one when the watcher holds one whose time is neither 0 nor NaN:
    the estimate, computed in binary64 arithmetic, is handed (rounded, on
    top of the last known data) to the data callback if and only if it lies
    strictly between 0 and 200 km/h; in every other case nothing is handed
    over.  In the sensor manager the location callback is called on every
    fix: with speed 0 on a fix without a previous one (or whose previous
    time is 0) and when the estimate is below 0 or above 300 km/h, with NaN
    when the estimate is not a number, and with the rounded estimate
    otherwise. *)
Theorem C6_gps_estimate (distance : float) (location : Location) (w : World) :
  let wb := snd (BleManager.onPosition distance location w) in
  let ws := snd (SensorManager.onLocationUpdate distance location w) in
  fst (BleManager.onPosition distance location w) = Return tt
  ∧ (forall previous t0,
       gpsSubscription (ble w)
       = Some {| lastLocation := Some previous; lastTime := Some t0 |} ->
       let estimate := speed_estimate distance (fix_time location - t0)%float in
       let reasonable := (truthy_double t0 && ((0 <? estimate) && (estimate <? 200)))%float in
       (reasonable = true -> dataCallback (ble w) = true ->
          exists speed,
            value estimate = Fin speed
            ∧ dataOut wb = dataOut w ++ [JObj (<["speed" := int (Math_round speed)]>
                                                 (spread (lastKnownData (ble w))))])
       ∧ (reasonable = false -> dataOut wb = dataOut w))
  ∧ (gpsSubscription (ble w) = None
     ∨ (exists watch, gpsSubscription (ble w) = Some watch
                      ∧ (lastLocation watch = None ∨ lastTime watch = None)) ->
     dataOut wb = dataOut w)
  ∧ (dataCallback (ble w) = false -> dataOut wb = dataOut w)
  ∧ fst (SensorManager.onLocationUpdate distance location w) = Return tt
  ∧ exists data,
      locationOut ws = locationOut w ++ [data]
      ∧ (sm_lastLocation (sensors w) = None ∨ sm_lastLocationTime (sensors w) = None
         ∨ sm_lastLocationTime (sensors w) = Some 0%Z ->
         ld_speed data = Fin 0)
      ∧ (forall previous t0,
           sm_lastLocation (sensors w) = Some previous ->
           sm_lastLocationTime (sensors w) = Some t0 -> t0 ≠ 0%Z ->
           let tracked := speed_estimate distance (of_Z (now w) - of_Z t0)%float in
           (((tracked <? 0) || (300 <? tracked))%float = true -> ld_speed data = Fin 0)
           ∧ (((tracked <? 0) || (300 <? tracked))%float = false ->
              ld_speed data = js_round (value tracked))
           ∧ (is_nan tracked = true -> ld_speed data = NaN)).
Proof.
  intros wb ws. split; [| split; [| split; [| split; [| split]]]].
  - destruct (gpsSubscription (ble w)) as [[[previous |] [t0 |]] |] eqn:Hsub.
    + exact (proj1 (onPosition_run distance location previous t0 w Hsub)).
    + apply onPosition_first. right. eexists. split; [exact Hsub |]. right. reflexivity.
    + apply onPosition_first. right. eexists. split; [exact Hsub |]. left. reflexivity.
    + apply onPosition_first. right. eexists. split; [exact Hsub |]. left. reflexivity.
    + apply onPosition_first. left. exact Hsub.
  - intros previous t0 Hsub estimate reasonable.
    destruct (onPosition_run distance location previous t0 w Hsub) as (_ & Hout & _).
    fold estimate wb in Hout.
    destruct (deliver_estimate_run estimate w) as (_ & Hdeliver & _).
    unfold reasonable. split.
    + intros Hin Hcb. apply andb_prop in Hin. destruct Hin as [Htime Hrange].
      rewrite Htime in Hout. rewrite Hrange, Hcb in Hdeliver. cbn [andb] in Hdeliver.
      destruct (guarded_finite estimate Hrange) as [speed Hspeed].
      exists speed. split; [exact Hspeed |].
      rewrite Hspeed in Hdeliver. rewrite Hout. exact Hdeliver.
    + intros Hout_of_range. destruct (truthy_double t0); [| exact Hout].
      cbn [andb] in Hout_of_range. rewrite Hout_of_range in Hdeliver.
      rewrite Hout. exact Hdeliver.
  - intros Hfirst. exact (proj2 (onPosition_first distance location w Hfirst)).
  - intros Hcb.
    destruct (gpsSubscription (ble w)) as [[[previous |] [t0 |]] |] eqn:Hsub.
    + destruct (onPosition_run distance location previous t0 w Hsub) as (_ & Hout & _).
      destruct (deliver_estimate_run (speed_estimate distance (fix_time location - t0)%float) w)
        as (_ & Hdeliver & _).
      rewrite Hcb, andb_false_r in Hdeliver.
      unfold wb. rewrite Hout. destruct (truthy_double t0); [exact Hdeliver | reflexivity].
    + apply onPosition_first. right. eexists. split; [exact Hsub |]. right. reflexivity.
    + apply onPosition_first. right. eexists. split; [exact Hsub |]. left. reflexivity.
    + apply onPosition_first. right. eexists. split; [exact Hsub |]. left. reflexivity.
    + apply onPosition_first. left. exact Hsub.
  - exact (proj1 (onLocationUpdate_run distance location w)).
  - destruct (onLocationUpdate_run distance location w) as (_ & data & Hdata & Hspeed).
    exists data. split; [exact Hdata |]. split.
    + intros [H | [H | H]]; rewrite Hspeed, H.
      * reflexivity.
      * destruct (sm_lastLocation (sensors w)); reflexivity.
      * destruct (sm_lastLocation (sensors w)); reflexivity.
    + intros previous t0 Hloc Htime Ht0 tracked.
      rewrite Hloc, Htime in Hspeed.
      replace (t0 =? 0)%Z with false in Hspeed by (symmetry; apply Z.eqb_neq; exact Ht0).
      fold tracked in Hspeed. unfold SensorManager.validate in Hspeed.
      split; [| split].
      * intros Hout. rewrite Hout in Hspeed. exact Hspeed.
      * intros Hin. rewrite Hin in Hspeed. exact Hspeed.
      * intros Hnan. destruct (nan_unordered tracked 0 Hnan) as [Hlow _].
        destruct (nan_unordered tracked 300 Hnan) as [_ Hhigh].
        rewrite Hlow, Hhigh in Hspeed. cbn [orb] in Hspeed.
        rewrite (nan_value tracked Hnan) in Hspeed. exact Hspeed.
Qed.

(** Fixes 3.6 s apart.  60 m give 60 km/h, which the BLE manager delivers;
    350 m give 350 km/h and 5 m in a time running backwards give -5 km/h,
    which it drops; the sensor manager reports 60 km/h as 60 and 350 km/h
    as 0.  58 m in 1.044 s give 199.99999999999997 km/h in binary64
    arithmetic, which is delivered as 200. *)
Lemma C6_gps_estimate_witness :
  dataOut (snd (BleManager.onPosition 60 (fix_at 4600) tracking))
  = [JObj (<["speed" := int 60]> ∅)]
  ∧ dataOut (snd (BleManager.onPosition 350 (fix_at 4600) tracking)) = []
  ∧ dataOut (snd (BleManager.onPosition 5 (fix_at (-2600)) tracking)) = []
  ∧ dataOut (snd (BleManager.onPosition 58 (fix_at 2044) tracking))
    = [JObj (<["speed" := int 200]> ∅)]
  ∧ (exists data,
       locationOut (snd (SensorManager.onLocationUpdate 60 (fix_at 4600)
                           (set_now 4600 tracking))) = [data]
       ∧ ld_speed data = Fin 60)
  ∧ (exists data,
       locationOut (snd (SensorManager.onLocationUpdate 350 (fix_at 4600)
                           (set_now 4600 tracking))) = [data]
       ∧ ld_speed data = Fin 0).
Proof.
  destruct (C6_gps_estimate 60 (fix_at 4600) tracking) as (_ & Hsixty & _).
  destruct (C6_gps_estimate 350 (fix_at 4600) tracking) as (_ & Hfast & _).
  destruct (C6_gps_estimate 5 (fix_at (-2600)) tracking) as (_ & Hback & _).
  destruct (C6_gps_estimate 58 (fix_at 2044) tracking) as (_ & Hedge & _).
  destruct (C6_gps_estimate 60 (fix_at 4600) (set_now 4600 tracking))
    as (_ & _ & _ & _ & _ & data1 & Hdata1 & _ & Hspeed1).
  destruct (C6_gps_estimate 350 (fix_at 4600) (set_now 4600 tracking))
    as (_ & _ & _ & _ & _ & data2 & Hdata2 & _ & Hspeed2).
  split; [| split; [| split; [| split; [| split]]]].
  - destruct (proj1 (Hsixty (fix_at 1000) 1000%float eq_refl)
                ltac:(vm_compute; reflexivity) eq_refl) as (speed & Hspeed & Hout).
    rewrite Hout. vm_compute in Hspeed. injection Hspeed as <-.
    vm_compute. reflexivity.
  - exact (proj2 (Hfast (fix_at 1000) 1000%float eq_refl) ltac:(vm_compute; reflexivity)).
  - exact (proj2 (Hback (fix_at 1000) 1000%float eq_refl) ltac:(vm_compute; reflexivity)).
  - destruct (proj1 (Hedge (fix_at 1000) 1000%float eq_refl)
                ltac:(vm_compute; reflexivity) eq_refl) as (speed & Hspeed & Hout).
    rewrite Hout. vm_compute in Hspeed. injection Hspeed as <-.
    vm_compute. reflexivity.
  - exists data1. split; [exact Hdata1 |].
    destruct (Hspeed1 (fix_at 1000) 1000%Z eq_refl eq_refl ltac:(discriminate))
      as (_ & Hin & _).
    rewrite (Hin ltac:(vm_compute; reflexivity)). vm_compute. reflexivity.
  - exists data2. split; [exact Hdata2 |].
    destruct (Hspeed2 (fix_at 1000) 1000%Z eq_refl eq_refl ltac:(discriminate))
      as (Hout & _).
    exact (Hout ltac:(vm_compute; reflexivity)).
Defined.

(** C6 as stated fails in the BLE manager: between fixes 3.6 s and 250 m
    apart the estimate is 250 km/h, within 0 to 300, and nothing is handed
    to the data callback; nor is an estimate of exactly 0 (no movement),
    which also lies within 0 to 300. *)
Lemma C6_counterexample :
  (let estimate := speed_estimate 250 (fix_time (fix_at 4600) - 1000)%float in
   estimate = 250%float
   ∧ ((0 <=? estimate) && (estimate <=? 300))%float = true
   ∧ dataCallback (ble tracking) = true
   ∧ dataOut (snd (BleManager.onPosition 250 (fix_at 4600) tracking)) = dataOut tracking)
  ∧ (let estimate := speed_estimate 0 (fix_time (fix_at 4600) - 1000)%float in
     estimate = 0%float
     ∧ ((0 <=? estimate) && (estimate <=? 300))%float = true
     ∧ dataOut (snd (BleManager.onPosition 0 (fix_at 4600) tracking)) = dataOut tracking).
Proof.
  split; cbv zeta; repeat split; vm_compute; reflexivity.
Qed.

(** ** Connection and authentication *)

Section ConsoleTrace.

Lemma said_app {A} (m : M A) w lines :
  console (snd (m w)) = console w ++ lines -> said m w = lines.
Proof. intros H. unfold said. rewrite H. apply drop_app_length. Qed.

Lemma silent_quiet {A} (m : M A) :
  (forall w, console (snd (m w)) = console w ∧ platform (snd (m w)) = platform w) ->
  quiet m.
Proof.
  intros H w. exists []. destruct (H w) as [Hc Hp].
  split; [rewrite Hc; symmetry; apply app_nil_r |]. split; [exact Hp | reflexivity].
Qed.

Lemma steady_quiet {A} (m : M A) : steady m -> quiet m.
Proof.
  intros H w. destruct (H w) as (lines & Hc & Hp & _ & He).
  exists lines. repeat split; assumption.
Qed.

Lemma silent_steady {A} (m : M A) :
  (forall w, console (snd (m w)) = console w ∧ platform (snd (m w)) = platform w
             ∧ exists a, fst (m w) = Return a) ->
  steady m.
Proof.
  intros H w. exists []. destruct (H w) as (Hc & Hp & Hr).
  split; [rewrite Hc; symmetry; apply app_nil_r |]. split; [exact Hp |].
  split; [exact Hr | reflexivity].
Qed.

Lemma steady_ret {A} (a : A) : steady (mret a).
Proof. apply silent_steady. intros w. repeat split. exists a. reflexivity. Qed.

Lemma quiet_throw {A} e : quiet (@throw A e).
Proof. apply silent_quiet. intros w. split; reflexivity. Qed.

Lemma quiet_await {A} (r : Result A) : quiet (await r).
Proof. apply silent_quiet. intros w. split; reflexivity. Qed.

Lemma steady_gets {A} (f : World -> A) : steady (gets f).
Proof. apply silent_steady. intros w. repeat split. exists (f w). reflexivity. Qed.

Lemma steady_modify f :
  (forall w, console (f w) = console w ∧ platform (f w) = platform w) ->
  steady (modify f).
Proof.
  intros Hf. apply silent_steady. intros w. destruct (Hf w) as [Hc Hp].
  split; [exact Hc |]. split; [exact Hp |]. exists tt. reflexivity.
Qed.

Lemma steady_modify_ble f : steady (modify_ble f).
Proof. apply steady_modify. intros w. split; reflexivity. Qed.

Lemma steady_random : steady Math_random.
Proof. apply silent_steady. intros w. repeat split. eexists. reflexivity. Qed.

(** Sequencing: the events of [m] come first; when [m] raises, [k] is not
    run. *)
Lemma traces_at_bind {A B} (m : M A) (k : A -> M B) w P Q :
  traces_at m w P ->
  (forall a, fst (m w) = Return a -> traces_at (k a) (snd (m w)) (Q a)) ->
  traces_at (m ≫= k) w (fun r events =>
    exists events1, P (fst (m w)) events1
      ∧ match fst (m w) with
        | Return a => exists events2, Q a r events2 ∧ events = events1 ++ events2
        | Throw e => r = Throw e ∧ events = events1
        end).
Proof.
  intros (lines1 & Hc1 & Hp1 & HP) Hk.
  unfold traces_at, mbind, M_bind. destruct (m w) as [[a | e] w1]; simpl in *.
  - destruct (Hk a eq_refl) as (lines2 & Hc2 & Hp2 & HQ).
    exists (lines1 ++ lines2).
    split; [rewrite Hc2, Hc1, app_assoc; reflexivity |].
    split; [rewrite Hp2; exact Hp1 |].
    exists (omap auth_event lines1). split; [exact HP |].
    exists (omap auth_event lines2). split; [exact HQ | apply omap_app].
  - exists lines1. split; [exact Hc1 |]. split; [exact Hp1 |].
    exists (omap auth_event lines1). split; [exact HP |]. split; reflexivity.
Qed.

Lemma quiet_bind {A B} (m : M A) (k : A -> M B) :
  quiet m -> (forall a, quiet (k a)) -> quiet (m ≫= k).
Proof.
  intros Hm Hk w.
  destruct (traces_at_bind m k w _ (fun _ _ events => events = []) (Hm w)
              (fun a _ => Hk a (snd (m w)))) as (lines & Hc & Hp & e1 & -> & H).
  exists lines. split; [exact Hc |]. split; [exact Hp |].
  destruct (fst (m w)) as [a | e]; [destruct H as (e2 & -> & ->) | destruct H as (_ & ->)];
    reflexivity.
Qed.

Lemma steady_bind {A B} (m : M A) (k : A -> M B) :
  steady m -> (forall a, steady (k a)) -> steady (m ≫= k).
Proof.
  intros Hm Hk w.
  destruct (traces_at_bind m k w _
              (fun _ r events => (exists b, r = Return b) ∧ events = []) (Hm w)
              (fun a _ => Hk a (snd (m w)))) as (lines & Hc & Hp & e1 & [[a Ha] ->] & H).
  exists lines. split; [exact Hc |]. split; [exact Hp |].
  rewrite Ha in H. destruct H as (e2 & [Hr ->] & ->). split; [exact Hr | reflexivity].
Qed.

Lemma quiet_try_catch {A} (body : M A) handler :
  quiet body -> (forall e, quiet (handler e)) -> quiet (try_catch body handler).
Proof.
  intros Hb Hh w. destruct (Hb w) as (lines1 & Hc1 & Hp1 & H1).
  unfold traces_at, try_catch. destruct (body w) as [[a | e] w1]; simpl in *.
  - exists lines1. repeat split; assumption.
  - destruct (Hh e w1) as (lines2 & Hc2 & Hp2 & H2).
    exists (lines1 ++ lines2). split; [rewrite Hc2, Hc1, app_assoc; reflexivity |].
    split; [rewrite Hp2; exact Hp1 |].
    rewrite omap_app, H1, H2. reflexivity.
Qed.

(** A [try] whose handler cannot raise never raises. *)
Lemma steady_try_catch {A} (body : M A) handler :
  quiet body -> (forall e, steady (handler e)) -> steady (try_catch body handler).
Proof.
  intros Hb Hh w. destruct (Hb w) as (lines1 & Hc1 & Hp1 & H1).
  unfold traces_at, try_catch. destruct (body w) as [[a | e] w1]; simpl in *.
  - exists lines1. repeat split; try assumption. exists a. reflexivity.
  - destruct (Hh e w1) as (lines2 & Hc2 & Hp2 & Hr & H2).
    exists (lines1 ++ lines2). split; [rewrite Hc2, Hc1, app_assoc; reflexivity |].
    split; [rewrite Hp2; exact Hp1 |].
    split; [exact Hr |]. rewrite omap_app, H1, H2. reflexivity.
Qed.

Lemma quiet_when b (m : M unit) : quiet m -> quiet (when b m).
Proof. intros Hm. destruct b; [exact Hm | apply steady_quiet, steady_ret]. Qed.

Lemma steady_when b (m : M unit) : steady m -> steady (when b m).
Proof. intros Hm. destruct b; [exact Hm | apply steady_ret]. Qed.

Lemma quiet_for_each {A} (l : list A) (body : A -> M unit) :
  (forall x, quiet (body x)) -> quiet (for_each l body).
Proof.
  intros Hbody. induction l as [| x l IH]; [apply steady_quiet, steady_ret |].
  simpl. apply quiet_bind; [apply Hbody | intros _; exact IH].
Qed.

Lemma traces_log level message w :
  traces_at (BleManager.log level message) w (fun r events =>
    r = Return tt
    ∧ events = omap auth_event [Txt "[" :: Val (JStr level) :: Txt "] " :: message]).
Proof. eexists. split; [reflexivity |]. repeat split; reflexivity. Qed.

Lemma steady_log level message :
  auth_event (Txt "[" :: Val (JStr level) :: Txt "] " :: message) = None ->
  steady (BleManager.log level message).
Proof.
  intros Hnone w. destruct (traces_log level message w) as (lines & Hc & Hp & Hr & He).
  exists lines. split; [exact Hc |]. split; [exact Hp |].
  split; [exists tt; exact Hr |]. rewrite He.
  cbn [omap list_omap]. rewrite Hnone. reflexivity.
Qed.

(** A message that starts with a text other than the four that tell of
    the authentication and the monitoring is no event. *)
Lemma auth_event_other level t rest :
  String.eqb t "All authentication methods failed, proceeding without authentication"
    = false ->
  String.eqb t "Setting up data monitoring" = false ->
  String.eqb t "Attempting authentication method " = false ->
  String.eqb t "Authentication method " = false ->
  auth_event (Txt "[" :: Val (JStr level) :: Txt "] " :: Txt t :: rest) = None.
Proof.
  intros H1 H2 H3 H4. unfold auth_event.
  destruct rest as [| [| [| | x | | |] | |] [| [] rest]];
    rewrite ?H1, ?H2, ?H3, ?H4; reflexivity.
Qed.

Lemma steady_setItem key text : quiet (AsyncStorage_setItem key text).
Proof.
  apply silent_quiet. intros w. unfold AsyncStorage_setItem.
  destruct (storageFault (platform w)); split; reflexivity.
Qed.

Lemma steady_getItem key : quiet (AsyncStorage_getItem key).
Proof.
  apply silent_quiet. intros w. unfold AsyncStorage_getItem.
  destruct (storageFault (platform w)); split; reflexivity.
Qed.

End ConsoleTrace.

(** Steps that discharge [quiet] and [steady] goals along the structure of a
    method. *)
Ltac other_line :=
  first [ reflexivity | apply auth_event_other; reflexivity ].

Ltac steady_step :=
  first
    [ apply steady_ret | apply steady_gets | apply steady_modify_ble | apply steady_random
    | apply steady_modify; intros ?; split; reflexivity
    | apply steady_log; other_line
    | apply steady_when
    | apply steady_bind; [| intros ?]
    | apply steady_try_catch; [| intros ?] ].

Ltac quiet_step :=
  first
    [ apply quiet_throw | apply quiet_await
    | apply steady_setItem | apply steady_getItem
    | apply quiet_when
    | apply quiet_for_each; intros ?
    | apply quiet_bind; [| intros ?]
    | apply quiet_try_catch; [| intros ?]
    | apply steady_quiet; steady_step
    | match goal with
      | |- quiet (if ?c then _ else _) => destruct c
      | |- quiet (match ?x with _ => _ end) => destruct x
      end ].

Section Connection.

Import BleManager.

Lemma quiet_genericKeyAuthentication device : quiet (genericKeyAuthentication device).
Proof. unfold genericKeyAuthentication. repeat quiet_step. Qed.

Lemma quiet_challengeResponseAuth device : quiet (challengeResponseAuth device).
Proof. unfold challengeResponseAuth. repeat quiet_step. Qed.

Lemma steady_discoverServices device : steady (discoverServices device).
Proof.
  unfold discoverServices, flag. apply steady_try_catch; [| intros e; steady_step].
  repeat quiet_step.
Qed.

Lemma steady_call_connectionCallback connected device :
  steady (call_connectionCallback connected device).
Proof. unfold call_connectionCallback. repeat steady_step. Qed.

Lemma steady_startMockDataSimulation : steady startMockDataSimulation.
Proof. unfold startMockDataSimulation. repeat steady_step. Qed.

Lemma steady_startGPSFallback : steady startGPSFallback.
Proof.
  unfold startGPSFallback. apply steady_try_catch; [| intros e; steady_step].
  repeat quiet_step.
Qed.

Lemma steady_startAccelerometerFallback : steady startAccelerometerFallback.
Proof.
  unfold startAccelerometerFallback. apply steady_try_catch; [| intros e; steady_step].
  repeat quiet_step.
Qed.

Lemma steady_startDataUpdates : steady startDataUpdates.
Proof.
  unfold startDataUpdates, setupFallbackDataUpdates.
  apply steady_bind; [steady_step | intros mock].
  destruct mock; [apply steady_startMockDataSimulation |].
  apply steady_bind; [steady_step | intros enabled]. apply steady_when.
  apply steady_bind; [apply steady_startGPSFallback | intros _].
  apply steady_startAccelerometerFallback.
Qed.

End Connection.

Section AuthenticationChain.

Import BleManager.

(** One turn of the loop of [attemptAuthentication]: the method is
    announced and run; when it returns, its success is logged and the
    loop is left; when it raises, the failure is logged and the loop goes
    on with the next method. *)
Lemma attempt_from_cons i (method : M unit) rest w :
  let number := Val (int (Z.of_nat i + 1)) in
  let w1 := snd (log "INFO" [Txt "Attempting authentication method "; number] w) in
  attempt_from i (method :: rest) w =
  match method w1 with
  | (Return _, w2) =>
      (Return tt,
       snd (log "INFO" [Txt "Authentication method "; number; Txt " successful"] w2))
  | (Throw e, w2) =>
      attempt_from (S i) rest
        (snd (log "WARN" (Txt "Authentication method " :: number :: Txt " failed: "
                          :: error_message e) w2))
  end.
Proof.
  intros number w1. cbn [attempt_from]. fold number.
  unfold try_catch, mbind, M_bind.
  change (log "INFO" [Txt "Attempting authentication method "; number] w)
    with (@Return unit tt, w1).
  cbv iota beta.
  destruct (method w1) as [[[] | e] w2]; reflexivity.
Qed.

Lemma bondingAuthentication_run device w :
  bondingAuthentication device w
  = (Throw (Error [Txt "Manual pairing required"]),
     snd (log "INFO" [Txt "Bonding authentication requires manual Bluetooth pairing"] w)).
Proof. reflexivity. Qed.

Lemma quiet_bondingAuthentication device : quiet (bondingAuthentication device).
Proof. unfold bondingAuthentication. repeat quiet_step. Qed.

(** The challenge-response method succeeds exactly when the digest is
    computed. *)
Lemma challengeResponseAuth_result device w :
  fst (challengeResponseAuth device w)
  = match digest (platform w) with
    | Return _ => Return tt
    | Throw e => Throw (Error (Txt "Challenge-response auth failed: " :: error_message e))
    end.
Proof.
  unfold challengeResponseAuth. munfold. cbn [platform set_draws].
  destruct (digest (platform w)); reflexivity.
Qed.

(** The events of one turn of the loop, for a quiet method. *)
Lemma traces_attempt_from i (method : M unit) rest w
    (P : World -> Result unit -> list AuthEvent -> Prop) :
  quiet method ->
  (forall w', traces_at (attempt_from (S i) rest) w' (P w')) ->
  let number := inject_Z (Z.of_nat i + 1) in
  let w1 := snd (log "INFO" [Txt "Attempting authentication method "; Val (JNum number)] w) in
  traces_at (attempt_from i (method :: rest)) w (fun r events =>
    match fst (method w1) with
    | Return _ => r = Return tt ∧ events = [Attempting number; Succeeded number]
    | Throw e =>
        exists w' events',
          platform w' = platform w
          ∧ P w' r events'
          ∧ events = Attempting number :: Failed number :: events'
    end).
Proof.
  intros Hquiet Hrest number w1.
  unfold traces_at. rewrite attempt_from_cons. fold (int (Z.of_nat i + 1)). fold number.
  change (snd (log "INFO" [Txt "Attempting authentication method "; Val (int (Z.of_nat i + 1))] w))
    with w1.
  destruct (Hquiet w1) as (lines & Hc & Hp & He).
  destruct (method w1) as [[[] | e] w2]; cbn [fst snd] in *.
  - eexists. split; [| split; [| split; [reflexivity |]]].
    + cbn [console log]. simpl. rewrite Hc. simpl. rewrite <- !app_assoc. reflexivity.
    + simpl. rewrite Hp. reflexivity.
    + rewrite !omap_app, He. reflexivity.
  - match goal with
    | |- context [attempt_from (S i) rest ?w0] =>
        destruct (Hrest w0) as (lines' & Hc' & Hp' & HP); set (wf := w0) in *
    end.
    eexists. split; [| split].
    + rewrite Hc'. unfold wf. simpl. rewrite Hc. simpl. rewrite <- !app_assoc. reflexivity.
    + rewrite Hp'. unfold wf. simpl. rewrite Hp. reflexivity.
    + exists wf, (omap auth_event lines'). split; [unfold wf; simpl; rewrite Hp; reflexivity |].
      split; [exact HP |].
      rewrite !omap_app, He. reflexivity.
Qed.

Lemma traces_at_weaken {A} (m : M A) w (P P' : Result A -> list AuthEvent -> Prop) :
  (forall r events, P r events -> P' r events) -> traces_at m w P -> traces_at m w P'.
Proof.
  intros HPP (lines & Hc & Hp & HP). exists lines. repeat split; auto.
Qed.

(** Sequencing after a method that returns. *)
Lemma traces_at_seq {A B} (m : M A) (k : A -> M B) w P1 P2 :
  traces_at m w (fun r events => (exists a, r = Return a) ∧ P1 events) ->
  (forall a, fst (m w) = Return a -> traces_at (k a) (snd (m w)) P2) ->
  traces_at (m ≫= k) w (fun r events =>
    exists events1 events2, P1 events1 ∧ P2 r events2 ∧ events = events1 ++ events2).
Proof.
  intros Hm Hk.
  pose proof (traces_at_bind m k w _ (fun _ => P2) Hm Hk) as H.
  revert H. apply traces_at_weaken.
  intros r events (events1 & [[a Ha] H1] & H). rewrite Ha in H.
  destruct H as (events2 & H2 & ->). exists events1, events2. auto.
Qed.

(** Sequencing after a steady method. *)
Lemma traces_at_then {A B} (m : M A) (k : A -> M B) w P :
  steady m ->
  (forall a, fst (m w) = Return a -> traces_at (k a) (snd (m w)) P) ->
  traces_at (m ≫= k) w P.
Proof.
  intros Hm Hk.
  pose proof (traces_at_seq m k w (fun events => events = []) P (Hm w) Hk) as H.
  revert H. apply traces_at_weaken.
  intros r events (events1 & events2 & -> & H2 & ->). exact H2.
Qed.

(** A [try] whose handler is steady returns, with the events of its body. *)
Lemma traces_at_try {A} (body : M A) handler w (P : list AuthEvent -> Prop) :
  traces_at body w (fun _ events => P events) ->
  (forall e, steady (handler e)) ->
  traces_at (try_catch body handler) w (fun r events => (exists a, r = Return a) ∧ P events).
Proof.
  intros (lines1 & Hc1 & Hp1 & H1) Hh.
  unfold traces_at, try_catch. destruct (body w) as [[a | e] w1]; simpl in *.
  - exists lines1. repeat split; try assumption. exists a. reflexivity.
  - destruct (Hh e w1) as (lines2 & Hc2 & Hp2 & Hr & H2).
    exists (lines1 ++ lines2). split; [rewrite Hc2, Hc1, app_assoc; reflexivity |].
    split; [rewrite Hp2; exact Hp1 |]. split; [exact Hr |].
    rewrite omap_app, H2, app_nil_r. exact H1.
Qed.

(** A [try] whose body returns does so with the events of its body. *)
Lemma traces_at_try_returns {A} (body : M A) handler w (P : list AuthEvent -> Prop) :
  traces_at body w (fun r events => (exists a, r = Return a) ∧ P events) ->
  traces_at (try_catch body handler) w (fun r events => (exists a, r = Return a) ∧ P events).
Proof.
  intros (lines1 & Hc1 & Hp1 & [a Ha] & H1).
  unfold traces_at, try_catch. destruct (body w) as [[a' | e] w1]; simpl in *;
    [| discriminate].
  exists lines1. repeat split; try assumption. exists a'. reflexivity.
Qed.

Lemma traces_setupDataMonitoring device w :
  traces_at (setupDataMonitoring device) w (fun r events =>
    (exists a, r = Return a) ∧ events = [MonitoringSetUp]).
Proof.
  unfold setupDataMonitoring.
  apply traces_at_try; [| intros e; steady_step].
  match goal with |- traces_at (?m ≫= ?k) _ _ => 
    pose proof (traces_at_bind m k w _ (fun _ _ events => events = [])
                  (traces_log _ _ w)) as H
  end.
  cbv beta in H.
  assert (Hrest : quiet
    (found ← await (services device);
     for_each found (fun service =>
       chars ← await (characteristics service);
       for_each chars (fun char =>
         when (isNotifiable char)
           (log "INFO" [Txt "Subscribing to notifications from ";
                        Val (JStr (char_uuid char))];;
            modify (fun w => set_monitored
              (monitored w ++ [(service_uuid service, char_uuid char)]) w))))))
    by repeat quiet_step.
  specialize (H (fun _ _ => Hrest _)).
  revert H. apply traces_at_weaken.
  intros r events (events1 & [_ ->] & (events2 & -> & ->)). reflexivity.
Qed.

Lemma traces_exhausted w :
  traces_at (attempt_from 3 []) w (fun r events => r = Return tt ∧ events = [Exhausted]).
Proof. apply traces_log. Qed.

Lemma traces_bonding device w :
  traces_at (attempt_from 2 [bondingAuthentication device]) w (fun r events =>
    r = Return tt ∧ events = [Attempting 3; Failed 3; Exhausted]).
Proof.
  pose proof (traces_attempt_from 2 (bondingAuthentication device) [] w
    (fun _ r events => r = Return tt ∧ events = [Exhausted])
    (quiet_bondingAuthentication device) traces_exhausted) as H.
  revert H. apply traces_at_weaken. intros r events H.
  rewrite bondingAuthentication_run in H. cbn [fst] in H.
  destruct H as (w' & events' & _ & [-> ->] & ->). split; reflexivity.
Qed.

Lemma traces_challenge device w :
  traces_at
    (attempt_from 1 [challengeResponseAuth device; bondingAuthentication device]) w
    (fun r events =>
       r = Return tt
       ∧ match digest (platform w) with
         | Return _ => events = [Attempting 2; Succeeded 2]
         | Throw _ =>
             events = [Attempting 2; Failed 2; Attempting 3; Failed 3; Exhausted]
         end).
Proof.
  pose proof (traces_attempt_from 1 (challengeResponseAuth device)
    [bondingAuthentication device] w
    (fun _ r events => r = Return tt ∧ events = [Attempting 3; Failed 3; Exhausted])
    (quiet_challengeResponseAuth device) (traces_bonding device)) as H.
  revert H. apply traces_at_weaken. intros r events H.
  rewrite challengeResponseAuth_result in H. cbn [platform] in H. simpl platform in H.
  destruct (digest (platform w)) as [text | e].
  - destruct H as [-> ->]. split; reflexivity.
  - destruct H as (w' & events' & _ & [-> ->] & ->). split; reflexivity.
Qed.

(** The whole chain: how it goes is decided by the outcome of the generic
    key write and, when that fails, by the outcome of the digest. *)
Lemma traces_attemptAuthentication device w :
  let w1 := snd (log "INFO" [Txt "Attempting authentication method "; Val (int 1)] w) in
  traces_at (attemptAuthentication device) w (fun r events =>
    r = Return tt
    ∧ match fst (genericKeyAuthentication device w1), digest (platform w) with
      | Return _, _ => events = chain_first
      | Throw _, Return _ => events = chain_second
      | Throw _, Throw _ => events = chain_exhausted
      end).
Proof.
  intros w1.
  pose proof (traces_attempt_from 0 (genericKeyAuthentication device)
    [challengeResponseAuth device; bondingAuthentication device] w
    (fun w' r events =>
       r = Return tt
       ∧ match digest (platform w') with
         | Return _ => events = [Attempting 2; Succeeded 2]
         | Throw _ =>
             events = [Attempting 2; Failed 2; Attempting 3; Failed 3; Exhausted]
         end)
    (quiet_genericKeyAuthentication device) (traces_challenge device)) as H.
  revert H. apply traces_at_weaken. intros r events H.
  change (snd (log "INFO" [Txt "Attempting authentication method ";
                           Val (JNum (inject_Z (Z.of_nat 0 + 1)))] w)) with w1 in H.
  destruct (fst (genericKeyAuthentication device w1)) as [[] | e].
  - destruct H as [-> ->]. split; reflexivity.
  - destruct H as (w' & events' & Hp & [-> Hd] & ->). rewrite Hp in Hd.
    split; [reflexivity |].
    destruct (digest (platform w)); rewrite Hd; reflexivity.
Qed.

Lemma steady_await_Return {A} (a : A) : steady (await (Return a)).
Proof. apply silent_steady. intros w. repeat split. exists a. reflexivity. Qed.

(** Once the radio has connected, [connectToDevice] returns; on its way it
    goes through the authentication chain, in one of its three ways, and
    then sets up the data monitoring, once. *)
Lemma traces_connectToDevice info connected w :
  central (platform w) (id info) = Return connected ->
  traces_at (connectToDevice info) w (fun r events =>
    r = Return tt
    ∧ exists chain,
        events = chain ++ [MonitoringSetUp]
        ∧ (chain = chain_first ∨ chain = chain_second ∨ chain = chain_exhausted)).
Proof.
  intros Hcentral. unfold connectToDevice.
  apply (traces_at_weaken _ _ (fun r events =>
    (exists a, r = Return a)
    ∧ exists chain,
        events = chain ++ [MonitoringSetUp]
        ∧ (chain = chain_first ∨ chain = chain_second ∨ chain = chain_exhausted))).
  { intros r events [[[] ->] H]. split; [reflexivity | exact H]. }
  apply traces_at_try_returns.
  apply traces_at_then; [steady_step | intros [] _].
  apply traces_at_then; [steady_step | intros p Hp].
  simpl in Hp. injection Hp as <-. rewrite Hcentral.
  apply traces_at_then; [apply steady_await_Return | intros c Hc].
  simpl in Hc. injection Hc as <-.
  apply traces_at_then; [steady_step | intros [] _].
  apply traces_at_then; [steady_step | intros [] _].
  apply traces_at_then; [apply steady_discoverServices | intros [] _].
  match goal with
  | |- traces_at (?m ≫= ?k) ?w0 _ =>
      pose proof (traces_at_seq m k w0
        (fun chain => chain = chain_first ∨ chain = chain_second ∨ chain = chain_exhausted)
        (fun r events => (exists a, r = Return a) ∧ events = [MonitoringSetUp])) as H
  end.
  eapply traces_at_weaken; [| apply H]; clear H.
  - intros r events (chain & events2 & Hchain & [Hr ->] & ->).
    split; [exact Hr |]. exists chain. split; [reflexivity | exact Hchain].
  - eapply traces_at_weaken; [| apply traces_attemptAuthentication].
    intros r events [-> Hcases]. split; [exists tt; reflexivity |].
    destruct (fst (genericKeyAuthentication connected _)); [auto |].
    destruct (digest (platform _)); auto.
  - intros [] _.
    match goal with
    | |- traces_at (?m ≫= ?k) ?w0 _ =>
        pose proof (traces_at_seq m k w0 (fun events => events = [MonitoringSetUp])
          (fun r events => (exists a, r = Return a) ∧ events = [])) as H
    end.
    eapply traces_at_weaken; [| apply H]; clear H.
    + intros r events (events1 & events2 & -> & [Hr ->] & ->). split; [exact Hr | reflexivity].
    + apply traces_setupDataMonitoring.
    + intros [] _.
      apply (steady_bind _ _ (steady_call_connectionCallback _ _)
               (fun _ => steady_startDataUpdates)).
Qed.

End AuthenticationChain.

(** C4.  [attemptAuthentication] never raises, and the console shows that
    it runs the generic key write, the challenge-response digest and the
    bonding handshake in that order and stops at the first that succeeds:
    when the key write succeeds only it is attempted; when it fails and the
    digest is computed, the second method is the last one attempted; when
    both fail, the bonding handshake (which always fails) is attempted too,
    there is one failure entry per method, and the exhaustion is logged.  In
    every case [connectToDevice], once the radio has connected, returns
    normally and sets up the data monitoring exactly once, after the chain. *)
Theorem C4_authentication_chain (device : Device) (w : World) :
  let chain := auth_trace (BleManager.attemptAuthentication device) w in
  let first :=
    fst (BleManager.genericKeyAuthentication device
           (snd (BleManager.log "INFO"
                   [Txt "Attempting authentication method "; Val (int 1)] w))) in
  fst (BleManager.attemptAuthentication device w) = Return tt
  ∧ (first = Return tt -> chain = [Attempting 1; Succeeded 1])
  ∧ (forall e text, first = Throw e -> digest (platform w) = Return text ->
     chain = [Attempting 1; Failed 1; Attempting 2; Succeeded 2])
  ∧ (forall e e', first = Throw e -> digest (platform w) = Throw e' ->
     chain = [Attempting 1; Failed 1; Attempting 2; Failed 2;
              Attempting 3; Failed 3; Exhausted])
  ∧ (forall info connected,
     central (platform w) (id info) = Return connected ->
     fst (BleManager.connectToDevice info w) = Return tt
     ∧ exists steps,
         auth_trace (BleManager.connectToDevice info) w = steps ++ [MonitoringSetUp]
         ∧ (steps = chain_first ∨ steps = chain_second ∨ steps = chain_exhausted)).
Proof.
  intros chain first.
  destruct (traces_attemptAuthentication device w) as (lines & Hc & _ & Hr & Hchain).
  fold first in Hchain.
  assert (Hsaid : chain = omap auth_event lines)
    by (unfold chain, auth_trace; rewrite (said_app _ _ _ Hc); reflexivity).
  rewrite <- Hsaid in Hchain.
  split; [exact Hr |]. split; [| split; [| split]].
  - intros Hfirst. rewrite Hfirst in Hchain. exact Hchain.
  - intros e text Hfirst Hdigest. rewrite Hfirst, Hdigest in Hchain. exact Hchain.
  - intros e e' Hfirst Hdigest. rewrite Hfirst, Hdigest in Hchain. exact Hchain.
  - intros info connected Hcentral.
    destruct (traces_connectToDevice info connected w Hcentral)
      as (lines' & Hc' & _ & Hr' & steps & Hsteps & Hcases).
    split; [exact Hr' |]. exists steps. split; [| exact Hcases].
    unfold auth_trace. rewrite (said_app _ _ _ Hc'). exact Hsteps.
Qed.

(** All three methods fail: the services of the peripheral cannot be read
    and the digest is not computed. *)
Lemma C4_authentication_chain_witness :
  let w := boot failing_platform 1700000000000 in
  auth_trace (BleManager.attemptAuthentication unreadable_device) w = chain_exhausted
  ∧ fst (BleManager.connectToDevice a_bike w) = Return tt
  ∧ auth_trace (BleManager.connectToDevice a_bike) w = chain_exhausted ++ [MonitoringSetUp].
Proof.
  intros w.
  destruct (C4_authentication_chain unreadable_device w) as (_ & _ & _ & Hall & Hconnect).
  split; [| split].
  - exact (Hall _ _ eq_refl eq_refl).
  - exact (proj1 (Hconnect a_bike unreadable_device eq_refl)).
  - vm_compute. reflexivity.
Defined.

(** ** Initialisation *)

Section Initialisation.

Import BleManager.

Lemma steady_requestPermissions : steady requestPermissions.
Proof.
  unfold requestPermissions. apply steady_try_catch; [| intros e; steady_step].
  repeat quiet_step.
Qed.

Lemma steady_loadCachedSettings : steady loadCachedSettings.
Proof.
  unfold loadCachedSettings, parse_item, JSON_parse.
  apply steady_try_catch; [| intros e; steady_step].
  repeat quiet_step.
Qed.

Lemma steady_initialize : steady initialize.
Proof.
  unfold initialize. intros w.
  apply traces_at_try_returns.
  apply steady_bind; [steady_step | intros _].
  apply steady_bind; [apply steady_requestPermissions | intros _].
  apply steady_bind; [apply steady_loadCachedSettings | intros _].
  apply steady_bind; [steady_step | intros enabled].
  apply steady_bind; [| intros _; steady_step].
  apply steady_when, steady_startMockDataSimulation.
Qed.



End Initialisation.

Section InitialisationRun.

Import BleManager.

Lemma steady_run (m : M unit) w :
  steady m ->
  m w = (Return tt, snd (m w))
  ∧ platform (snd (m w)) = platform w
  ∧ exists lines, console (snd (m w)) = console w ++ lines.
Proof.
  intros Hm. destruct (Hm w) as (lines & Hc & Hp & [[] Hr] & _).
  split; [apply total_run; exact Hr |]. split; [exact Hp |]. exists lines. exact Hc.
Qed.




End InitialisationRun.




(** * Further properties *)

(** ** Framing *)

Section Frames.

Context {X : Type} (obs : World -> X).

Lemma keeps_ret {A} (a : A) : keeps obs (mret a).
Proof. intros w. reflexivity. Qed.

Lemma keeps_throw {A} e : keeps obs (@throw A e).
Proof. intros w. reflexivity. Qed.

Lemma keeps_await {A} (r : Result A) : keeps obs (await r).
Proof. intros w. reflexivity. Qed.

Lemma keeps_gets {A} (f : World -> A) : keeps obs (gets f).
Proof. intros w. reflexivity. Qed.

Lemma keeps_modify f : (forall w, obs (f w) = obs w) -> keeps obs (modify f).
Proof. intros H w. apply H. Qed.

Lemma keeps_bind {A B} (m : M A) (k : A -> M B) :
  keeps obs m -> (forall a, keeps obs (k a)) -> keeps obs (m ≫= k).
Proof.
  intros Hm Hk w. unfold mbind, M_bind. specialize (Hm w).
  destruct (m w) as [[a | e] w1]; simpl in *; [| exact Hm].
  rewrite Hk. exact Hm.
Qed.

Lemma keeps_try_catch {A} (body : M A) handler :
  keeps obs body -> (forall e, keeps obs (handler e)) -> keeps obs (try_catch body handler).
Proof.
  intros Hm Hk w. unfold try_catch. specialize (Hm w).
  destruct (body w) as [[a | e] w1]; simpl in *; [exact Hm |].
  rewrite Hk. exact Hm.
Qed.

Lemma keeps_when b (m : M unit) : keeps obs m -> keeps obs (when b m).
Proof. intros Hm. destruct b; [exact Hm | apply keeps_ret]. Qed.

Lemma keeps_for_each {A} (l : list A) (body : A -> M unit) :
  (forall x, keeps obs (body x)) -> keeps obs (for_each l body).
Proof.
  intros Hbody. induction l as [| x l IH]; [apply keeps_ret |].
  apply keeps_bind; [apply Hbody | intros _; exact IH].
Qed.

Lemma keeps_random : (forall w d, obs (set_draws d w) = obs w) -> keeps obs Math_random.
Proof. intros H w. apply H. Qed.

Lemma keeps_setItem key text :
  (forall w s, obs (set_asyncStorage s w) = obs w) -> keeps obs (AsyncStorage_setItem key text).
Proof.
  intros H w. unfold AsyncStorage_setItem.
  destruct (storageFault (platform w)); [reflexivity | apply H].
Qed.

Lemma keeps_getItem key : keeps obs (AsyncStorage_getItem key).
Proof.
  intros w. unfold AsyncStorage_getItem.
  destruct (storageFault (platform w)); reflexivity.
Qed.

Lemma keeps_removeItem key :
  (forall w s, obs (set_asyncStorage s w) = obs w) -> keeps obs (AsyncStorage_removeItem key).
Proof.
  intros H w. unfold AsyncStorage_removeItem.
  destruct (storageFault (platform w)); [reflexivity | apply H].
Qed.

End Frames.

Ltac keeps_step :=
  first
    [ apply keeps_ret | apply keeps_throw | apply keeps_await | apply keeps_gets
    | apply keeps_getItem
    | apply keeps_random; intros ? ?; reflexivity
    | apply keeps_setItem; intros ? ?; reflexivity
    | apply keeps_removeItem; intros ? ?; reflexivity
    | apply keeps_modify; intros ?; reflexivity
    | apply keeps_when
    | apply keeps_for_each; intros ?
    | apply keeps_bind; [| intros ?]
    | apply keeps_try_catch; [| intros ?]
    | match goal with
      | |- keeps _ (if ?c then _ else _) => destruct c
      | |- keeps _ (match ?x with _ => _ end) => destruct x
      end ].

Ltac keeps_auto :=
  unfold BleManager.log, BleManager.call_connectionCallback, BleManager.call_dataCallback,
    modify_ble;
  repeat keeps_step.

Section ConnectionFrames.
Import BleManager.

Lemma session_discoverServices device : keeps session (discoverServices device).
Proof. unfold discoverServices. keeps_auto. Qed.

Lemma session_attemptAuthentication device : keeps session (attemptAuthentication device).
Proof.
  unfold attemptAuthentication, authMethods.
  unfold attempt_from, genericKeyAuthentication, challengeResponseAuth, bondingAuthentication.
  keeps_auto.
Qed.

Lemma session_setupDataMonitoring device : keeps session (setupDataMonitoring device).
Proof. unfold setupDataMonitoring. keeps_auto. Qed.
End ConnectionFrames.

(** ** The storage manager *)

Section Storage.
Import StorageManager.

Lemma getItem_run key defaultValue w :
  getItem key defaultValue w =
  match storageFault (platform w) with
  | Some e =>
      (Return defaultValue,
       set_console (console w ++ [Txt "Storage getItem error for key " :: Val (JStr key)
                                  :: Txt ":" :: error_message e]) w)
  | None =>
      match asyncStorage w !! key with
      | Some (JsonText v) => (Return v, w)
      | Some (RawText _) =>
          (Return defaultValue,
           set_console (console w ++ [[Txt "Storage getItem error for key "; Val (JStr key);
                                       Txt ":"; Txt "JSON Parse error"]]) w)
      | None => (Return defaultValue, w)
      end
  end.
Proof.
  unfold getItem, try_catch, AsyncStorage_getItem, mbind, M_bind.
  destruct (storageFault (platform w)) as [e |]; [reflexivity |].
  destruct (asyncStorage w !! key) as [[v | s] |]; reflexivity.
Qed.

Lemma setItem_run key value w :
  setItem key value w =
  match storageFault (platform w) with
  | Some e =>
      (Return false,
       set_console (console w ++ [Txt "Storage setItem error for key " :: Val (JStr key)
                                  :: Txt ":" :: error_message e]) w)
  | None => (Return true, set_asyncStorage (<[key := JsonText value]> (asyncStorage w)) w)
  end.
Proof.
  unfold setItem, try_catch, AsyncStorage_setItem, mbind, M_bind.
  destruct (storageFault (platform w)) as [e |]; reflexivity.
Qed.

Lemma removeItem_run key w :
  removeItem key w =
  match storageFault (platform w) with
  | Some e =>
      (Return false,
       set_console (console w ++ [Txt "Storage removeItem error for key " :: Val (JStr key)
                                  :: Txt ":" :: error_message e]) w)
  | None => (Return true, set_asyncStorage (delete key (asyncStorage w)) w)
  end.
Proof.
  unfold removeItem, try_catch, AsyncStorage_removeItem, mbind, M_bind.
  destruct (storageFault (platform w)) as [e |]; reflexivity.
Qed.

End Storage.

(** X1.  On a store that accepts the calls, what [setItem] saves under a
    key is what [getItem] returns for that key, whatever the default; a
    second [setItem] replaces it, the other keys read as before, and each
    pair of a saver and a getter of the storage manager (settings, custom
    BLE settings, navigation settings, user preferences, debug logs) gives
    the saved value back. *)
Theorem storage_round_trip (key : string) (value defaultValue : jsval) (w : World)
    (Hstore : storageFault (platform w) = None) :
  let saved := StorageManager.setItem key value w in
  fst saved = Return true
  ∧ StorageManager.getItem key defaultValue (snd saved) = (Return value, snd saved)
  ∧ (forall value', fst (StorageManager.getItem key defaultValue
                           (snd (StorageManager.setItem key value' (snd saved))))
                    = Return value')
  ∧ (forall other d, other ≠ key ->
       fst (StorageManager.getItem other d (snd saved)) = fst (StorageManager.getItem other d w))
  ∧ (fst (StorageManager.getSettings defaultValue (snd (StorageManager.saveSettings value w)))
     = Return value
     ∧ fst (StorageManager.getCustomBLESettings
              (snd (StorageManager.saveCustomBLESettings value w))) = Return value
     ∧ fst (StorageManager.getNavigationSettings
              (snd (StorageManager.saveNavigationSettings value w))) = Return value
     ∧ fst (StorageManager.getUserPreferences
              (snd (StorageManager.saveUserPreferences value w))) = Return value
     ∧ fst (StorageManager.getDebugLogs (snd (StorageManager.saveDebugLogs value w)))
       = Return value
     ∧ fst (StorageManager.getDebugLogs
              (snd (StorageManager.clearDebugLogs
                      (snd (StorageManager.saveDebugLogs value w))))) = Return (JArr [])).
Proof.
  intros saved. unfold saved. rewrite setItem_run, Hstore. cbn [fst snd].
  split; [reflexivity |]. split; [| split; [| split]].
  - rewrite getItem_run. simpl. rewrite Hstore, lookup_insert_eq. reflexivity.
  - intros value'. rewrite setItem_run. simpl. rewrite Hstore. cbn [snd].
    rewrite getItem_run. simpl. rewrite Hstore, lookup_insert_eq. reflexivity.
  - intros other d Hne. rewrite !getItem_run. simpl. rewrite Hstore.
    rewrite lookup_insert_ne by congruence.
    destruct (asyncStorage w !! other) as [[v | s] |]; reflexivity.
  - unfold StorageManager.getSettings, StorageManager.saveSettings,
      StorageManager.getCustomBLESettings, StorageManager.saveCustomBLESettings,
      StorageManager.getNavigationSettings, StorageManager.saveNavigationSettings,
      StorageManager.getUserPreferences, StorageManager.saveUserPreferences,
      StorageManager.getDebugLogs, StorageManager.saveDebugLogs,
      StorageManager.clearDebugLogs.
    rewrite !setItem_run, Hstore. cbn [snd].
    rewrite removeItem_run. cbn [platform set_asyncStorage]. rewrite Hstore. cbn [snd].
    rewrite !getItem_run. cbn [platform asyncStorage set_asyncStorage].
    rewrite Hstore, !lookup_insert_eq, lookup_delete_eq.
    repeat split; reflexivity.
Qed.

Lemma storage_round_trip_witness :
  let saved := StorageManager.setItem "yezdi_settings" a_snapshot listening in
  fst saved = Return true
  ∧ fst (StorageManager.getItem "yezdi_settings" JNull (snd saved)) = Return a_snapshot.
Proof.
  destruct (storage_round_trip "yezdi_settings" a_snapshot JNull listening eq_refl)
    as (H1 & H2 & _).
  split; [exact H1 |]. rewrite H2. reflexivity.
Defined.

(** X2.  The generic storage methods never throw.  When the store rejects
    the call, [getItem] returns the default and [setItem] and [removeItem]
    return false, leaving the store as it is; on a working store [getItem]
    returns the default for a missing key and for a text that is not JSON,
    which it reports on the console. *)
Theorem storage_never_throws (key : string) (value defaultValue : jsval) (w : World) :
  (exists v, fst (StorageManager.getItem key defaultValue w) = Return v)
  ∧ (exists b, fst (StorageManager.setItem key value w) = Return b)
  ∧ (exists b, fst (StorageManager.removeItem key w) = Return b)
  ∧ (forall e, storageFault (platform w) = Some e ->
       fst (StorageManager.getItem key defaultValue w) = Return defaultValue
       ∧ fst (StorageManager.setItem key value w) = Return false
       ∧ fst (StorageManager.removeItem key w) = Return false
       ∧ asyncStorage (snd (StorageManager.setItem key value w)) = asyncStorage w
       ∧ asyncStorage (snd (StorageManager.removeItem key w)) = asyncStorage w)
  ∧ (storageFault (platform w) = None ->
       (asyncStorage w !! key = None ->
        StorageManager.getItem key defaultValue w = (Return defaultValue, w))
       ∧ (forall text, asyncStorage w !! key = Some (RawText text) ->
          fst (StorageManager.getItem key defaultValue w) = Return defaultValue
          ∧ said (StorageManager.getItem key defaultValue) w
            = [[Txt "Storage getItem error for key "; Val (JStr key); Txt ":";
                Txt "JSON Parse error"]])).
Proof.
  rewrite getItem_run, setItem_run, removeItem_run.
  split; [| split; [| split; [| split]]].
  - destruct (storageFault (platform w)); [eexists; reflexivity |].
    destruct (asyncStorage w !! key) as [[v | s] |]; eexists; reflexivity.
  - destruct (storageFault (platform w)); eexists; reflexivity.
  - destruct (storageFault (platform w)); eexists; reflexivity.
  - intros e ->. repeat split; reflexivity.
  - intros Hstore. rewrite Hstore. split.
    + intros ->. reflexivity.
    + intros text Htext. rewrite Htext. split; [reflexivity |].
      unfold said. rewrite getItem_run, Hstore, Htext. simpl.
      apply drop_app_length.
Qed.

(** X3.  On a store that accepts the calls, after [removeItem] of a key
    [getItem] returns the default for it, and the other keys read as
    before. *)
Theorem storage_remove (key : string) (defaultValue : jsval) (w : World)
    (Hstore : storageFault (platform w) = None) :
  let removed := StorageManager.removeItem key w in
  fst removed = Return true
  ∧ StorageManager.getItem key defaultValue (snd removed) = (Return defaultValue, snd removed)
  ∧ (forall other d, other ≠ key ->
       fst (StorageManager.getItem other d (snd removed))
       = fst (StorageManager.getItem other d w)).
Proof.
  intros removed. unfold removed. rewrite removeItem_run, Hstore. cbn [fst snd].
  split; [reflexivity |]. split.
  - rewrite getItem_run. simpl. rewrite Hstore, lookup_delete_eq. reflexivity.
  - intros other d Hne. rewrite !getItem_run. simpl. rewrite Hstore.
    rewrite lookup_delete_ne by congruence.
    destruct (asyncStorage w !! other) as [[v | s] |]; reflexivity.
Qed.

Lemma storage_remove_witness :
  let w := stocked calm_platform in
  storageFault (platform w) = None
  ∧ fst (StorageManager.getItem "yezdi_cached_data" JNull w) = Return a_snapshot
  ∧ fst (StorageManager.getItem "yezdi_cached_data" JNull
           (snd (StorageManager.removeItem "yezdi_cached_data" w))) = Return JNull.
Proof.
  intros w. split; [reflexivity |]. split; [reflexivity |].
  destruct (storage_remove "yezdi_cached_data" JNull w eq_refl) as (_ & H & _).
  rewrite H. reflexivity.
Defined.

(** ** The decoder and the store *)

Section DecoderEffects.
Import BleManager.

Lemma cacheData_effect data w :
  cacheData data w =
  (Return tt,
   if cachedDataEnabled (ble w) then
     match storageFault (platform w) with
     | None => set_asyncStorage (<["yezdi_cached_data" := JsonText data]> (asyncStorage w)) w
     | Some e => snd (log "ERROR" (Txt "Failed to cache data: " :: error_message e) w)
     end
   else w).
Proof.
  unfold cacheData, AsyncStorage_setItem. munfold.
  destruct (cachedDataEnabled (ble w)); [| reflexivity].
  destruct (storageFault (platform w)); reflexivity.
Qed.

(** What the decoder does to the world besides writing to the console and
    the log. *)
Lemma parse_try_effect buffer w (data : gmap string jsval) w1 :
  parse_strategy buffer
    (snd (log "INFO" [Txt "Received BLE data: "; Hex buffer] w)) = (Return data, w1) ->
  data !! "tripA" = None -> data !! "tripB" = None ->
  data !! "afe" = None -> data !! "bfe" = None ->
  let final := with_estimates (random (platform w1)) (draws w1) data in
  exists w', parse_try buffer w = (Return tt, w')
  ∧ lastKnownData (ble w') = JObj final
  ∧ dataOut w' = (if dataCallback (ble w1) then dataOut w1 ++ [JObj final] else dataOut w1)
  ∧ draws w' = (4 + draws w1)%nat
  ∧ platform w' = platform w1
  ∧ asyncStorage w'
    = (if cachedDataEnabled (ble w1) then
         match storageFault (platform w1) with
         | None => <["yezdi_cached_data" := JsonText (JObj final)]> (asyncStorage w1)
         | Some _ => asyncStorage w1
         end
       else asyncStorage w1).
Proof.
  intros Hdec HA HB Ha Hb final.
  assert (HB' : forall v, (<["tripA" := v]> data) !! "tripB" = None)
    by (intros; rewrite lookup_insert_ne by done; exact HB).
  assert (Ha' : forall v v', (<["tripB" := v']> (<["tripA" := v]> data)) !! "afe" = None)
    by (intros; rewrite !lookup_insert_ne by done; exact Ha).
  assert (Hb' : forall v v' v'',
    (<["afe" := v'']> (<["tripB" := v']> (<["tripA" := v]> data))) !! "bfe" = None)
    by (intros; rewrite !lookup_insert_ne by done; exact Hb).
  unfold parse_try.
  rewrite (bind_Return (log _ _) _ w tt _ (log_run _ _ _)).
  rewrite (bind_Return _ _ _ _ _ Hdec).
  rewrite (bind_Return _ _ _ _ _ (fill_estimate_run _ _ _ _ _ HA)).
  rewrite (bind_Return _ _ _ _ _ (fill_estimate_run _ _ _ _ _ (HB' _))).
  rewrite (bind_Return _ _ _ _ _ (fill_estimate_run _ _ _ _ _ (Ha' _ _))).
  rewrite (bind_Return _ _ _ _ _ (fill_estimate_run _ _ _ _ _ (Hb' _ _ _))).
  cbn [draws platform set_draws].
  change (<["bfe" := _]> _) with final.
  rewrite (bind_Return (log _ _) _ _ tt _ (log_run _ _ _)).
  rewrite (bind_Return (modify_ble _) _ _ tt _ eq_refl).
  rewrite (bind_Return _ _ _ _ _ (cacheData_effect _ _)).
  rewrite call_dataCallback_run. eexists. split; [reflexivity |].
  simpl.
  destruct (cachedDataEnabled (ble w1)), (storageFault (platform w1)); simpl;
    destruct (dataCallback (ble w1)); simpl; repeat split; reflexivity.
Qed.

(** A strategy only fails on a buffer of ten bytes.  On any other buffer it
    returns a record of numbers within the range of the bytes read, and
    only writes to the console and the log. *)
Lemma strategy_fields buffer w :
  length buffer ≠ 10 ->
  exists (data : gmap string jsval) w1 speed gear rpm fuel,
    parse_strategy buffer w = (Return data, w1)
    ∧ (data !! "tripA" = None ∧ data !! "tripB" = None
       ∧ data !! "afe" = None ∧ data !! "bfe" = None ∧ data !! "timestamp" = None)
    ∧ (session w1 = session w ∧ draws w1 = draws w ∧ asyncStorage w1 = asyncStorage w)
    ∧ data !! "speed" = Some (int speed) ∧ data !! "gear" = Some (int gear)
    ∧ data !! "rpm" = Some (int rpm) ∧ data !! "fuel" = Some (int fuel)
    ∧ (0 <= speed <= 255)%Z ∧ (1 <= gear <= 255)%Z
    ∧ (0 <= rpm <= if (10 <=? length buffer)%nat then 655350 else 3276750)%Z
    ∧ (0 <= fuel <= 255)%Z.
Proof.
  intros Hlen.
  pose proof (at_range buffer 0) as R0. pose proof (at_range buffer 1) as R1.
  pose proof (at_range buffer 2) as R2. pose proof (at_range buffer 3) as R3.
  pose proof (at_range buffer 4) as R4.
  destruct (le_lt_dec 11 (length buffer)) as [Hfull | Hshort].
  - rewrite strategy_full, parseFull_run by exact Hfull.
    do 6 eexists. split; [reflexivity |].
    split; [repeat split; reflexivity |]. split; [repeat split; reflexivity |].
    split; [reflexivity |]. split; [reflexivity |]. split; [reflexivity |].
    split; [reflexivity |].
    rewrite !or_default_0, uint16BE_read by exact R3.
    destruct (Nat.leb_spec 10 (length buffer)); [| lia].
    unfold or_default, uint16BE. destruct (Z.eqb_spec (Buffer.at_ buffer 1) 0); lia.
  - destruct (Nat.leb_spec 10 (length buffer)); [lia |].
    destruct (le_lt_dec 4 (length buffer)) as [Hmin | Hbasic].
    + rewrite strategy_minimal by lia.
      do 6 eexists. split; [reflexivity |].
      split; [repeat split; reflexivity |]. split; [repeat split; reflexivity |].
      split; [reflexivity |]. split; [reflexivity |]. split; [reflexivity |].
      split; [reflexivity |].
      rewrite !or_default_0, uint16BE_read by exact R3.
      unfold or_default, uint16BE. destruct (Z.eqb_spec (Buffer.at_ buffer 1) 0); lia.
    + rewrite strategy_basic by lia.
      do 6 eexists. split; [reflexivity |].
      split; [repeat split; reflexivity |]. split; [repeat split; reflexivity |].
      split; [reflexivity |]. split; [reflexivity |]. split; [reflexivity |].
      split; [reflexivity |].
      destruct (0 <? length buffer)%nat; lia.
Qed.

End DecoderEffects.

Section DecoderRun.
Import BleManager.

Lemma session_fields w1 w :
  session w1 = session w ->
  platform w1 = platform w ∧ timers w1 = timers w ∧ sensors w1 = sensors w
  ∧ dataOut w1 = dataOut w ∧ connectionOut w1 = connectionOut w
  ∧ locationOut w1 = locationOut w
  ∧ connectedDevice (ble w1) = connectedDevice (ble w)
  ∧ dataCallback (ble w1) = dataCallback (ble w)
  ∧ connectionCallback (ble w1) = connectionCallback (ble w)
  ∧ customSettings (ble w1) = customSettings (ble w)
  ∧ mockData (ble w1) = mockData (ble w)
  ∧ sensorFallbackEnabled (ble w1) = sensorFallbackEnabled (ble w)
  ∧ mockDataEnabled (ble w1) = mockDataEnabled (ble w)
  ∧ cachedDataEnabled (ble w1) = cachedDataEnabled (ble w)
  ∧ lastKnownData (ble w1) = lastKnownData (ble w)
  ∧ mockDataInterval (ble w1) = mockDataInterval (ble w)
  ∧ gpsSubscription (ble w1) = gpsSubscription (ble w)
  ∧ accelerometerSubscription (ble w1) = accelerometerSubscription (ble w).
Proof. unfold session. intros H. injection H. intros. repeat split; assumption. Qed.

(** The whole effect of decoding a buffer of any length but ten. *)
Lemma decode_effect buffer w :
  length buffer ≠ 10 ->
  exists (data : gmap string jsval) speed gear rpm fuel,
    let final := with_estimates (random (platform w)) (draws w) data in
    let w' := snd (parseIncomingData buffer w) in
    decodes buffer w final
    ∧ (data !! "tripA" = None ∧ data !! "tripB" = None
       ∧ data !! "afe" = None ∧ data !! "bfe" = None ∧ data !! "timestamp" = None)
    ∧ (data !! "speed" = Some (int speed) ∧ data !! "gear" = Some (int gear)
       ∧ data !! "rpm" = Some (int rpm) ∧ data !! "fuel" = Some (int fuel))
    ∧ ((0 <= speed <= 255)%Z ∧ (1 <= gear <= 255)%Z
       ∧ (0 <= rpm <= if (10 <=? length buffer)%nat then 655350 else 3276750)%Z
       ∧ (0 <= fuel <= 255)%Z)
    ∧ draws w' = (4 + draws w)%nat
    ∧ platform w' = platform w
    ∧ asyncStorage w'
      = (if cachedDataEnabled (ble w) then
           match storageFault (platform w) with
           | None => <["yezdi_cached_data" := JsonText (JObj final)]> (asyncStorage w)
           | Some _ => asyncStorage w
           end
         else asyncStorage w).
Proof.
  intros Hlen.
  destruct (strategy_fields buffer
              (snd (log "INFO" [Txt "Received BLE data: "; Hex buffer] w)) Hlen)
    as (data & w1 & speed & gear & rpm & fuel & Hrun & Hkeys & Hframe & Hfields).
  destruct Hkeys as (HA & HB & Ha & Hb & Ht).
  destruct Hframe as (Hsession & Hdraws & Hstore).
  apply session_fields in Hsession. simpl in Hdraws, Hstore.
  destruct Hsession as (Hp & _ & _ & Hout & _ & _ & _ & Hcb & _ & _ & _ & _ & _ & Hce & _).
  simpl in Hp, Hout, Hcb, Hce.
  destruct (parse_try_effect buffer w data w1 Hrun HA HB Ha Hb)
    as (w' & Htry & Hlast & Hemit & Hd & Hp' & Hs).
  rewrite Hp, Hdraws in Hlast, Hemit, Hs. rewrite Hcb, Hout in Hemit.
  rewrite Hdraws in Hd. rewrite Hce, Hstore in Hs.
  exists data, speed, gear, rpm, fuel. cbv zeta.
  unfold decodes, emits, parseIncomingData, try_catch. rewrite Htry. cbn [fst snd].
  split; [repeat split; assumption |].
  split; [repeat split; assumption |].
  destruct Hfields as (F1 & F2 & F3 & F4 & B).
  split; [repeat split; assumption |].
  split; [exact B |]. split; [assumption |]. split; [congruence | assumption].
Qed.

End DecoderRun.

(** X4.  Whatever the bytes of a buffer of any length but ten, the record
    the decoder emits has a speed from 0 to 255, a gear from 1 to 255, a
    fuel level from 0 to 255 (not capped at 100) and an engine speed from 0
    to 655350 in the full decode and to 3276750 in the shorter ones. *)
Theorem decoded_ranges (buffer : list byte) (w : World) (Hlen : length buffer ≠ 10) :
  exists data speed gear rpm fuel,
    decodes buffer w data
    ∧ data !! "speed" = Some (int speed) ∧ (0 <= speed <= 255)%Z
    ∧ data !! "gear" = Some (int gear) ∧ (1 <= gear <= 255)%Z
    ∧ data !! "rpm" = Some (int rpm)
    ∧ (0 <= rpm <= if (10 <=? length buffer)%nat then 655350 else 3276750)%Z
    ∧ data !! "fuel" = Some (int fuel) ∧ (0 <= fuel <= 255)%Z.
Proof.
  destruct (decode_effect buffer w Hlen)
    as (data & speed & gear & rpm & fuel & Hdec & _ & (F1 & F2 & F3 & F4) & (B1 & B2 & B3 & B4) & _).
  eexists _, speed, gear, rpm, fuel. split; [exact Hdec |].
  rewrite !with_estimates_lookup by done. repeat split; first [assumption | lia].
Qed.

Lemma decoded_ranges_witness :
  let buffer := Buffer.of_list [255; 255; 255; 255; 255; 0; 0; 0; 0; 0; 0]%Z in
  length buffer ≠ 10
  ∧ exists data speed gear rpm fuel,
      decodes buffer listening data
      ∧ data !! "speed" = Some (int speed) ∧ (0 <= speed <= 255)%Z
      ∧ data !! "gear" = Some (int gear) ∧ (1 <= gear <= 255)%Z
      ∧ data !! "rpm" = Some (int rpm)
      ∧ (0 <= rpm <= if (10 <=? length buffer)%nat then 655350 else 3276750)%Z
      ∧ data !! "fuel" = Some (int fuel) ∧ (0 <= fuel <= 255)%Z.
Proof.
  intros buffer. split; [vm_compute; discriminate |].
  exact (decoded_ranges buffer listening ltac:(vm_compute; discriminate)).
Defined.

(** A buffer of ten bytes, on which the decode fails, leaves the store and
    the last known data as they are. *)
Lemma parse_ten_effect buffer w :
  length buffer = 10 ->
  asyncStorage (snd (BleManager.parseIncomingData buffer w)) = asyncStorage w
  ∧ lastKnownData (ble (snd (BleManager.parseIncomingData buffer w)))
    = lastKnownData (ble w).
Proof.
  intros Hten. unfold BleManager.parseIncomingData, try_catch.
  rewrite parse_try_ten by exact Hten. unfold BleManager.parse_catch.
  rewrite (bind_Return (BleManager.log _ _) _ _ tt _ (log_run _ _ _)).
  rewrite call_dataCallback_run. simpl.
  destruct (dataCallback (ble w)); split; reflexivity.
Qed.

(** With caching disabled the decoder leaves the store as it is. *)
Lemma parse_cache_off buffer w :
  cachedDataEnabled (ble w) = false ->
  asyncStorage (snd (BleManager.parseIncomingData buffer w)) = asyncStorage w.
Proof.
  intros Hoff. destruct (Nat.eq_dec (length buffer) 10) as [Hten | Hlen].
  - exact (proj1 (parse_ten_effect buffer w Hten)).
  - destruct (decode_effect buffer w Hlen)
      as (data & speed & gear & rpm & fuel & _ & _ & _ & _ & _ & _ & Hstore).
    rewrite Hstore, Hoff. reflexivity.
Qed.

(** X5.  The only thing [parseIncomingData] writes to the store is the
    record it decoded, under the key of the cached data, when caching is
    enabled and the store accepts the write; the fallback record of a
    failed decode is never cached and leaves the last known data alone. *)
Theorem decoder_store (buffer : list byte) (w : World) :
  let w' := snd (BleManager.parseIncomingData buffer w) in
  asyncStorage w'
  = (if cachedDataEnabled (ble w) && negb (length buffer =? 10)%nat then
       match storageFault (platform w) with
       | None => <["yezdi_cached_data" := JsonText (lastKnownData (ble w'))]> (asyncStorage w)
       | Some _ => asyncStorage w
       end
     else asyncStorage w)
  ∧ (length buffer = 10 -> lastKnownData (ble w') = lastKnownData (ble w)).
Proof.
  intros w'. unfold w'.
  destruct (Nat.eqb_spec (length buffer) 10) as [Hten | Hlen].
  - rewrite andb_false_r.
    destruct (parse_ten_effect buffer w Hten) as [Hstore Hlast].
    split; [exact Hstore | intros _; exact Hlast].
  - rewrite andb_true_r. split; [| intros Hten; contradiction].
    destruct (decode_effect buffer w Hlen)
      as (data & speed & gear & rpm & fuel & Hdec & _ & _ & _ & _ & _ & Hstore).
    destruct Hdec as [_ Hlast]. rewrite Hlast. exact Hstore.
Qed.

Section Reload.
Import BleManager.

(** What [loadCachedSettings] restores, by the content of the store. *)
Lemma loadCachedSettings_effect w :
  let w' := snd (loadCachedSettings w) in
  let snapshot := asyncStorage w !! "yezdi_cached_data" in
  let settings := asyncStorage w !! "yezdi_custom_settings" in
  fst (loadCachedSettings w) = Return tt
  ∧ asyncStorage w' = asyncStorage w
  ∧ lastKnownData (ble w')
    = match storageFault (platform w), snapshot with
      | None, Some (JsonText data) => data
      | _, _ => lastKnownData (ble w)
      end
  ∧ customSettings (ble w')
    = match storageFault (platform w), snapshot, settings with
      | None, Some (RawText text), _ =>
          if String.eqb text "" then
            match settings with
            | Some (JsonText parsed) => spread parsed ∪ customSettings (ble w)
            | _ => customSettings (ble w)
            end
          else customSettings (ble w)
      | None, _, Some (JsonText parsed) => spread parsed ∪ customSettings (ble w)
      | _, _, _ => customSettings (ble w)
      end.
Proof.
  cbv zeta. unfold loadCachedSettings, try_catch, AsyncStorage_getItem, mbind, M_bind.
  destruct (storageFault (platform w)) as [e |] eqn:Hfault; [repeat split; reflexivity |].
  destruct (asyncStorage w !! "yezdi_cached_data") as [[data | text] |] eqn:Hsnap; simpl;
    rewrite ?Hfault; simpl.
  - destruct (asyncStorage w !! "yezdi_custom_settings") as [[parsed | text'] |]; simpl;
      [repeat split; reflexivity | | repeat split; reflexivity].
    destruct (String.eqb text' ""); repeat split; reflexivity.
  - destruct (String.eqb text ""); simpl; rewrite ?Hfault; simpl;
      [| repeat split; reflexivity].
    destruct (asyncStorage w !! "yezdi_custom_settings") as [[parsed | text'] |]; simpl;
      [repeat split; reflexivity | | repeat split; reflexivity].
    destruct (String.eqb text' ""); repeat split; reflexivity.
  - destruct (asyncStorage w !! "yezdi_custom_settings") as [[parsed | text'] |]; simpl;
      [repeat split; reflexivity | | repeat split; reflexivity].
    destruct (String.eqb text' ""); repeat split; reflexivity.
Qed.

End Reload.

(** X6.  The record that the BLE manager caches after a decode carries no
    timestamp: [getCachedData] of the storage manager, which reads the same
    key, returns nothing for it at any time, while [loadCachedSettings] of a
    freshly constructed BLE manager restores it as the last known data,
    whatever its age. *)
Theorem ble_snapshot_never_fresh (ToNumber : jsval -> jsnum) (buffer : list byte) (w : World)
    (Hlen : length buffer ≠ 10)
    (Henabled : cachedDataEnabled (ble w) = true)
    (Hstore : storageFault (platform w) = None) :
  let w' := snd (BleManager.parseIncomingData buffer w) in
  exists data,
    decodes buffer w data
    ∧ asyncStorage w' !! "yezdi_cached_data" = Some (JsonText (JObj data))
    ∧ (forall t, fst (StorageManager.getCachedData ToNumber (set_now t w')) = Return JNull)
    ∧ (forall t, lastKnownData (ble (snd (BleManager.loadCachedSettings
                   (set_now t (set_ble new_YezdiBleManager w'))))) = JObj data).
Proof.
  intros w'.
  destruct (decode_effect buffer w Hlen)
    as (data & speed & gear & rpm & fuel & Hdec & Hkeys & _ & _ & _ & Hp & Hs).
  fold w' in Hs, Hp. rewrite Henabled, Hstore in Hs.
  set (final := with_estimates (random (platform w)) (draws w) data) in *.
  exists final. split; [exact Hdec |].
  assert (Hget : asyncStorage w' !! "yezdi_cached_data" = Some (JsonText (JObj final)))
    by (rewrite Hs; apply lookup_insert_eq).
  split; [exact Hget |]. split.
  - intros t. unfold StorageManager.getCachedData, mbind, M_bind.
    rewrite getItem_run. simpl. rewrite Hp, Hstore.
    unfold StorageManager.CACHED_DATA. rewrite Hget. simpl.
    unfold final. rewrite with_estimates_lookup by done.
    rewrite (proj2 (proj2 (proj2 (proj2 Hkeys)))). reflexivity.
  - intros t.
    destruct (loadCachedSettings_effect (set_now t (set_ble new_YezdiBleManager w')))
      as (_ & _ & Hlast & _).
    rewrite Hlast. simpl. rewrite Hp, Hstore, Hget. reflexivity.
Qed.

Lemma ble_snapshot_never_fresh_witness :
  let buffer := Buffer.of_list [45; 3; 2; 88]%Z in
  let w' := snd (BleManager.parseIncomingData buffer listening) in
  length buffer ≠ 10
  ∧ cachedDataEnabled (ble listening) = true
  ∧ storageFault (platform listening) = None
  ∧ fst (StorageManager.getCachedData ToNumber_of_numbers (set_now 1700000000001 w'))
    = Return JNull
  ∧ exists data,
      asyncStorage w' !! "yezdi_cached_data" = Some (JsonText (JObj data))
      ∧ lastKnownData (ble (snd (BleManager.loadCachedSettings
                                   (set_now 1800000000000 (set_ble new_YezdiBleManager w')))))
        = JObj data.
Proof.
  intros buffer w'.
  split; [vm_compute; discriminate |]. split; [reflexivity |]. split; [reflexivity |].
  destruct (ble_snapshot_never_fresh ToNumber_of_numbers buffer listening
              ltac:(vm_compute; discriminate) eq_refl eq_refl)
    as (data & _ & Hstored & Hnull & Hload).
  split; [exact (Hnull 1700000000001%Z) |].
  exists data. split; [exact Hstored | exact (Hload 1800000000000%Z)].
Defined.

(** ** Settings *)

(** X7.  [loadCachedSettings] never throws and never writes to the store.
    When the store rejects the read, it logs the error and loads nothing.
    When the cached record is not JSON, the custom settings are not loaded
    either; when only the stored settings are not JSON, the cached record is
    loaded all the same. *)
Theorem load_cached_settings_failures (w : World) :
  let w' := snd (BleManager.loadCachedSettings w) in
  let snapshot := asyncStorage w !! "yezdi_cached_data" in
  let settings := asyncStorage w !! "yezdi_custom_settings" in
  fst (BleManager.loadCachedSettings w) = Return tt
  ∧ asyncStorage w' = asyncStorage w
  ∧ (forall e, storageFault (platform w) = Some e ->
       lastKnownData (ble w') = lastKnownData (ble w)
       ∧ customSettings (ble w') = customSettings (ble w)
       ∧ last (debugLogs (ble w'))
         = Some {| timestamp := now w; level := "ERROR";
                   msg := Txt "Failed to load cached settings: " :: error_message e |})
  ∧ (storageFault (platform w) = None ->
       (snapshot = None ∧ settings = None -> ble w' = ble w)
       ∧ (forall text, snapshot = Some (RawText text) -> text ≠ "" ->
            lastKnownData (ble w') = lastKnownData (ble w)
            ∧ customSettings (ble w') = customSettings (ble w))
       ∧ (forall data text, snapshot = Some (JsonText data) ->
            settings = Some (RawText text) ->
            lastKnownData (ble w') = data
            ∧ customSettings (ble w') = customSettings (ble w))
       ∧ (forall data, snapshot = Some (JsonText data) -> settings = None ->
            lastKnownData (ble w') = data
            ∧ customSettings (ble w') = customSettings (ble w))
       ∧ (forall parsed, snapshot = None -> settings = Some (JsonText parsed) ->
            lastKnownData (ble w') = lastKnownData (ble w)
            ∧ customSettings (ble w') = spread parsed ∪ customSettings (ble w))).
Proof.
  intros w' snapshot settings.
  destruct (loadCachedSettings_effect w) as (Hret & Hstore & Hlast & Hset).
  fold w' snapshot settings in Hstore, Hlast, Hset.
  split; [exact Hret |]. split; [exact Hstore |]. split.
  - intros e He. rewrite He in Hlast, Hset. split; [exact Hlast |]. split; [exact Hset |].
    unfold w', BleManager.loadCachedSettings, try_catch, AsyncStorage_getItem, mbind, M_bind.
    rewrite He. apply log_last.
  - intros Hok. rewrite Hok in Hlast, Hset. repeat split.
    + intros [Hs1 Hs2].
      unfold w', BleManager.loadCachedSettings, try_catch, AsyncStorage_getItem, mbind, M_bind.
      rewrite Hok. fold snapshot. rewrite Hs1. simpl. rewrite Hok. fold settings.
      rewrite Hs2. reflexivity.
    + rewrite Hlast, H. reflexivity.
    + rewrite Hset, H. apply String.eqb_neq in H0. rewrite H0. reflexivity.
    + rewrite Hlast, H. reflexivity.
    + rewrite Hset, H, H0. reflexivity.
    + rewrite Hlast, H. reflexivity.
    + rewrite Hset, H, H0. reflexivity.
    + rewrite Hlast, H. reflexivity.
    + rewrite Hset, H, H0. reflexivity.
Qed.

(** X8.  [updateCustomSettings] merges the given settings over the current
    ones (given keys win, the others stay) and stores the result; a freshly
    constructed BLE manager that loads from that store has every merged
    setting again, provided the cached record in the store is not broken.
    The custom BLE settings of the storage manager, kept under another key,
    are not affected. *)
Theorem settings_round_trip (settings : jsval) (w : World)
    (Hstore : storageFault (platform w) = None)
    (Hsnapshot : forall text,
       asyncStorage w !! "yezdi_cached_data" = Some (RawText text) -> text = "") :
  let w' := snd (BleManager.updateCustomSettings settings w) in
  let merged := spread settings ∪ customSettings (ble w) in
  fst (BleManager.updateCustomSettings settings w) = Return tt
  ∧ customSettings (ble w') = merged
  ∧ (forall k v, spread settings !! k = Some v -> merged !! k = Some v)
  ∧ (forall k, spread settings !! k = None -> merged !! k = customSettings (ble w) !! k)
  ∧ asyncStorage w' = <["yezdi_custom_settings" := JsonText (JObj merged)]> (asyncStorage w)
  ∧ (forall t k v, merged !! k = Some v ->
       customSettings (ble (snd (BleManager.loadCachedSettings
                                   (set_now t (set_ble new_YezdiBleManager w'))))) !! k
       = Some v)
  ∧ fst (StorageManager.getCustomBLESettings w') = fst (StorageManager.getCustomBLESettings w).
Proof.
  intros w' merged.
  assert (Hrun : BleManager.updateCustomSettings settings w
    = (Return tt,
       snd (BleManager.log "INFO" [Txt "Updated custom BLE settings"]
              (set_asyncStorage
                 (<["yezdi_custom_settings" := JsonText (JObj merged)]> (asyncStorage w))
                 (set_ble (set_customSettings merged (ble w)) w))))).
  { unfold BleManager.updateCustomSettings, try_catch, AsyncStorage_setItem.
    munfold. simpl. rewrite Hstore. reflexivity. }
  unfold w'. rewrite Hrun. cbn [fst snd].
  split; [reflexivity |]. split; [reflexivity |]. split; [| split; [| split; [| split]]].
  - intros k v Hk. apply lookup_union_Some_l. exact Hk.
  - intros k Hk. apply lookup_union_r. exact Hk.
  - reflexivity.
  - intros t k v Hk.
    match goal with
    | |- context [BleManager.loadCachedSettings ?w0] =>
        destruct (loadCachedSettings_effect w0) as (_ & _ & _ & Hset)
    end.
    rewrite Hset. simpl. rewrite Hstore.
    rewrite lookup_insert_ne by done. rewrite lookup_insert_eq.
    destruct (asyncStorage w !! "yezdi_cached_data") as [[data | text] |] eqn:Hsnap.
    + apply lookup_union_Some_l. exact Hk.
    + rewrite (Hsnapshot text eq_refl). simpl. apply lookup_union_Some_l. exact Hk.
    + apply lookup_union_Some_l. exact Hk.
  - unfold StorageManager.getCustomBLESettings. rewrite !getItem_run. simpl.
    rewrite Hstore. rewrite lookup_insert_ne by done.
    destruct (asyncStorage w !! "yezdi_custom_ble") as [[v | s] |]; reflexivity.
Qed.

Lemma settings_round_trip_witness :
  let settings := JObj (<["authKey" := JStr "secret"]> ∅) in
  let w' := snd (BleManager.updateCustomSettings settings listening) in
  storageFault (platform listening) = None
  ∧ customSettings (ble w') !! "authKey" = Some (JStr "secret")
  ∧ customSettings (ble w') !! "serviceUUID" = Some (JStr "")
  ∧ customSettings (ble (snd (BleManager.loadCachedSettings
                                (set_now 0 (set_ble new_YezdiBleManager w'))))) !! "authKey"
    = Some (JStr "secret").
Proof.
  intros settings w'.
  destruct (settings_round_trip settings listening eq_refl
              ltac:(intros text H; vm_compute in H; discriminate))
    as (_ & Hmerged & _ & _ & _ & Hload & _).
  fold w' in Hmerged, Hload.
  split; [reflexivity |]. rewrite Hmerged.
  split; [reflexivity |]. split; [reflexivity |].
  apply Hload. reflexivity.
Defined.

(** ** The log at large *)

(** X9.  After [clearDebugLogs] the log is not empty: it holds the one
    entry that records the clearing, and the next entries (up to 499) follow
    it in order. *)
Theorem log_cleared (w : World) :
  let w' := snd (BleManager.clearDebugLogs w) in
  fst (BleManager.clearDebugLogs w) = Return tt
  ∧ fst (BleManager.getDebugLogs w')
    = Return [{| timestamp := now w; level := "INFO"; msg := [Txt "Debug logs cleared"] |}]
  ∧ (forall calls, length calls <= 499 ->
       debugLogs (ble (log_all calls w'))
       = {| timestamp := now w; level := "INFO"; msg := [Txt "Debug logs cleared"] |}
         :: (entry_of <$> calls)).
Proof.
  intros w'. split; [reflexivity |]. split; [reflexivity |].
  intros calls Hlen. destruct calls as [| call calls]; [reflexivity |].
  rewrite log_all_debugLogs by discriminate.
  change (debugLogs (ble w'))
    with [{| timestamp := now w; level := "INFO"; msg := [Txt "Debug logs cleared"] |}].
  unfold slice_last. simpl length. rewrite length_fmap.
  simpl in Hlen. replace (S (S (length calls)) - 500) with 0 by lia. reflexivity.
Qed.

Lemma log_cleared_witness :
  debugLogs (ble (log_all [(5%Z, "WARN", [Txt "entry"])]
                    (snd (BleManager.clearDebugLogs (set_now 4 listening)))))
  = [{| timestamp := 4; level := "INFO"; msg := [Txt "Debug logs cleared"] |};
     {| timestamp := 5; level := "WARN"; msg := [Txt "entry"] |}].
Proof.
  exact (proj2 (proj2 (log_cleared (set_now 4 listening)))
           [(5%Z, "WARN", [Txt "entry"])] ltac:(simpl; lia)).
Defined.

(** X10.  From any log within the capacity and for any number of calls of
    [log], the log afterwards is the last 500 entries of the old log
    followed by the new entries, in their order, and it ends with the entry
    of the last call. *)
Theorem log_sliding_window (calls : list (Z * string * message)) (w : World)
    (Hcap : length (debugLogs (ble w)) <= 500) :
  let history := debugLogs (ble w) ++ (entry_of <$> calls) in
  let logs := debugLogs (ble (log_all calls w)) in
  logs = slice_last 500 history
  ∧ length logs = Nat.min 500 (length history)
  ∧ (forall i, logs !! i = history !! (length history - length logs + i))
  ∧ (forall call, last calls = Some call -> last logs = Some (entry_of call)).
Proof.
  intros history logs.
  assert (Hlogs : logs = slice_last 500 history).
  { unfold logs, history. destruct calls as [| call calls].
    - simpl. rewrite app_nil_r. unfold slice_last.
      replace (length (debugLogs (ble w)) - 500) with 0 by lia. reflexivity.
    - apply log_all_debugLogs. discriminate. }
  assert (Hlen : length logs = Nat.min 500 (length history))
    by (rewrite Hlogs; apply slice_last_length).
  split; [exact Hlogs |]. split; [exact Hlen |]. split.
  - intros i. rewrite Hlen. rewrite Hlogs. unfold slice_last. rewrite lookup_drop.
    f_equal. lia.
  - intros call Hcall. rewrite Hlogs. unfold slice_last, history.
    destruct calls as [| c calls _] using rev_ind; [discriminate |].
    rewrite last_snoc in Hcall. injection Hcall as ->.
    rewrite fmap_app, app_assoc. simpl.
    rewrite !length_app. simpl.
    rewrite drop_app_le by (rewrite length_app; lia).
    apply last_snoc.
Qed.

Lemma log_sliding_window_witness :
  let calls := (fun i => (Z.of_nat i, "INFO", [Txt "entry"])) <$> seq 0 3 in
  length (debugLogs (ble listening)) <= 500
  ∧ debugLogs (ble (log_all calls listening)) = entry_of <$> calls.
Proof.
  intros calls. split; [simpl; lia |].
  exact (proj1 (log_sliding_window calls listening ltac:(simpl; lia))).
Defined.

(** ** The generator at large *)

Section GeneratorRuns.
Import BleManager.

Lemma tick_publish_effect w :
  let d := mockData (ble w) in
  let w' := snd (tick_publish w) in
  fst (tick_publish w) = Return tt
  ∧ mockData (ble w') = d ∧ draws w' = draws w ∧ platform w' = platform w
  ∧ dataCallback (ble w') = dataCallback (ble w)
  ∧ lastKnownData (ble w') = mockObject d
  ∧ dataOut w' = (if dataCallback (ble w) then dataOut w ++ [mockObject d] else dataOut w).
Proof.
  cbv zeta. unfold tick_publish, the_mockData.
  rewrite (bind_Return (gets _) _ w _ w eq_refl).
  rewrite (bind_Return (modify_ble _) _ _ tt _ eq_refl).
  rewrite (bind_Return _ _ _ _ _ (cacheData_effect _ _)).
  rewrite call_dataCallback_run. unfold log. munfold. simpl.
  destruct (cachedDataEnabled (ble w)), (storageFault (platform w)); simpl;
    destruct (dataCallback (ble w)) eqn:Hcb; simpl; rewrite ?Hcb; repeat split; reflexivity.
Qed.

Lemma parked_tick w :
  parked (mockData (ble w)) -> mockTick w = tick_publish w.
Proof.
  intros (Hs & Hr & Hf).
  apply Qltb_ge in Hs, Hr, Hf.
  assert (Hg : Qltb 10 (md_speed (mockData (ble w))) = false).
  { apply Qltb_ge. apply Qltb_ge in Hs. eapply Qle_trans; [exact Hs |]. discriminate. }
  unfold mockTick.
  assert (H1 : tick_speed w = (Return tt, w))
    by (unfold tick_speed, the_mockData; munfold; rewrite Hs; reflexivity).
  assert (H2 : tick_rpm w = (Return tt, w))
    by (unfold tick_rpm, the_mockData; munfold; rewrite Hr; reflexivity).
  assert (H3 : tick_fuel w = (Return tt, w))
    by (unfold tick_fuel, the_mockData; munfold; rewrite Hf; reflexivity).
  assert (H4 : tick_gear w = (Return tt, w))
    by (unfold tick_gear, the_mockData; munfold; rewrite Hg; reflexivity).
  rewrite (bind_Return _ _ _ _ _ H1), (bind_Return _ _ _ _ _ H2),
    (bind_Return _ _ _ _ _ H3), (bind_Return _ _ _ _ _ H4).
  reflexivity.
Qed.

End GeneratorRuns.

(** X11.  While the mock data has no speed, no engine speed and no fuel,
    as the constructor leaves it, the generator changes nothing: after any
    number of ticks the mock data is the same, no random number was drawn,
    and the data callback has received the same record once per tick. *)
Theorem mock_generator_inert (w : World) (n : nat)
    (Hparked : parked (mockData (ble w))) :
  let d := mockData (ble w) in
  let w' := ticks n w in
  mockData (ble w') = d
  ∧ draws w' = draws w
  ∧ dataOut w'
    = dataOut w ++ (if dataCallback (ble w) then replicate n (BleManager.mockObject d) else [])
  ∧ (0 < n -> lastKnownData (ble w') = BleManager.mockObject d).
Proof.
  cbv zeta.
  assert (Hinv : mockData (ble (ticks n w)) = mockData (ble w)
                 ∧ draws (ticks n w) = draws w
                 ∧ dataCallback (ble (ticks n w)) = dataCallback (ble w)
                 ∧ dataOut (ticks n w)
                   = dataOut w ++ (if dataCallback (ble w)
                                   then replicate n (BleManager.mockObject (mockData (ble w)))
                                   else [])
                 ∧ (0 < n -> lastKnownData (ble (ticks n w))
                             = BleManager.mockObject (mockData (ble w)))).
  { induction n as [| n IH].
    - simpl. repeat split; try reflexivity.
      + destruct (dataCallback (ble w)); rewrite app_nil_r; reflexivity.
      + intros H. inversion H.
    - destruct IH as (Hd & Hdr & Hcb & Hout & _).
      change (ticks (S n) w) with (snd (BleManager.mockTick (ticks n w))).
      rewrite parked_tick by (rewrite Hd; exact Hparked).
      destruct (tick_publish_effect (ticks n w)) as (_ & Kd & Kdr & _ & Kcb & Klast & Kout).
      rewrite Kd, Kdr, Kcb, Klast, Kout, Hd, Hdr, Hcb, Hout.
      repeat split; try reflexivity.
      destruct (dataCallback (ble w)); [| reflexivity].
      rewrite <- app_assoc. f_equal.
      change (replicate n ?x ++ [?x]) with (replicate n x ++ replicate 1 x).
      rewrite <- replicate_add. f_equal. lia. }
  destruct Hinv as (H1 & H2 & _ & H3 & H4). repeat split; assumption.
Qed.

Lemma mock_generator_inert_witness :
  parked (mockData (ble listening))
  ∧ mockData (ble (ticks 3 listening)) = mockData new_YezdiBleManager
  ∧ draws (ticks 3 listening) = 0
  ∧ dataOut (ticks 3 listening)
    = replicate 3 (BleManager.mockObject (mockData new_YezdiBleManager)).
Proof.
  assert (Hparked : parked (mockData (ble listening)))
    by (repeat split; discriminate).
  destruct (mock_generator_inert listening 3 Hparked) as (H1 & H2 & H3 & _).
  split; [exact Hparked |]. split; [exact H1 |]. split; [exact H2 |]. exact H3.
Defined.

Section GeneratorBounds.
Import BleManager.

Lemma platform_tick_speed : keeps platform tick_speed.
Proof. unfold tick_speed, the_mockData, modify_mockData. keeps_auto. Qed.
Lemma platform_tick_rpm : keeps platform tick_rpm.
Proof. unfold tick_rpm, the_mockData, modify_mockData. keeps_auto. Qed.
Lemma platform_tick_fuel : keeps platform tick_fuel.
Proof. unfold tick_fuel, the_mockData, modify_mockData. keeps_auto. Qed.
Lemma platform_tick_gear : keeps platform tick_gear.
Proof. unfold tick_gear, the_mockData, modify_mockData. keeps_auto. Qed.
Lemma platform_cacheData data : keeps platform (cacheData data).
Proof. unfold cacheData. keeps_auto. Qed.
Lemma platform_mockTick : keeps platform mockTick.
Proof.
  unfold mockTick, tick_publish.
  repeat (apply keeps_bind; [| intros ?]);
    first [ apply platform_tick_speed | apply platform_tick_rpm | apply platform_tick_fuel
          | apply platform_tick_gear | apply platform_cacheData
          | unfold the_mockData; keeps_auto ].
Qed.

Lemma platform_ticks n w : platform (ticks n w) = platform w.
Proof.
  induction n as [| n IH]; [reflexivity |].
  change (ticks (S n) w) with (snd (mockTick (ticks n w))).
  rewrite platform_mockTick. exact IH.
Qed.

(** The three quantities after one tick, from the random draws it makes. *)
Lemma mockTick_quantities w :
  let d := mockData (ble w) in
  let d' := mockData (ble (snd (mockTick w))) in
  let r := random (platform w) in
  exists i j k,
    md_speed d' = (if Qltb 0 (md_speed d)
                   then Qmax 0 (md_speed d + (r i - (1 # 2)) * 5)%Q else md_speed d)
    ∧ md_rpm d' = (if Qltb 0 (md_rpm d)
                   then Qmax 0 (md_rpm d + (r j - (1 # 2)) * 200)%Q else md_rpm d)
    ∧ md_fuel d' = (if Qltb 0 (md_fuel d)
                    then Qmax 0 (md_fuel d - r k * (5 # 100))%Q else md_fuel d).
Proof.
  intros d d' r. unfold d', r.
  rewrite (proj2 (mockTick_run w)).
  set (w1 := snd (tick_speed w)). set (w2 := snd (tick_rpm w1)).
  set (w3 := snd (tick_fuel w2)).
  destruct (tick_speed_run w) as [_ H1]. fold w1 in H1.
  destruct (tick_rpm_run w1) as [_ H2]. fold w2 in H2.
  destruct (tick_fuel_run w2) as [_ H3]. fold w3 in H3.
  destruct (tick_gear_run w3) as [_ H4].
  assert (P1 : platform w1 = platform w) by apply platform_tick_speed.
  assert (P2 : platform w2 = platform w)
    by (unfold w2; rewrite platform_tick_rpm; exact P1).
  rewrite P1 in H2. rewrite P2 in H3.
  exists (draws w), (draws w1), (draws w2).
  rewrite H4, H3, H2, H1. fold d.
  destruct (Qltb 0 (md_speed d));
    cbn [md_speed md_rpm md_fuel md_gear set_md_speed set_md_rpm set_md_fuel set_md_gear];
    destruct (Qltb 0 (md_rpm d));
    cbn [md_speed md_rpm md_fuel md_gear set_md_speed set_md_rpm set_md_fuel set_md_gear];
    destruct (Qltb 0 (md_fuel d));
    cbn [md_speed md_rpm md_fuel md_gear set_md_speed set_md_rpm set_md_fuel set_md_gear];
    match goal with
    | |- context [if ?c && ?c' then _ else _] => destruct (c && c')
    end;
    repeat split; reflexivity.
Qed.

Lemma nudge_bounds (x delta lo hi : Q) :
  (0 <= x)%Q -> (lo <= delta)%Q -> (delta <= hi)%Q -> (lo <= 0)%Q -> (0 <= hi)%Q ->
  (0 <= Qmax 0 (x + delta))%Q
  ∧ (x + lo <= Qmax 0 (x + delta))%Q
  ∧ (Qmax 0 (x + delta) <= x + hi)%Q.
Proof.
  intros Hx Hlo Hhi Hl Hh.
  destruct (Q.max_spec 0 (x + delta)) as [[Hlt Heq] | [Hle Heq]]; rewrite Heq;
    repeat split; lra.
Qed.

End GeneratorBounds.

(** X12.  With a random source in [0, 1), a tick of the generator keeps
    the speed, the engine speed and the fuel level non-negative and never
    raises the fuel level, over any number of ticks. *)
Theorem mock_tick_bounds (w : World)
    (Hfair : fair (platform w)) (Hplausible : plausible (mockData (ble w))) :
  let d := mockData (ble w) in
  let d' := mockData (ble (snd (BleManager.mockTick w))) in
  plausible d'
  ∧ (md_fuel d' <= md_fuel d)%Q
  ∧ (forall n, plausible (mockData (ble (ticks n w)))
               ∧ (md_fuel (mockData (ble (ticks n w))) <= md_fuel d)%Q).
Proof.
  intros d d'.
  assert (Hstep : forall w0, fair (platform w0) -> plausible (mockData (ble w0)) ->
    let d0 := mockData (ble w0) in
    let d1 := mockData (ble (snd (BleManager.mockTick w0))) in
    plausible d1 ∧ (md_fuel d1 <= md_fuel d0)%Q).
  { intros w0 Hf (Hs & Hr & Hfu). cbv zeta.
    destruct (mockTick_quantities w0) as (i & j & k & Es & Er & Ef).
    destruct (Hf i) as [Hi0 Hi1]. destruct (Hf j) as [Hj0 Hj1]. destruct (Hf k) as [Hk0 Hk1].
    set (s := md_speed (mockData (ble w0))) in *.
    set (r := md_rpm (mockData (ble w0))) in *.
    set (f := md_fuel (mockData (ble w0))) in *.
    unfold plausible. rewrite Es, Er, Ef.
    destruct (nudge_bounds s ((random (platform w0) i - (1 # 2)) * 5) (- (5 # 2)) (5 # 2))
      as (S1 & S2 & S3); try lra.
    destruct (nudge_bounds r ((random (platform w0) j - (1 # 2)) * 200) (- 100) 100)
      as (R1 & R2 & R3); try lra.
    destruct (nudge_bounds f (- (random (platform w0) k * (5 # 100))) (- (5 # 100)) 0)
      as (F1 & F2 & F3); try lra.
    assert (Fe : (f - random (platform w0) k * (5 # 100)
                  == f + - (random (platform w0) k * (5 # 100)))%Q) by ring.
    rewrite <- Fe in F1, F2, F3.
    destruct (Qltb 0 s), (Qltb 0 r), (Qltb 0 f); repeat split; lra. }
  destruct (Hstep w Hfair Hplausible) as (H1 & H2).
  split; [exact H1 |]. split; [exact H2 |].
  induction n as [| n [IHp IHf]].
  - split; [exact Hplausible | apply Qle_refl].
  - change (ticks (S n) w) with (snd (BleManager.mockTick (ticks n w))).
    destruct (Hstep (ticks n w)) as (K1 & K4).
    + rewrite platform_ticks. exact Hfair.
    + exact IHp.
    + split; [exact K1 |]. eapply Qle_trans; [exact K4 | exact IHf].
Qed.

Lemma mock_tick_bounds_witness :
  let riding := set_md_speed 42 (set_md_rpm 3000 (set_md_fuel 80 (mockData (ble listening)))) in
  let w := set_ble (set_mockData riding (ble listening)) listening in
  fair (platform w) ∧ plausible (mockData (ble w))
  ∧ plausible (mockData (ble (snd (BleManager.mockTick w))))
  ∧ (md_fuel (mockData (ble (snd (BleManager.mockTick w)))) <= 80)%Q
  ∧ (md_fuel (mockData (ble (ticks 2 w))) <= 80)%Q.
Proof.
  intros riding w.
  assert (Hfair : fair (platform w))
    by (intros i; split; vm_compute; [discriminate | reflexivity]).
  assert (Hplausible : plausible (mockData (ble w)))
    by (repeat split; discriminate).
  destruct (mock_tick_bounds w Hfair Hplausible) as (Hp & Hf & Hn).
  split; [exact Hfair |]. split; [exact Hplausible |].
  split; [exact Hp |]. split; [exact Hf |]. exact (proj2 (Hn 2)).
Defined.

(** ** The sensor manager *)

(** X13.  [initialize] of the sensor manager succeeds exactly when the
    location permission is granted, and only then marks the manager as
    initialized; otherwise it rethrows ('Location permission denied', or
    the error of the request).  [startGPSTracking] throws 'SensorManager
    not initialized' before that, and after it subscribes unless the
    watcher fails; [stopGPSTracking] ends the subscription. *)
Theorem sensor_manager_gating (w : World) :
  let started := SensorManager.initialize w in
  (fst started = Return tt <-> locationRequest (platform w) = Return "granted")
  ∧ (fst started = Return tt -> isInitialized (sensors (snd started)) = true)
  ∧ (forall status, locationRequest (platform w) = Return status -> status ≠ "granted" ->
       fst started = Throw (Error [Txt "Location permission denied"])
       ∧ isInitialized (sensors (snd started)) = isInitialized (sensors w))
  ∧ (forall e, locationRequest (platform w) = Throw e ->
       fst started = Throw e
       ∧ isInitialized (sensors (snd started)) = isInitialized (sensors w))
  ∧ (isInitialized (sensors w) = false ->
       SensorManager.startGPSTracking w
       = (Throw (Error [Txt "SensorManager not initialized"]), w))
  ∧ (fst started = Return tt ->
       fst (SensorManager.startGPSTracking (snd started))
       = match watchPosition (platform w) with
         | Return _ => Return tt
         | Throw e => Throw e
         end
       ∧ locationSubscription (sensors (snd (SensorManager.startGPSTracking (snd started))))
         = match watchPosition (platform w) with
           | Return _ => true
           | Throw _ => locationSubscription (sensors w)
           end
       ∧ locationSubscription
           (sensors (snd (SensorManager.stopGPSTracking
                            (snd (SensorManager.startGPSTracking (snd started)))))) = false).
Proof.
  cbv zeta.
  unfold SensorManager.initialize, SensorManager.startGPSTracking,
    SensorManager.stopGPSTracking, try_catch,
    SensorManager.console_log, SensorManager.modify_sensors.
  munfold. simpl.
  destruct (locationRequest (platform w)) as [status | e] eqn:Hreq; simpl.
  - destruct (String.eqb_spec status "granted") as [-> | Hne]; simpl.
    + split; [split; reflexivity |]. split; [reflexivity |].
      split; [intros ? [= <-] Hne; contradiction |].
      split; [discriminate |]. split.
      * intros ->. reflexivity.
      * intros _. destruct (watchPosition (platform w)); simpl;
          destruct (locationSubscription (sensors w)) eqn:Hsub; simpl; rewrite ?Hsub;
          repeat split; reflexivity.
    + split; [split; [discriminate | intros [= ->]; contradiction] |].
      split; [discriminate |].
      split; [intros ? [= <-] _; split; reflexivity |].
      split; [discriminate |]. split; [| discriminate].
      intros ->. reflexivity.
  - split; [split; discriminate |]. split; [discriminate |].
    split; [discriminate |].
    split; [intros ? [= <-]; split; reflexivity |]. split; [| discriminate].
    intros ->. reflexivity.
Qed.

(** ** Scanning *)

Section ScanReports.
Import BleManager.

Variable toLowerCase : string -> string.


End ScanReports.


(** X15.  [startScanning] while a scan is running only logs a warning.
    Otherwise it marks the manager as scanning, or, when the subscription
    fails, unmarks it and rethrows.  [stopScanning] never throws, ends the
    scan, does nothing when there is none, and a scan can be started
    again after it.  The state listener starts the device scan exactly in
    the state 'PoweredOn' and only logs the other states. *)
Theorem scanning_start_stop (subscribed : Result unit) (w : World) :
  let started := BleManager.startScanning subscribed w in
  let stopped := BleManager.stopScanning w in
  (isScanning (ble w) = true ->
     fst started = Return tt
     ∧ session (snd started) = session w
     ∧ last (debugLogs (ble (snd started)))
       = Some {| timestamp := now w; level := "WARN"; msg := [Txt "Already scanning"] |})
  ∧ (isScanning (ble w) = false ->
       fst started = subscribed
       ∧ isScanning (ble (snd started))
         = match subscribed with Return _ => true | Throw _ => false end)
  ∧ fst stopped = Return tt
  ∧ isScanning (ble (snd stopped)) = false
  ∧ (isScanning (ble w) = false -> snd stopped = w)
  ∧ BleManager.stopScanning (snd stopped) = (Return tt, snd stopped)
  ∧ (forall again,
       isScanning (ble (snd (BleManager.startScanning again (snd stopped))))
       = match again with Return _ => true | Throw _ => false end)
  ∧ (forall state,
       fst (BleManager.onStateChange state w) = Return (String.eqb state "PoweredOn")
       ∧ session (snd (BleManager.onStateChange state w)) = session w).
Proof.
  cbv zeta.
  assert (Hstate : forall state,
            fst (BleManager.onStateChange state w) = Return (String.eqb state "PoweredOn")
            ∧ session (snd (BleManager.onStateChange state w)) = session w).
  { intros state. unfold BleManager.onStateChange.
    destruct (String.eqb state "PoweredOn"); split; reflexivity. }
  revert Hstate.
  unfold BleManager.startScanning, BleManager.stopScanning, try_catch.
  munfold. simpl. intros Hstate.
  destruct (isScanning (ble w)) eqn:Hscan; simpl.
  - split; [intros _; split; [reflexivity |]; split; [reflexivity | apply log_last] |].
    split; [discriminate |]. split; [reflexivity |]. split; [reflexivity |].
    split; [discriminate |]. split; [reflexivity |].
    split; [intros [[] | e]; reflexivity | exact Hstate].
  - split; [discriminate |]. split.
    + intros _. destruct subscribed as [[] | e]; split; reflexivity.
    + split; [reflexivity |]. split; [exact Hscan |]. split; [reflexivity |].
      rewrite Hscan. split; [reflexivity |].
      split; [intros [[] | e]; reflexivity | exact Hstate].
Qed.

(** ** Connecting and disconnecting *)

Section Loops.

Lemma for_each_run {A} (l : list A) (body : A -> M unit) w :
  (forall x w0, x ∈ l -> fst (body x w0) = Return tt) ->
  for_each l body w = (Return tt, foldl (fun w0 x => snd (body x w0)) w l).
Proof.
  revert w. induction l as [| x l IH]; intros w Hbody; [reflexivity |].
  simpl. rewrite (bind_Return _ _ _ _ _ (total_run _ _ (Hbody x w ltac:(left)))).
  apply IH. intros y w0 Hy. apply Hbody. right. exact Hy.
Qed.

Lemma foldl_appends {A B} (obs : World -> list B) (step : World -> A -> World)
    (out : A -> list B) l w :
  (forall x w0, x ∈ l -> obs (step w0 x) = obs w0 ++ out x) ->
  obs (foldl step w l) = obs w ++ (x ← l; out x).
Proof.
  revert w. induction l as [| x l IH]; intros w Hstep; simpl.
  - rewrite app_nil_r. reflexivity.
  - rewrite IH by (intros y w0 Hy; apply Hstep; right; exact Hy).
    rewrite Hstep by left. rewrite <- app_assoc. reflexivity.
Qed.

End Loops.

Section Subscriptions.
Import BleManager.

(** The loop over the characteristics of one service in
    [setupDataMonitoring]. *)
Lemma monitor_service service chars w :
  let loop := for_each chars (fun char =>
    when (isNotifiable char)
      (log "INFO" [Txt "Subscribing to notifications from "; Val (JStr (char_uuid char))];;
       modify (fun w => set_monitored
         (monitored w ++ [(service_uuid service, char_uuid char)]) w))) in
  fst (loop w) = Return tt
  ∧ monitored (snd (loop w))
    = monitored w ++ ((fun char => (service_uuid service, char_uuid char))
                        <$> List.filter isNotifiable chars).
Proof.
  cbv zeta. rewrite for_each_run.
  2: { intros char w0 _. destruct (isNotifiable char); reflexivity. }
  split; [reflexivity |]. cbn [snd].
  rewrite (foldl_appends monitored _
             (fun char => if isNotifiable char
                          then [(service_uuid service, char_uuid char)] else [])).
  2: { intros char w0 _. destruct (isNotifiable char); [reflexivity |].
       simpl. rewrite app_nil_r. reflexivity. }
  f_equal. induction chars as [| char chars IH]; [reflexivity |].
  rewrite bind_cons, IH. simpl. destruct (isNotifiable char); reflexivity.
Qed.

Lemma setupDataMonitoring_run device found w :
  readable device found ->
  fst (setupDataMonitoring device w) = Return tt
  ∧ monitored (snd (setupDataMonitoring device w))
    = monitored w ++ ((fun p => (service_uuid (fst p), char_uuid (snd p)))
                        <$> picked isNotifiable found).
Proof.
  intros [Hservices Hchars].
  unfold setupDataMonitoring, try_catch.
  rewrite (bind_Return (log _ _) _ w tt _ (log_run _ _ _)).
  set (w0 := snd (log "INFO" [Txt "Setting up data monitoring"] w)).
  rewrite Hservices.
  rewrite (bind_Return (await _) _ w0 found w0 eq_refl).
  set (body := fun service : Service => _).
  assert (Hbody : forall service w1, service ∈ found ->
            fst (body service w1) = Return tt
            ∧ monitored (snd (body service w1))
              = monitored w1 ++ ((fun char => (service_uuid service, char_uuid char))
                                   <$> List.filter isNotifiable (chars_of service))).
  { intros service w1 Hin. unfold body.
    rewrite (proj1 (Forall_forall _ _) Hchars service Hin).
    rewrite (bind_Return (await _) _ w1 _ w1 eq_refl).
    apply monitor_service. }
  rewrite for_each_run by (intros service w1 Hin; apply Hbody; exact Hin).
  split; [reflexivity |]. cbn [snd].
  rewrite (foldl_appends monitored _
             (fun service => (fun char => (service_uuid service, char_uuid char))
                               <$> List.filter isNotifiable (chars_of service))).
  2: { intros service w1 Hin. apply Hbody. exact Hin. }
  change (monitored w0) with (monitored w). f_equal.
  unfold picked. clear. induction found as [| service found IH]; [reflexivity |].
  rewrite !bind_cons, fmap_app, <- IH. f_equal.
  rewrite <- list_fmap_compose. reflexivity.
Qed.

End Subscriptions.

Section Connects.
Import BleManager.

Lemma attemptAuthentication_returns device w :
  attemptAuthentication device w = (Return tt, snd (attemptAuthentication device w)).
Proof.
  apply total_run.
  destruct (traces_attemptAuthentication device w) as (lines & _ & _ & Hr & _).
  exact Hr.
Qed.

Lemma setupDataMonitoring_returns device w :
  setupDataMonitoring device w = (Return tt, snd (setupDataMonitoring device w)).
Proof.
  apply total_run.
  destruct (traces_setupDataMonitoring device w) as (lines & _ & _ & [[] Hr] & _).
  exact Hr.
Qed.

(** The steps of a connection that the radio accepts, one after the other. *)
Lemma connectToDevice_run info connected w :
  central (platform w) (id info) = Return connected ->
  let w0 := snd (log "INFO" [Txt "Attempting to connect to "; Val (JStr (name_or_id info))] w) in
  let w1 := set_ble (set_connectedDevice (Some connected) (ble w0)) w0 in
  let w2 := snd (log "INFO" [Txt "Connected to "; Val (JStr (name_or_id info))] w1) in
  let w3 := snd (discoverServices connected w2) in
  let w4 := snd (attemptAuthentication connected w3) in
  let w5 := snd (setupDataMonitoring connected w4) in
  let w6 := snd (call_connectionCallback true (Some info) w5) in
  connectToDevice info w = (Return tt, snd (startDataUpdates w6)).
Proof.
  intros Hcentral w0 w1 w2 w3 w4 w5 w6. unfold connectToDevice, try_catch.
  rewrite (bind_Return (log _ _) _ w tt _ (log_run _ _ _)). fold w0.
  rewrite (bind_Return (gets _) _ w0 _ w0 eq_refl).
  change (platform w0) with (platform w). rewrite Hcentral.
  rewrite (bind_Return (await _) _ w0 connected w0 eq_refl).
  rewrite (bind_Return (modify_ble _) _ w0 tt w1 eq_refl).
  rewrite (bind_Return (log _ _) _ w1 tt _ (log_run _ _ _)). fold w2.
  rewrite (bind_Return _ _ w2 tt _ (proj1 (steady_run _ w2 (steady_discoverServices _)))).
  fold w3.
  rewrite (bind_Return _ _ w3 tt _ (attemptAuthentication_returns _ _)). fold w4.
  rewrite (bind_Return _ _ w4 tt _ (setupDataMonitoring_returns _ _)). fold w5.
  rewrite (bind_Return _ _ w5 tt _ (proj1 (steady_run _ w5 (steady_call_connectionCallback _ _)))).
  fold w6.
  rewrite (proj1 (steady_run _ w6 steady_startDataUpdates)). reflexivity.
Qed.

Lemma startDataUpdates_effect w :
  let w' := snd (startDataUpdates w) in
  (connectedDevice (ble w'), connectionOut w', dataOut w', monitored w', written w')
  = (connectedDevice (ble w), connectionOut w, dataOut w, monitored w, written w)
  ∧ mockDataInterval (ble w')
    = (if mockDataEnabled (ble w) then Some (S (timers w)) else mockDataInterval (ble w))
  ∧ gpsSubscription (ble w')
    = (if negb (mockDataEnabled (ble w)) && sensorFallbackEnabled (ble w) then
         match locationStatus (platform w), watchPosition (platform w) with
         | Return status, Return _ =>
             if String.eqb status "granted"
             then Some {| lastLocation := None; lastTime := None |}
             else gpsSubscription (ble w)
         | _, _ => gpsSubscription (ble w)
         end
       else gpsSubscription (ble w))
  ∧ accelerometerSubscription (ble w')
    = (if negb (mockDataEnabled (ble w)) && sensorFallbackEnabled (ble w) then
         match accelerometer (platform w) with
         | Return _ => true
         | Throw _ => accelerometerSubscription (ble w)
         end
       else accelerometerSubscription (ble w)).
Proof.
  cbv zeta. unfold startDataUpdates, setupFallbackDataUpdates, startMockDataSimulation,
    startGPSFallback, startAccelerometerFallback, try_catch, log.
  munfold. simpl.
  destruct (mockDataEnabled (ble w)); simpl; [repeat split; reflexivity |].
  destruct (sensorFallbackEnabled (ble w)); simpl; [| repeat split; reflexivity].
  destruct (locationStatus (platform w)) as [status | e]; simpl.
  - destruct (String.eqb status "granted"); simpl;
      destruct (watchPosition (platform w)); simpl;
      destruct (accelerometer (platform w)); simpl; repeat split; reflexivity.
  - destruct (accelerometer (platform w)); simpl; repeat split; reflexivity.
Qed.

End Connects.

Section ConnectionOutcome.
Import BleManager.

Lemma call_connectionCallback_run connected device w :
  call_connectionCallback connected device w =
  (Return tt,
   if connectionCallback (ble w)
   then set_connectionOut (connectionOut w ++ [(connected, device)]) w else w).
Proof.
  unfold call_connectionCallback. munfold. destruct (connectionCallback (ble w)); reflexivity.
Qed.

Lemma monitored_discoverServices device : keeps monitored (discoverServices device).
Proof. unfold discoverServices. keeps_auto. Qed.

Lemma monitored_attemptAuthentication device : keeps monitored (attemptAuthentication device).
Proof.
  unfold attemptAuthentication, authMethods.
  unfold attempt_from, genericKeyAuthentication, challengeResponseAuth, bondingAuthentication.
  keeps_auto.
Qed.

Lemma monitored_startDataUpdates : keeps monitored startDataUpdates.
Proof.
  unfold startDataUpdates, setupFallbackDataUpdates, startMockDataSimulation,
    startGPSFallback, startAccelerometerFallback.
  keeps_auto.
Qed.

Lemma session_startDataUpdates_out :
  keeps (fun w => (connectedDevice (ble w), connectionOut w, dataOut w)) startDataUpdates.
Proof.
  unfold startDataUpdates, setupFallbackDataUpdates, startMockDataSimulation,
    startGPSFallback, startAccelerometerFallback.
  keeps_auto.
Qed.

(** The state in which a connection that the radio accepts notifies the
    consumer and starts the data sources. *)
Lemma connectToDevice_session info connected w :
  central (platform w) (id info) = Return connected ->
  exists w5,
    connectToDevice info w
    = (Return tt, snd (startDataUpdates (snd (call_connectionCallback true (Some info) w5))))
    ∧ session w5 = session (set_ble (set_connectedDevice (Some connected) (ble w)) w)
    ∧ (forall found, readable connected found ->
         monitored w5 = monitored w ++ ((fun p => (service_uuid (fst p), char_uuid (snd p)))
                                          <$> picked isNotifiable found)).
Proof.
  intros Hcentral. eexists. split; [apply connectToDevice_run; exact Hcentral |]. split.
  - rewrite session_setupDataMonitoring, session_attemptAuthentication,
      session_discoverServices. reflexivity.
  - intros found Hreadable.
    rewrite (proj2 (setupDataMonitoring_run connected found _ Hreadable)).
    rewrite monitored_attemptAuthentication, monitored_discoverServices. reflexivity.
Qed.

End ConnectionOutcome.

(** X16.  [connectToDevice] throws exactly when the radio refuses the
    connection, and then rethrows that error after logging it, with nothing
    subscribed, written or stored.  The connection callback, when there is
    one, is called exactly once: with true and the device on success, with
    false and null on failure.  Connecting hands nothing to the data
    callback, and on success the connected device is kept, also when every
    authentication method failed.  (The consumer callbacks are taken not to
    throw.) *)
Theorem connection_outcome (info : DeviceInfo) (w : World) :
  let w' := snd (BleManager.connectToDevice info w) in
  let answer := central (platform w) (id info) in
  fst (BleManager.connectToDevice info w)
  = match answer with Return _ => Return tt | Throw e => Throw e end
  ∧ connectedDevice (ble w')
    = match answer with Return connected => Some connected | Throw _ => connectedDevice (ble w) end
  ∧ connectionOut w'
    = connectionOut w
      ++ (if connectionCallback (ble w)
          then [match answer with Return _ => (true, Some info) | Throw _ => (false, None) end]
          else [])
  ∧ dataOut w' = dataOut w
  ∧ (forall e, answer = Throw e ->
       session w' = session (snd (BleManager.call_connectionCallback false None w))
       ∧ monitored w' = monitored w ∧ written w' = written w
       ∧ asyncStorage w' = asyncStorage w
       ∧ last (debugLogs (ble w'))
         = Some {| timestamp := now w; level := "ERROR";
                   msg := Txt "Connection failed: " :: error_message e |}).
Proof.
  intros w' answer. unfold w', answer.
  destruct (central (platform w) (id info)) as [connected | e] eqn:Hcentral.
  - destruct (connectToDevice_session info connected w Hcentral) as (w5 & Hrun & Hs & _).
    rewrite call_connectionCallback_run in Hrun. cbn [snd] in Hrun.
    rewrite Hrun. cbn [fst snd].
    match goal with
    | |- context [BleManager.startDataUpdates ?w6] =>
        pose proof (session_startDataUpdates_out w6) as Hout
    end.
    cbv beta in Hout. injection Hout as Hc Ho Hd.
    apply session_fields in Hs.
    destruct Hs as (_ & _ & _ & Sd & So & _ & Sc & _ & Scb & _).
    simpl in Sd, So, Sc, Scb.
    rewrite Hc, Ho, Hd, Scb.
    destruct (connectionCallback (ble w)); simpl; rewrite ?Sd, ?So, ?Sc;
      (split; [reflexivity |]); (split; [reflexivity |]); (split; [try reflexivity |]);
      try (rewrite app_nil_r; reflexivity);
      (split; [reflexivity | discriminate]).
  - unfold BleManager.connectToDevice, try_catch.
    rewrite (bind_Return (BleManager.log _ _) _ w tt _ (log_run _ _ _)).
    rewrite (bind_Return (gets _) _ _ _ _ eq_refl).
    change (platform (snd (BleManager.log _ _ w))) with (platform w). rewrite Hcentral.
    rewrite (bind_Throw (await _) _ _ e _ eq_refl).
    rewrite (bind_Return (BleManager.log _ _) _ _ tt _ (log_run _ _ _)).
    rewrite (bind_Return _ _ _ _ _ (call_connectionCallback_run _ _ _)).
    rewrite call_connectionCallback_run. unfold throw. cbn [fst snd].
    split; [reflexivity |]. simpl.
    destruct (connectionCallback (ble w)) eqn:Hcb; simpl;
      (split; [reflexivity |]); (split; [try reflexivity |]);
      try (rewrite app_nil_r; reflexivity);
      (split; [reflexivity |]); intros ? [= <-];
      (split; [reflexivity |]); (split; [reflexivity |]); (split; [reflexivity |]);
      (split; [reflexivity |]).
    + pose proof (log_last "ERROR" (Txt "Connection failed: " :: error_message e)
                    (snd (BleManager.log "INFO"
                            [Txt "Attempting to connect to "; Val (JStr (name_or_id info))] w)))
        as Hlast.
      exact Hlast.
    + pose proof (log_last "ERROR" (Txt "Connection failed: " :: error_message e)
                    (snd (BleManager.log "INFO"
                            [Txt "Attempting to connect to "; Val (JStr (name_or_id info))] w)))
        as Hlast.
      exact Hlast.
Qed.

(** X17.  After a connection to a peripheral whose services and
    characteristics can all be read, the manager has subscribed to the
    notifiable characteristics of every service, in the order of discovery,
    and to nothing else. *)
Theorem connection_subscriptions (info : DeviceInfo) (connected : Device)
    (found : list Service) (w : World)
    (Hcentral : central (platform w) (id info) = Return connected)
    (Hreadable : readable connected found) :
  let w' := snd (BleManager.connectToDevice info w) in
  monitored w'
  = monitored w ++ ((fun p => (service_uuid (fst p), char_uuid (snd p)))
                      <$> picked isNotifiable found)
  ∧ (forall service char,
       (service_uuid service, char_uuid char) ∈ drop (length (monitored w)) (monitored w') ->
       exists s c, s ∈ found ∧ c ∈ chars_of s ∧ isNotifiable c = true
                   ∧ service_uuid s = service_uuid service ∧ char_uuid c = char_uuid char)
  ∧ (forall s c, s ∈ found -> c ∈ chars_of s -> isNotifiable c = true ->
       (service_uuid s, char_uuid c) ∈ monitored w').
Proof.
  intros w'.
  destruct (connectToDevice_session info connected w Hcentral) as (w5 & Hrun & _ & Hmon).
  specialize (Hmon found Hreadable).
  assert (Hfinal : monitored w'
                   = monitored w ++ ((fun p => (service_uuid (fst p), char_uuid (snd p)))
                                       <$> picked isNotifiable found)).
  { unfold w'. rewrite Hrun. cbn [snd]. rewrite monitored_startDataUpdates.
    rewrite call_connectionCallback_run. cbn [snd].
    destruct (connectionCallback (ble w5)); exact Hmon. }
  assert (Hpicked : forall s c, (s, c) ∈ picked isNotifiable found
                                <-> s ∈ found ∧ c ∈ chars_of s ∧ isNotifiable c = true).
  { intros s c. unfold picked. rewrite list_elem_of_bind. split.
    - intros (s' & Hin & Hs'). apply list_elem_of_fmap in Hin.
      destruct Hin as (c' & [= -> ->] & Hc').
      apply list_elem_of_In, List.filter_In in Hc'. destruct Hc' as [Hc' Hn].
      apply list_elem_of_In in Hc'. repeat split; assumption.
    - intros (Hs & Hc & Hn). exists s. split; [| exact Hs].
      apply list_elem_of_fmap. exists c. split; [reflexivity |].
      apply list_elem_of_In, List.filter_In. split; [apply list_elem_of_In, Hc | exact Hn]. }
  split; [exact Hfinal |]. split.
  - intros service char Hin. rewrite Hfinal, drop_app_length in Hin.
    apply list_elem_of_fmap in Hin. destruct Hin as ([s c] & Heq & Hin).
    apply Hpicked in Hin. destruct Hin as (Hs & Hc & Hn).
    injection Heq as Hs' Hc'. exists s, c. repeat split; try assumption; congruence.
  - intros s c Hs Hc Hn. rewrite Hfinal. apply elem_of_app. right.
    apply list_elem_of_fmap. exists (s, c). split; [reflexivity |].
    apply Hpicked. repeat split; assumption.
Qed.

Lemma connection_subscriptions_witness :
  central (platform paired) (id a_bike) = Return uart_device
  ∧ readable uart_device [uart_service]
  ∧ monitored (snd (BleManager.connectToDevice a_bike paired)) = [("6e400001", "6e400003")].
Proof.
  assert (Hreadable : readable uart_device [uart_service])
    by (split; [reflexivity | repeat constructor]).
  split; [reflexivity |]. split; [exact Hreadable |].
  exact (proj1 (connection_subscriptions a_bike uart_device [uart_service] paired
                  eq_refl Hreadable)).
Defined.



Section LoopInvariants.

(** A loop whose body keeps an invariant, returns and appends to an
    observation does so as a whole. *)
Lemma for_each_appends {A B} (I : World -> Prop) (obs : World -> list B)
    (out : A -> list B) (l : list A) (body : A -> M unit) w :
  I w ->
  (forall x w0, x ∈ l -> I w0 ->
     fst (body x w0) = Return tt ∧ I (snd (body x w0))
     ∧ obs (snd (body x w0)) = obs w0 ++ out x) ->
  fst (for_each l body w) = Return tt
  ∧ I (snd (for_each l body w))
  ∧ obs (snd (for_each l body w)) = obs w ++ (x ← l; out x).
Proof.
  revert w. induction l as [| x l IH]; intros w HI Hbody.
  - simpl. rewrite app_nil_r. repeat split. exact HI.
  - destruct (Hbody x w ltac:(left) HI) as (Hret & HI1 & Hobs).
    cbn [for_each]. rewrite (bind_Return _ _ _ _ _ (total_run _ _ Hret)).
    destruct (IH (snd (body x w)) HI1) as (Hret2 & HI2 & Hobs2).
    { intros y w0 Hy. apply Hbody. right. exact Hy. }
    split; [exact Hret2 |]. split; [exact HI2 |].
    rewrite Hobs2, Hobs, bind_cons, <- app_assoc. reflexivity.
Qed.

End LoopInvariants.

Section KeyWrites.
Import BleManager.

(** The loop of [genericKeyAuthentication] over the characteristics of one
    service, when the key can be written to each writable one. *)
Lemma write_service (service : Service) (key : jsval) chars w :
  customSettings (ble w) !! "authKey" = Some key ->
  Buffer.from_value (Some key) = Return tt ->
  (forall c, c ∈ chars -> writable c = true -> writeWithResponse c = Return tt) ->
  let loop := for_each chars (fun char =>
    when (isWritableWithoutResponse char || isWritableWithResponse char)
      (authKey ← gets (fun w => customSettings (ble w) !! "authKey");
       await (Buffer.from_value authKey);;
       await (writeWithResponse char);;
       modify (fun w => set_written
         (written w ++ [(service_uuid service, char_uuid char, default JNull authKey)]) w);;
       log "INFO" [Txt "Wrote auth key to "; Val (JStr (char_uuid char))])) in
  fst (loop w) = Return tt
  ∧ customSettings (ble (snd (loop w))) !! "authKey" = Some key
  ∧ written (snd (loop w))
    = written w ++ ((fun c => (service_uuid service, char_uuid c, key))
                      <$> List.filter writable chars).
Proof.
  intros Hkey Hbuffer Hwrites loop. unfold loop.
  destruct (for_each_appends
              (fun w0 => customSettings (ble w0) !! "authKey" = Some key) written
              (fun c => if writable c then [(service_uuid service, char_uuid c, key)] else [])
              chars
              (fun char =>
                 when (isWritableWithoutResponse char || isWritableWithResponse char)
                   (authKey ← gets (fun w => customSettings (ble w) !! "authKey");
                    await (Buffer.from_value authKey);;
                    await (writeWithResponse char);;
                    modify (fun w => set_written
                      (written w ++ [(service_uuid service, char_uuid char,
                                      default JNull authKey)]) w);;
                    log "INFO" [Txt "Wrote auth key to "; Val (JStr (char_uuid char))]))
              w Hkey) as (Hret & HI & Hwritten).
  { intros c w1 Hc HI1. fold (writable c).
    destruct (writable c) eqn:Hw; cbn [when].
    - rewrite (bind_Return (gets _) _ w1 (Some key) w1)
        by (unfold gets; rewrite HI1; reflexivity).
      rewrite Hbuffer. rewrite (bind_Return (await _) _ w1 tt w1 eq_refl).
      rewrite (Hwrites c Hc Hw).
      rewrite (bind_Return (await _) _ w1 tt w1 eq_refl).
      rewrite (bind_Return (modify _) _ w1 tt _ eq_refl).
      rewrite log_run. cbn [fst snd]. repeat split. exact HI1.
    - repeat split; [exact HI1 |]. simpl. rewrite app_nil_r. reflexivity. }
  split; [exact Hret |]. split; [exact HI |].
  rewrite Hwritten. f_equal. clear.
  induction chars as [| c chars IH]; [reflexivity |].
  rewrite bind_cons, IH. simpl. destruct (writable c); reflexivity.
Qed.

End KeyWrites.

(** X19.  When the services of a peripheral can be read, the configured
    key can be turned into a buffer and the writes succeed, the generic key
    authentication writes the key to every writable characteristic of
    every service, in the order of discovery, and to nothing else. *)
Theorem generic_key_writes (device : Device) (found : list Service) (key : jsval) (w : World)
    (Hreadable : readable device found)
    (Hkey : customSettings (ble w) !! "authKey" = Some key)
    (Hbuffer : Buffer.from_value (Some key) = Return tt)
    (Hwrites : forall s c, s ∈ found -> c ∈ chars_of s -> writable c = true ->
                 writeWithResponse c = Return tt) :
  let w' := snd (BleManager.genericKeyAuthentication device w) in
  fst (BleManager.genericKeyAuthentication device w) = Return tt
  ∧ written w'
    = written w ++ ((fun p => (service_uuid (fst p), char_uuid (snd p), key))
                      <$> picked writable found).
Proof.
  intros w'. destruct Hreadable as [Hservices Hchars].
  unfold w', BleManager.genericKeyAuthentication, try_catch.
  rewrite Hservices. rewrite (bind_Return (await _) _ w found w eq_refl).
  match goal with
  | |- context [for_each found ?body] =>
      destruct (for_each_appends
                  (fun w0 => customSettings (ble w0) !! "authKey" = Some key) written
                  (fun service => (fun c => (service_uuid service, char_uuid c, key))
                                    <$> List.filter writable (chars_of service))
                  found body w Hkey) as (Hret & _ & Hwritten)
  end.
  { intros service w0 Hs HI0.
    rewrite (proj1 (Forall_forall _ _) Hchars service Hs).
    rewrite (bind_Return (await _) _ w0 _ w0 eq_refl).
    apply (write_service service key (chars_of service) w0 HI0 Hbuffer).
    intros c Hc Hw. exact (Hwrites service c Hs Hc Hw). }
  rewrite (total_run _ _ Hret). cbn [fst snd].
  split; [reflexivity |].
  rewrite Hwritten. f_equal. unfold picked. clear.
  induction found as [| service found IH]; [reflexivity |].
  rewrite !bind_cons, fmap_app, <- IH. f_equal.
  rewrite <- list_fmap_compose. reflexivity.
Qed.

Lemma generic_key_writes_witness :
  readable uart_device [uart_service]
  ∧ customSettings (ble paired) !! "authKey" = Some (JStr "YEZDI_AUTH_DEFAULT")
  ∧ fst (BleManager.genericKeyAuthentication uart_device paired) = Return tt
  ∧ written (snd (BleManager.genericKeyAuthentication uart_device paired))
    = [("6e400001", "6e400002", JStr "YEZDI_AUTH_DEFAULT")].
Proof.
  assert (Hreadable : readable uart_device [uart_service])
    by (split; [reflexivity | repeat constructor]).
  split; [exact Hreadable |]. split; [reflexivity |].
  apply (generic_key_writes uart_device [uart_service] (JStr "YEZDI_AUTH_DEFAULT") paired
           Hreadable eq_refl eq_refl).
  intros s c Hs Hc Hw.
  apply list_elem_of_singleton in Hs. subst s.
  cbn in Hc. repeat (apply elem_of_cons in Hc; destruct Hc as [-> | Hc]);
    try reflexivity; try discriminate Hw.
  inversion Hc.
Defined.


Section ClearAll.
Import StorageManager.

Lemma lookup_foldr_delete (m : gmap string Stored) ks k :
  (k ∈ ks -> foldr delete m ks !! k = None)
  ∧ (k ∉ ks -> foldr delete m ks !! k = m !! k).
Proof.
  induction ks as [| k0 ks [IHin IHout]]; cbn [foldr].
  - split; [intros H; inversion H | reflexivity].
  - destruct (decide (k = k0)) as [-> | Hne].
    + split; [intros _; apply lookup_delete_eq |].
      intros H. exfalso. apply H. left.
    + rewrite lookup_delete_ne by congruence. split.
      * intros H. apply elem_of_cons in H. destruct H; [congruence | auto].
      * intros H. apply IHout. intros Hin. apply H. right. exact Hin.
Qed.

End ClearAll.

(** X21.  On a store that accepts the call, [clearAllData] removes the
    seven keys of the storage manager and no other: the getters return
    their defaults afterwards, while the custom settings that the BLE
    manager keeps under its own key stay in the store and are loaded again
    by [loadCachedSettings]. *)
Theorem clear_all_data (ToNumber : jsval -> jsnum) (w : World)
    (Hstore : storageFault (platform w) = None) :
  let w' := snd (StorageManager.clearAllData w) in
  fst (StorageManager.clearAllData w) = Return true
  ∧ (forall k, k ∈ StorageManager.keys -> asyncStorage w' !! k = None)
  ∧ (forall k, k ∉ StorageManager.keys -> asyncStorage w' !! k = asyncStorage w !! k)
  ∧ asyncStorage w' !! "yezdi_custom_settings" = asyncStorage w !! "yezdi_custom_settings"
  ∧ fst (StorageManager.getCachedData ToNumber w') = Return JNull
  ∧ fst (StorageManager.getDebugLogs w') = Return (JArr [])
  ∧ (forall defaultSettings,
       fst (StorageManager.getSettings defaultSettings w') = Return defaultSettings)
  ∧ (exists defaults,
       fst (StorageManager.getCustomBLESettings w') = Return (JObj defaults)
       ∧ defaults !! "authKey" = Some (JStr "YEZDI_AUTH_DEFAULT"))
  ∧ (forall parsed,
       asyncStorage w !! "yezdi_custom_settings" = Some (JsonText parsed) ->
       customSettings (ble (snd (BleManager.loadCachedSettings w')))
       = spread parsed ∪ customSettings (ble w)).
Proof.
  intros w'.
  assert (Hrun : StorageManager.clearAllData w
                 = (Return true,
                    set_asyncStorage (foldr delete (asyncStorage w) StorageManager.keys) w)).
  { unfold StorageManager.clearAllData, try_catch, AsyncStorage_multiRemove, mbind, M_bind.
    rewrite Hstore. reflexivity. }
  unfold w'. rewrite Hrun. cbn [fst snd].
  assert (Hin : forall k, k ∈ StorageManager.keys ->
                  foldr delete (asyncStorage w) StorageManager.keys !! k = None).
  { intros k Hk. exact (proj1 (lookup_foldr_delete _ _ k) Hk). }
  assert (Hout : forall k, k ∉ StorageManager.keys ->
                   foldr delete (asyncStorage w) StorageManager.keys !! k
                   = asyncStorage w !! k).
  { intros k Hk. exact (proj2 (lookup_foldr_delete _ _ k) Hk). }
  assert (Hkept : "yezdi_custom_settings" ∉ StorageManager.keys).
  { intros H. unfold StorageManager.keys in H.
    repeat (apply elem_of_cons in H; destruct H as [H | H]; [discriminate H |]).
    inversion H. }
  assert (Hdefault : forall key d, key ∈ StorageManager.keys ->
            StorageManager.getItem key d
              (set_asyncStorage (foldr delete (asyncStorage w) StorageManager.keys) w)
            = (Return d,
               set_asyncStorage (foldr delete (asyncStorage w) StorageManager.keys) w)).
  { intros key d Hkey. rewrite getItem_run.
    cbn [platform asyncStorage set_asyncStorage]. rewrite Hstore, (Hin key Hkey).
    reflexivity. }
  split; [reflexivity |]. split; [exact Hin |]. split; [exact Hout |].
  split; [exact (Hout _ Hkept) |]. split; [| split; [| split; [| split]]].
  - unfold StorageManager.getCachedData, mbind, M_bind.
    rewrite Hdefault by (unfold StorageManager.keys, StorageManager.CACHED_DATA; set_solver).
    reflexivity.
  - unfold StorageManager.getDebugLogs.
    rewrite Hdefault by (unfold StorageManager.keys; set_solver). reflexivity.
  - intros d. unfold StorageManager.getSettings.
    rewrite Hdefault by (unfold StorageManager.keys; set_solver). reflexivity.
  - eexists. unfold StorageManager.getCustomBLESettings.
    rewrite Hdefault by (unfold StorageManager.keys; set_solver).
    split; reflexivity.
  - intros parsed Hparsed.
    match goal with
    | |- context [BleManager.loadCachedSettings ?w0] =>
        destruct (loadCachedSettings_effect w0) as (_ & _ & _ & Hset)
    end.
    rewrite Hset. cbn [platform asyncStorage set_asyncStorage ble customSettings].
    rewrite Hstore.
    rewrite (Hin "yezdi_cached_data") by (unfold StorageManager.keys; set_solver).
    rewrite (Hout _ Hkept), Hparsed. reflexivity.
Qed.

Lemma clear_all_data_witness :
  let w := stocked calm_platform in
  let w' := snd (StorageManager.clearAllData w) in
  storageFault (platform w) = None
  ∧ asyncStorage w !! "yezdi_cached_data" = Some (JsonText a_snapshot)
  ∧ asyncStorage w' !! "yezdi_cached_data" = None
  ∧ asyncStorage w' !! "yezdi_custom_settings" = Some (JsonText some_settings).
Proof.
  intros w w'.
  destruct (clear_all_data ToNumber_of_numbers w eq_refl) as (_ & Hin & _ & Hkept & _).
  fold w' in Hin, Hkept.
  split; [reflexivity |]. split; [reflexivity |]. split.
  - apply Hin. unfold StorageManager.keys. set_solver.
  - rewrite Hkept. reflexivity.
Defined.

(** ** Switches and notifications *)

Section Switches.
Import BleManager.

Lemma store_mockTick w :
  cachedDataEnabled (ble w) = false -> asyncStorage (snd (mockTick w)) = asyncStorage w.
Proof.
  intros Hoff.
  assert (Hkeep : forall m : M unit,
            keeps (fun w0 => (asyncStorage w0, cachedDataEnabled (ble w0))) m ->
            forall w0, cachedDataEnabled (ble w0) = false ->
                       asyncStorage (snd (m w0)) = asyncStorage w0
                       ∧ cachedDataEnabled (ble (snd (m w0))) = false).
  { intros m Hm w0 H0. specialize (Hm w0). cbv beta in Hm. injection Hm as -> ->.
    split; [reflexivity | exact H0]. }
  unfold mockTick.
  destruct (tick_speed_run w) as [R1 _]. rewrite (bind_Return _ _ _ _ _ (total_run _ _ R1)).
  destruct (Hkeep tick_speed) with (w0 := w) as [S1 C1]; [| exact Hoff |].
  { unfold tick_speed, the_mockData, modify_mockData. keeps_auto. }
  set (w1 := snd (tick_speed w)) in *.
  destruct (tick_rpm_run w1) as [R2 _]. rewrite (bind_Return _ _ _ _ _ (total_run _ _ R2)).
  destruct (Hkeep tick_rpm) with (w0 := w1) as [S2 C2]; [| exact C1 |].
  { unfold tick_rpm, the_mockData, modify_mockData. keeps_auto. }
  set (w2 := snd (tick_rpm w1)) in *.
  destruct (tick_fuel_run w2) as [R3 _]. rewrite (bind_Return _ _ _ _ _ (total_run _ _ R3)).
  destruct (Hkeep tick_fuel) with (w0 := w2) as [S3 C3]; [| exact C2 |].
  { unfold tick_fuel, the_mockData, modify_mockData. keeps_auto. }
  set (w3 := snd (tick_fuel w2)) in *.
  destruct (tick_gear_run w3) as [R4 _]. rewrite (bind_Return _ _ _ _ _ (total_run _ _ R4)).
  destruct (Hkeep tick_gear) with (w0 := w3) as [S4 C4]; [| exact C3 |].
  { unfold tick_gear, the_mockData, modify_mockData. keeps_auto. }
  set (w4 := snd (tick_gear w3)) in *.
  unfold tick_publish, the_mockData.
  rewrite (bind_Return (gets _) _ w4 _ w4 eq_refl).
  rewrite (bind_Return (modify_ble _) _ _ tt _ eq_refl).
  rewrite (bind_Return _ _ _ _ _ (cacheData_effect _ _)).
  rewrite call_dataCallback_run. cbn [snd].
  cbn [cachedDataEnabled ble set_ble set_lastKnownData]. rewrite C4.
  destruct (dataCallback _); cbn [asyncStorage set_dataOut set_ble]; congruence.
Qed.

End Switches.

(** X22.  The three switches take effect on what follows.  After
    [setCachedDataEnabled(false)] neither a decoded frame nor a tick of the
    generator writes to the store.  After [setSensorFallbackEnabled(false)]
    [startDataUpdates] starts no sensor.  After [setMockDataEnabled(true)]
    the timer runs, [startDataUpdates] restarts it and starts no sensor, and
    [setMockDataEnabled(false)] stops it. *)
Theorem fallback_switches (w : World) :
  (let off := snd (BleManager.setCachedDataEnabled false w) in
   (forall buffer, asyncStorage (snd (BleManager.parseIncomingData buffer off))
                   = asyncStorage w)
   ∧ asyncStorage (snd (BleManager.mockTick off)) = asyncStorage w)
  ∧ (let off := snd (BleManager.setSensorFallbackEnabled false w) in
     let started := snd (BleManager.startDataUpdates off) in
     gpsSubscription (ble started) = gpsSubscription (ble w)
     ∧ accelerometerSubscription (ble started) = accelerometerSubscription (ble w))
  ∧ (let on := snd (BleManager.setMockDataEnabled true w) in
     let started := snd (BleManager.startDataUpdates on) in
     mockDataInterval (ble on) = Some (S (timers w))
     ∧ mockDataInterval (ble started) = Some (S (S (timers w)))
     ∧ gpsSubscription (ble started) = gpsSubscription (ble w)
     ∧ accelerometerSubscription (ble started) = accelerometerSubscription (ble w)
     ∧ mockDataInterval (ble (snd (BleManager.setMockDataEnabled false on))) = None).
Proof.
  split; [| split].
  - cbv zeta. split.
    + intros buffer. rewrite parse_cache_off; reflexivity.
    + rewrite store_mockTick; reflexivity.
  - cbv zeta.
    destruct (startDataUpdates_effect (snd (BleManager.setSensorFallbackEnabled false w)))
      as (_ & _ & Hgps & Hacc).
    rewrite Hgps, Hacc. simpl. rewrite andb_false_r. split; reflexivity.
  - cbv zeta.
    destruct (startDataUpdates_effect (snd (BleManager.setMockDataEnabled true w)))
      as (_ & Hmi & Hgps & Hacc).
    rewrite Hmi, Hgps, Hacc. repeat split; reflexivity.
Qed.

(** X23.  For every buffer of one to three bytes the decoder emits the
    first byte as speed with gear 1, engine speed 0, fuel 0, mode Road, all
    flags off and the odometer '--'. *)
Theorem basic_tier_decode (buffer : list byte) (w : World)
    (Hlen : 1 <= length buffer <= 3) :
  exists data,
    decodes buffer w data
    ∧ data !! "speed" = Some (int (Buffer.at_ buffer 0))
    ∧ data !! "gear" = Some (int 1)
    ∧ data !! "rpm" = Some (int 0)
    ∧ data !! "fuel" = Some (int 0)
    ∧ data !! "ridingMode" = Some (JStr "Road")
    ∧ data !! "highBeam" = Some (JBool false)
    ∧ data !! "hazard" = Some (JBool false)
    ∧ data !! "engineCheck" = Some (JBool false)
    ∧ data !! "battery" = Some (JBool false)
    ∧ data !! "odometer" = Some (JStr "--").
Proof.
  destruct (basic_decoded buffer w ltac:(lia)) as (data & Hdec & _ & Hspeed & Hrest).
  exists data. split; [exact Hdec |]. split; [| exact Hrest].
  rewrite Hspeed. destruct (Nat.ltb_spec 0 (length buffer)); [reflexivity | lia].
Qed.

Lemma basic_tier_decode_witness :
  let buffer := Buffer.of_list [45; 3]%Z in
  1 <= length buffer <= 3
  ∧ exists data,
      decodes buffer listening data
      ∧ data !! "speed" = Some (int 45)
      ∧ data !! "gear" = Some (int 1)
      ∧ data !! "rpm" = Some (int 0)
      ∧ data !! "fuel" = Some (int 0)
      ∧ data !! "ridingMode" = Some (JStr "Road")
      ∧ data !! "highBeam" = Some (JBool false)
      ∧ data !! "hazard" = Some (JBool false)
      ∧ data !! "engineCheck" = Some (JBool false)
      ∧ data !! "battery" = Some (JBool false)
      ∧ data !! "odometer" = Some (JStr "--").
Proof.
  intros buffer. split; [vm_compute; lia |].
  exact (basic_tier_decode buffer listening ltac:(vm_compute; lia)).
Defined.

(** X24.  The notification callback never throws.  On an error it only
    logs it: nothing is decoded, emitted or stored.  Without a value it does
    nothing.  With a value it decodes it: the data callback receives one
    record, the fallback record for a buffer of ten bytes and otherwise the
    record that becomes the last known data. *)
Theorem notification_outcome (error : option exn) (value : option (list byte)) (w : World) :
  let w' := snd (BleManager.onNotification error value w) in
  fst (BleManager.onNotification error value w) = Return tt
  ∧ (forall e, error = Some e ->
       session w' = session w
       ∧ asyncStorage w' = asyncStorage w
       ∧ last (debugLogs (ble w'))
         = Some {| timestamp := now w; level := "ERROR";
                   msg := Txt "Monitoring error: " :: error_message e |})
  ∧ (error = None -> value = None -> w' = w)
  ∧ (forall buffer, error = None -> value = Some buffer ->
       BleManager.onNotification error value w = BleManager.parseIncomingData buffer w
       ∧ exists record,
           dataOut w' = (if dataCallback (ble w) then dataOut w ++ [record] else dataOut w)
           ∧ (length buffer = 10 -> record = BleManager.fallbackData)
           ∧ (length buffer ≠ 10 -> lastKnownData (ble w') = record)).
Proof.
  cbv zeta. destruct error as [e |].
  - split; [reflexivity |]. split; [| split; discriminate].
    intros ? [= <-]. split; [reflexivity |]. split; [reflexivity | apply log_last].
  - destruct value as [buffer |].
    + cbn [BleManager.onNotification].
      destruct (Nat.eq_dec (length buffer) 10) as [Hten | Hlen].
      * pose proof (parse_try_ten buffer w Hten) as Htry.
        destruct (parse_caught buffer w _ _ Htry) as (Hret & Hout & _).
        split; [exact Hret |]. split; [discriminate |]. split; [discriminate |].
        intros ? _ [= <-]. split; [reflexivity |].
        exists BleManager.fallbackData. split; [exact Hout |].
        split; [reflexivity | contradiction].
      * destruct (decode_effect buffer w Hlen)
          as (data & _ & _ & _ & _ & [[Hret Hout] Hlast] & _).
        split; [exact Hret |]. split; [discriminate |]. split; [discriminate |].
        intros ? _ [= <-]. split; [reflexivity |].
        eexists. split; [exact Hout |]. split; [contradiction | intros _; exact Hlast].
    + split; [reflexivity |]. split; [discriminate |]. split; [reflexivity | discriminate].
Qed.
